(** * RTC basics example (main.c): input parsing, calendar validation and
      the DST configuration flow

    A shallow embedding of [src/main.c].  C integers are [Z]; where the C
    code converts an [int] to an unsigned type the conversion is written
    out ([to_uint32], [to_uint8]).  Calls into the peripheral driver
    library are operations of the [PDL] interface; every call is also
    recorded in a chronological log so that statements can speak about
    which hardware calls a flow made, in which order and with which
    arguments. *)

From Stdlib Require Import ZArith Lia Bool String Ascii.
From stdpp Require Import base list.

Local Open Scope Z_scope.

(** ** Machine integers *)

Definition to_uint32 (x : Z) : Z := x mod 2 ^ 32.
Definition to_uint8 (x : Z) : Z := x mod 2 ^ 8.

(** C truth values: a comparison yields the [int] 0 or 1; a scalar is
    true when it is not 0. *)
Definition c_int (b : bool) : Z := if b then 1 else 0.
Definition c_true (z : Z) : bool := negb (z =? 0).

(** ** Macros of main.c *)

Definition UART_TIMEOUT_MS : Z := 10.
Definition INPUT_TIMEOUT_MS : Z := 120000.
Definition UART_GET_CHAR_DELAY : Z := 1.
Definition MAX_ATTEMPTS : Z := 500.
Definition INIT_DELAY_MS : Z := 5.
Definition STRING_BUFFER_SIZE : Z := 80.

Definition RTC_CMD_SET_DATE_TIME : Z := 49.   (* '1' *)
Definition RTC_CMD_CONFIG_DST : Z := 50.      (* '2' *)
Definition RTC_CMD_ENABLE_DST : Z := 49.      (* '1' *)
Definition RTC_CMD_DISABLE_DST : Z := 50.     (* '2' *)
Definition RTC_CMD_QUIT_CONFIG_DST : Z := 51. (* '3' *)
Definition FIXED_DST_FORMAT : Z := 49.        (* '1' *)
Definition RELATIVE_DST_FORMAT : Z := 50.     (* '2' *)

Definition MIN_SPACE_KEY_COUNT : Z := 5.

Definition DST_DISABLED_FLAG : Z := 0.
Definition DST_VALID_START_TIME_FLAG : Z := 1.
Definition DST_VALID_END_TIME_FLAG : Z := 2.
Definition DST_ENABLED_FLAG : Z := 3.

Definition LEAP_YEAR_MONTH1 : Z := 1.
Definition LEAP_YEAR_MONTH2 : Z := 2.

(** [IS_LEAP_YEAR(year)]: the operands [4UL], [100UL], [400UL] make the
    remainders unsigned, so [year] is converted first. *)
Definition IS_LEAP_YEAR (year : Z) : bool :=
  let y := to_uint32 year in
  ((0 =? y mod 4) && negb (0 =? y mod 100)) || (0 =? y mod 400).

(** ** Names taken from the driver library headers *)

(** Modelled from the spec: the header that defines the range macros
    [CY_RTC_IS_SEC_VALID] .. [CY_RTC_IS_YEAR_LONG_VALID], the month
    lengths and [CY_RTC_MONTHS_PER_YEAR] is not among the sources.
    Section 4.2 gives the ranges: sec and min in [0,59], hour in [0,23],
    month in [1,12], year non-negative (the upper bound of the year is
    the range of the C [int] that carries it), and the twelve month
    lengths 31,28,31,30,31,30,31,31,30,31,30,31. *)
Definition CY_RTC_IS_SEC_VALID (sec : Z) : Z := c_int ((0 <=? sec) && (sec <=? 59)).
Definition CY_RTC_IS_MIN_VALID (min : Z) : Z := c_int ((0 <=? min) && (min <=? 59)).
Definition CY_RTC_IS_HOUR_VALID (hour : Z) : Z := c_int ((0 <=? hour) && (hour <=? 23)).
Definition CY_RTC_IS_MONTH_VALID (month : Z) : Z := c_int ((1 <=? month) && (month <=? 12)).
Definition CY_RTC_IS_YEAR_LONG_VALID (year : Z) : Z := c_int (0 <=? year).

Definition CY_RTC_MONTHS_PER_YEAR : Z := 12.
Definition CY_RTC_DAYS_IN_JANUARY : Z := 31.
Definition CY_RTC_DAYS_IN_FEBRUARY : Z := 28.
Definition CY_RTC_DAYS_IN_MARCH : Z := 31.
Definition CY_RTC_DAYS_IN_APRIL : Z := 30.
Definition CY_RTC_DAYS_IN_MAY : Z := 31.
Definition CY_RTC_DAYS_IN_JUNE : Z := 30.
Definition CY_RTC_DAYS_IN_JULY : Z := 31.
Definition CY_RTC_DAYS_IN_AUGUST : Z := 31.
Definition CY_RTC_DAYS_IN_SEPTEMBER : Z := 30.
Definition CY_RTC_DAYS_IN_OCTOBER : Z := 31.
Definition CY_RTC_DAYS_IN_NOVEMBER : Z := 30.
Definition CY_RTC_DAYS_IN_DECEMBER : Z := 31.

(** Status words.  [CY_SCB_UART_RX_NO_DATA] is the all-ones word returned
    by the receive primitive when the FIFO is empty; the success codes
    are 0. *)
Definition CY_SCB_UART_RX_NO_DATA : Z := 4294967295.
Definition CY_RSLT_SUCCESS : Z := 0.
Definition CY_RTC_SUCCESS : Z := 0.

(** ** validate_date_time (main.c 703-740) *)

Definition days_in_month_table : list Z :=
  [ CY_RTC_DAYS_IN_JANUARY; CY_RTC_DAYS_IN_FEBRUARY; CY_RTC_DAYS_IN_MARCH;
    CY_RTC_DAYS_IN_APRIL; CY_RTC_DAYS_IN_MAY; CY_RTC_DAYS_IN_JUNE;
    CY_RTC_DAYS_IN_JULY; CY_RTC_DAYS_IN_AUGUST; CY_RTC_DAYS_IN_SEPTEMBER;
    CY_RTC_DAYS_IN_OCTOBER; CY_RTC_DAYS_IN_NOVEMBER; CY_RTC_DAYS_IN_DECEMBER ].

(** The index expression [month - LEAP_YEAR_MONTH1] of line 730; the
    constant is [1u], so the subtraction is unsigned. *)
Definition days_in_month_index (month : Z) : Z := to_uint32 (month - LEAP_YEAR_MONTH1).

(** The range part of the check, line 725-726: five [int] results joined
    by the bitwise [&] and stored in a [bool]. *)
Definition range_checks (sec min hour month year : Z) : bool :=
  c_true (Z.land (Z.land (Z.land (Z.land (CY_RTC_IS_SEC_VALID sec)
                                         (CY_RTC_IS_MIN_VALID min))
                                 (CY_RTC_IS_HOUR_VALID hour))
                         (CY_RTC_IS_MONTH_VALID month))
                 (CY_RTC_IS_YEAR_LONG_VALID year)).

(** The day test of line 737.  [mday > 0U] compares an [int] with an
    unsigned constant, so [mday] is converted to unsigned first;
    [mday <= days_in_month] promotes the [uint8_t] to [int] and compares
    signed. *)
Definition day_check (mday days_in_month : Z) : bool :=
  (0 <? to_uint32 mday) && (mday <=? days_in_month).

(** The result is [None] exactly when the table would be read outside
    its twelve entries (the C program has no defined result there). *)
Definition validate_date_time (sec min hour mday month year : Z) : option bool :=
  let rslt := range_checks sec min hour month year in
  if rslt then
    match days_in_month_table !! Z.to_nat (days_in_month_index month) with
    | None => None
    | Some days_in_month =>
        let days_in_month :=
          if IS_LEAP_YEAR year && (to_uint32 month =? LEAP_YEAR_MONTH2)
          then to_uint8 (days_in_month + 1)
          else days_in_month in
        Some (c_true (Z.land (c_int rslt) (c_int (day_check mday days_in_month))))
    end
  else Some rslt.

(** The calendar of the specification (section 8): month lengths with
    February extended in leap years. *)
Definition leap_year_rule (y : Z) : bool :=
  ((y mod 4 =? 0) && negb (y mod 100 =? 0)) || (y mod 400 =? 0).

Definition days_in_month (mo y : Z) : Z :=
  nth (Z.to_nat (mo - 1)) [31; 28; 31; 30; 31; 30; 31; 31; 30; 31; 30; 31] 0
  + (if (mo =? 2) && leap_year_rule y then 1 else 0).

(** What the sixth sentence of section 8 asks of the validator. *)
Definition validate_spec (d mo y : Z) : Prop := 1 <= d <= days_in_month mo y.

Definition in_domain (s m h mo y : Z) : Prop :=
  0 <= s <= 59 /\ 0 <= m <= 59 /\ 0 <= h <= 23 /\ 1 <= mo <= 12 /\ 0 <= y.

(** ** DST descriptors *)

Inductive cy_en_rtc_dst_format_t := CY_RTC_DST_RELATIVE | CY_RTC_DST_FIXED.

(** Modelled from the spec: the declaration of the DST descriptor is in a
    driver header that is not among the sources; section 3 lists its
    members as integers, and they are kept as [Z] here, stored as
    assigned. *)
Record cy_stc_rtc_dst_format_t := {
  format : cy_en_rtc_dst_format_t;
  hour : Z;
  dayOfMonth : Z;
  weekOfMonth : Z;
  dayOfWeek : Z;
  month : Z
}.

(** The local [dst_time] of [set_dst_feature] is declared without an
    initialiser.  A half that has not been assigned in the current call
    is [None]: its storage holds whatever was there before. *)
Record cy_stc_rtc_dst_t := {
  startDst : option cy_stc_rtc_dst_format_t;
  stopDst : option cy_stc_rtc_dst_format_t
}.

(** ** Console texts *)

(** The texts handed to [Cy_SCB_UART_PutString].  Consecutive calls that
    print the lines of one menu are one constructor, and the variants of
    the invalid-values text, which differ in blanks only, are one. *)
Inductive message :=
| MsgDstStatusActive        (* Current DST Status :: Active *)
| MsgDstStatusInactive      (* Current DST Status :: Inactive *)
| MsgDstStatusDisabled      (* Current DST Status :: Disabled *)
| MsgDstMenu                (* Available DST commands ... 3 : Quit DST Configuration *)
| MsgDstFormatMenu          (* Enter DST format ... 2 : Relative DST format *)
| MsgEnterDstStart          (* Enter DST start time in mm dd HH MM SS yy format *)
| MsgEnterDstEnd            (* Enter DST end time in mm dd HH MM SS yy format *)
| MsgEnterTime              (* Enter time in mm dd HH MM SS yy format *)
| MsgInvalidValues          (* Invalid values! Please enter the values in specified format *)
| MsgTimeout                (* Timeout *)
| MsgDstTimeUpdated         (* DST time updated *)
| MsgDstDisabled            (* DST feature disabled *)
| MsgDstExit                (* Exit from DST Configuration *)
| MsgRtcTimeUpdated         (* RTC time updated *)
| MsgNewline.               (* the pair line feed, carriage return *)

(** ** The driver library as an interface *)

(** One constructor per driver call, with the arguments passed and the
    value returned. *)
Inductive event :=
| UartGet (read_value : Z)
| UartPut (c : Z) (count : Z)
| UartPutString (s : message)
| SysLibDelay (ms : Z)
| RtcInit (status : Z)
| RtcSetDateAndTimeDirect (sec min hour date month year : Z) (status : Z)
| RtcEnableDstTime (dst : cy_stc_rtc_dst_t) (status : Z)
| RtcGetDstStatus (active : bool)
| HandleError.

(** The hardware and the person at the terminal are an arbitrary state
    machine [Env]; each driver call is a transition of it.
    [Cy_SCB_UART_Get] yields the received word or
    [CY_SCB_UART_RX_NO_DATA]; [Cy_SCB_UART_Put] yields the number of
    elements placed in the transmit FIFO, 0 or 1. *)
Class PDL (Env : Type) := {
  Cy_SCB_UART_Get : Env -> Z * Env;
  Cy_SCB_UART_Put : Z -> Env -> Z * Env;
  Cy_SCB_UART_PutString : message -> Env -> Env;
  Cy_SysLib_Delay : Z -> Env -> Env;
  Cy_RTC_Init : Env -> Z * Env;
  Cy_RTC_SetDateAndTimeDirect : Z -> Z -> Z -> Z -> Z -> Z -> Env -> Z * Env;
  Cy_RTC_EnableDstTime : cy_stc_rtc_dst_t -> Env -> Z * Env;
  Cy_RTC_GetDstStatus : Env -> bool * Env;
  Cy_RTC_ConvertDayOfWeek : Z -> Z -> Z -> Z;
  Cy_SCB_UART_Put_count :
    forall c e, (Cy_SCB_UART_Put c e).1 = 0 \/ (Cy_SCB_UART_Put c e).1 = 1
}.

(** ** Program state and the monad of the flows *)

(** [hw] is the environment, [log] the driver calls made so far, newest
    first, and [dst_data_flag] the global of line 95. *)
Record machine (Env : Type) := Machine {
  hw : Env;
  log : list event;
  dst_data_flag : Z
}.
Arguments Machine {Env}.
Arguments hw {Env}.
Arguments log {Env}.
Arguments dst_data_flag {Env}.

(** A computation either returns, or stops in [handle_error] (interrupts
    off, assertion failed), or has used up the fuel given to its loops. *)
Inductive outcome (Env A : Type) :=
| Done (a : A) (m : machine Env)
| Halted (m : machine Env)
| OutOfFuel.
Arguments Done {Env A}.
Arguments Halted {Env A}.
Arguments OutOfFuel {Env A}.

Definition M (Env A : Type) : Type := machine Env -> outcome Env A.

Definition ret {Env A} (a : A) : M Env A := fun m => Done a m.

Definition bind {Env A B} (c : M Env A) (k : A -> M Env B) : M Env B :=
  fun m =>
    match c m with
    | Done a m' => k a m'
    | Halted m' => Halted m'
    | OutOfFuel => OutOfFuel
    end.

Definition out_of_fuel {Env A} : M Env A := fun _ => OutOfFuel.

Notation "x <- c ;; k" := (bind c (fun x => k))
  (at level 100, c at next level, right associativity).
Notation "c ;; k" := (bind c (fun _ => k))
  (at level 100, right associativity).

(** The final machine of a run that did not run out of fuel. *)
Definition final {Env A} (o : outcome Env A) : option (machine Env) :=
  match o with
  | Done _ m => Some m
  | Halted m => Some m
  | OutOfFuel => None
  end.

Section Calls.
Context {Env : Type} `{PDL Env}.

Definition record_call (e : Env) (ev : event) (m : machine Env) : machine Env :=
  Machine e (ev :: log m) (dst_data_flag m).

Definition uart_get : M Env Z := fun m =>
  let r := Cy_SCB_UART_Get (hw m) in
  Done r.1 (record_call r.2 (UartGet r.1) m).

Definition uart_put (c : Z) : M Env Z := fun m =>
  let r := Cy_SCB_UART_Put c (hw m) in
  Done r.1 (record_call r.2 (UartPut c r.1) m).

Definition uart_put_string (s : message) : M Env unit := fun m =>
  Done tt (record_call (Cy_SCB_UART_PutString s (hw m)) (UartPutString s) m).

Definition syslib_delay (ms : Z) : M Env unit := fun m =>
  Done tt (record_call (Cy_SysLib_Delay ms (hw m)) (SysLibDelay ms) m).

Definition rtc_init_call : M Env Z := fun m =>
  let r := Cy_RTC_Init (hw m) in
  Done r.1 (record_call r.2 (RtcInit r.1) m).

Definition rtc_set_date_and_time_direct (sec min hour date month year : Z)
  : M Env Z := fun m =>
  let r := Cy_RTC_SetDateAndTimeDirect sec min hour date month year (hw m) in
  Done r.1 (record_call r.2
              (RtcSetDateAndTimeDirect sec min hour date month year r.1) m).

Definition rtc_enable_dst_time (dst : cy_stc_rtc_dst_t) : M Env Z := fun m =>
  let r := Cy_RTC_EnableDstTime dst (hw m) in
  Done r.1 (record_call r.2 (RtcEnableDstTime dst r.1) m).

Definition rtc_get_dst_status : M Env bool := fun m =>
  let r := Cy_RTC_GetDstStatus (hw m) in
  Done r.1 (record_call r.2 (RtcGetDstStatus r.1) m).

Definition get_dst_data_flag : M Env Z := fun m => Done (dst_data_flag m) m.

Definition set_dst_data_flag (v : Z) : M Env unit := fun m =>
  Done tt (Machine (hw m) (log m) v).

(** *** handle_error (main.c 127-133)

    Modelled from the spec: [CY_ASSERT] is a macro of the driver
    library and not among the sources; section 7 has the hardware
    fault halt all further processing, so the function does not
    return. *)
Definition handle_error {A} : M Env A := fun m =>
  Halted (Machine (hw m) (HandleError :: log m) (dst_data_flag m)).

(** *** user_uart_getc (main.c 274-296) *)

(** The [while] loop of line 278, entered with the word just read.
    [Some v] is the word the loop was left with; [None] is the early
    [return CY_SCB_UART_RX_NO_DATA] of line 289.  With [timeout = 0]
    the loop polls until data arrives. *)
Fixpoint getc_wait (n : nat) (timeout timeoutTicks read_value : Z)
  : M Env (option Z) :=
  if read_value =? CY_SCB_UART_RX_NO_DATA then
    match n with
    | O => out_of_fuel
    | S n' =>
        if negb (timeout =? 0) then
          if 0 <? timeoutTicks then
            syslib_delay UART_GET_CHAR_DELAY ;;
            read_value <- uart_get ;;
            getc_wait n' timeout (to_uint32 (timeoutTicks - 1)) read_value
          else ret None
        else
          read_value <- uart_get ;;
          getc_wait n' timeout timeoutTicks read_value
    end
  else ret (Some read_value).

(** The result is the status and the content of [*value] afterwards:
    the received byte, or the old content when nothing was received. *)
Definition user_uart_getc (fuel : nat) (value : Z) (timeout : Z)
  : M Env (Z * Z) :=
  read_value <- uart_get ;;
  r <- getc_wait fuel timeout timeout read_value ;;
  match r with
  | None => ret (CY_SCB_UART_RX_NO_DATA, value)
  | Some read_value => ret (CY_RSLT_SUCCESS, to_uint8 read_value)
  end.
End Calls.

(** ** fetch_time_data (main.c 642-681) *)

Module Fetch.
(** The variables of the function.  [rslt] has no initialiser, so it
    starts as [None].  [iterations] is not in the source: it counts the
    passes through the loop body that reached line 676. *)
Record locals := Locals {
  buffer : list Z;
  index : Z;
  ch : Z;
  space_count : Z;
  timeout_ms : Z;
  rslt : option Z;
  iterations : nat
}.

(** The bytes written so far. *)
Definition line (l : locals) : list Z := take (Z.to_nat (index l)) (buffer l).
End Fetch.

Definition LF : Z := 10.      (* '\n' *)
Definition CR : Z := 13.      (* '\r' *)
Definition SPACE : Z := 32.   (* ' ' *)

Definition is_terminator (ch : Z) : bool := (ch =? LF) || (ch =? CR).

Section FetchTimeData.
Context {Env : Type} `{PDL Env}.

(** The [while] loop of line 649.  [n] bounds the passes through the
    body; [fuel] is handed on to [user_uart_getc]. *)
Fixpoint fetch_loop (fuel n : nat) (l : Fetch.locals) : M Env Fetch.locals :=
  if Fetch.index l <? STRING_BUFFER_SIZE then
    match n with
    | O => out_of_fuel
    | S n' =>
        if Fetch.timeout_ms l <=? UART_TIMEOUT_MS then
          ret (Fetch.Locals (Fetch.buffer l) (Fetch.index l) (Fetch.ch l)
                 (Fetch.space_count l) (Fetch.timeout_ms l)
                 (Some CY_SCB_UART_RX_NO_DATA) (Fetch.iterations l))
        else
          r <- user_uart_getc fuel (Fetch.ch l) UART_TIMEOUT_MS ;;
          let rslt := r.1 in
          let ch := r.2 in
          if negb (rslt =? CY_SCB_UART_RX_NO_DATA) then
            if is_terminator ch then
              ret (Fetch.Locals (Fetch.buffer l) (Fetch.index l) ch
                     (Fetch.space_count l) (Fetch.timeout_ms l)
                     (Some rslt) (Fetch.iterations l))
            else
              let space_count :=
                if ch =? SPACE then to_uint32 (Fetch.space_count l + 1)
                else Fetch.space_count l in
              let buffer := <[Z.to_nat (Fetch.index l) := ch]> (Fetch.buffer l) in
              rslt <- uart_put ch ;;
              fetch_loop fuel n'
                (Fetch.Locals buffer (to_uint32 (Fetch.index l + 1)) ch
                   space_count
                   (to_uint32 (Fetch.timeout_ms l - UART_TIMEOUT_MS))
                   (Some rslt) (S (Fetch.iterations l)))
          else
            fetch_loop fuel n'
              (Fetch.Locals (Fetch.buffer l) (Fetch.index l) ch
                 (Fetch.space_count l)
                 (to_uint32 (Fetch.timeout_ms l - UART_TIMEOUT_MS))
                 (Some rslt) (S (Fetch.iterations l)))
    end
  else ret l.

Definition fetch_time_data (fuel : nat) (buffer : list Z) (timeout_ms : Z)
  : M Env Fetch.locals :=
  l <- fetch_loop fuel fuel (Fetch.Locals buffer 0 0 0 timeout_ms None O) ;;
  uart_put_string MsgNewline ;;
  ret l.
End FetchTimeData.

(** The caller's test [rslt != CY_SCB_UART_RX_NO_DATA] on what
    [fetch_time_data] returned. *)
Definition received (rslt : option Z) : bool :=
  match rslt with
  | Some v => negb (v =? CY_SCB_UART_RX_NO_DATA)
  | None => true
  end.

(** ** sscanf with the format of six [%d] (main.c 417, 470, 595) *)

(** The library function is not part of the sources; this is the part of
    its standard behaviour the flows rely on.  Each [%d] skips white
    space, takes an optional sign and then at least one decimal digit; a
    blank in the format skips white space as well.  Conversion stops at
    the first directive that fails, and the variables of the directives
    not reached keep their content.  The digits of a number are summed
    up as an integer without bound, where the C function stores an
    [int]: the two agree on the entries of [sscanf_in_range] below, in
    which every number converted fits an [int].  For a number beyond
    that range C leaves the behaviour open; a statement about the
    values parsed from an arbitrary entry carries [sscanf_in_range] as
    a hypothesis. *)
Module Scan.
Record vars := Vars {
  month : Z;
  mday : Z;
  hour : Z;
  min : Z;
  sec : Z;
  year : Z
}.
End Scan.

Definition is_space (c : Z) : bool := (c =? 32) || ((9 <=? c) && (c <=? 13)).
Definition is_digit (c : Z) : bool := (48 <=? c) && (c <=? 57).

Fixpoint skip_space (s : list Z) : list Z :=
  match s with
  | c :: s' => if is_space c then skip_space s' else s
  | [] => []
  end.

Fixpoint scan_digits (s : list Z) (acc : Z) : Z * list Z :=
  match s with
  | c :: s' => if is_digit c then scan_digits s' (10 * acc + (c - 48)) else (acc, s)
  | [] => (acc, [])
  end.

Definition scan_sign (s : list Z) : bool * list Z :=
  match s with
  | c :: s' => if c =? 45 then (true, s') else if c =? 43 then (false, s') else (false, s)
  | [] => (false, [])
  end.

(** One [%d]: the value and the rest of the input, or [None] when no
    number is there. *)
Definition scan_int (s : list Z) : option (Z * list Z) :=
  let signed := scan_sign (skip_space s) in
  match signed.2 with
  | c :: _ =>
      if is_digit c then
        let r := scan_digits signed.2 0 in
        Some (if signed.1 then - r.1 else r.1, r.2)
      else None
  | [] => None
  end.

(** The text a C string function sees in a character array: the bytes
    before the first NUL. *)
Fixpoint c_string (buffer : list Z) : list Z :=
  match buffer with
  | c :: rest => if c =? 0 then [] else c :: c_string rest
  | [] => []
  end.

(** The targets are, in the order of the call, month, mday, hour, min,
    sec, year. *)
Definition sscanf (str : list Z) (v : Scan.vars) : Scan.vars :=
  match scan_int str with
  | None => v
  | Some (month, str) =>
    let v := Scan.Vars month (Scan.mday v) (Scan.hour v) (Scan.min v) (Scan.sec v) (Scan.year v) in
    match scan_int str with
    | None => v
    | Some (mday, str) =>
      let v := Scan.Vars month mday (Scan.hour v) (Scan.min v) (Scan.sec v) (Scan.year v) in
      match scan_int str with
      | None => v
      | Some (hour, str) =>
        let v := Scan.Vars month mday hour (Scan.min v) (Scan.sec v) (Scan.year v) in
        match scan_int str with
        | None => v
        | Some (min, str) =>
          let v := Scan.Vars month mday hour min (Scan.sec v) (Scan.year v) in
          match scan_int str with
          | None => v
          | Some (sec, str) =>
            let v := Scan.Vars month mday hour min sec (Scan.year v) in
            match scan_int str with
            | None => v
            | Some (year, _) => Scan.Vars month mday hour min sec year
            end
          end
        end
      end
    end
  end.

(** A value that an [int] can hold. *)
Definition fits_int (z : Z) : bool := (- 2 ^ 31 <=? z) && (z <? 2 ^ 31).

(** [scan_fits n s]: each of the numbers that the first [n] directives
    [%d] read from [s] fits an [int]. *)
Fixpoint scan_fits (n : nat) (s : list Z) : bool :=
  match n with
  | O => true
  | S n' =>
      match scan_int s with
      | None => true
      | Some (v, rest) => fits_int v && scan_fits n' rest
      end
  end.

(** The entries on which [sscanf] above is the C function. *)
Definition sscanf_in_range (str : list Z) : bool := scan_fits 6 str.

(** [char buf[STRING_BUFFER_SIZE] = {0}]. *)
Definition zero_buffer : list Z := replicate (Z.to_nat STRING_BUFFER_SIZE) 0.

(** The validator as used in a condition.  It always answers (see
    [validate_date_time_total]); the flows take the answer as is. *)
Definition validated (v : Scan.vars) : bool :=
  match validate_date_time (Scan.sec v) (Scan.min v) (Scan.hour v)
          (Scan.mday v) (Scan.month v) (Scan.year v) with
  | Some b => b
  | None => false
  end.

Definition recognized_format (fmt : Z) : bool :=
  (fmt =? FIXED_DST_FORMAT) || (fmt =? RELATIVE_DST_FORMAT).

Section Flows.
Context {Env : Type} `{PDL Env}.

(** *** The retry loop of rtc_init (247-253) and set_new_time (599-606)

    Both functions contain the same [do ... while]: make the call,
    decrement [attempts], delay, and repeat while the call failed and
    [attempts] is not 0. *)
Fixpoint retry_loop (call : M Env Z) (n : nat) (attempts : Z) : M Env Z :=
  match n with
  | O => out_of_fuel
  | S n' =>
      rslt <- call ;;
      let attempts := to_uint32 (attempts - 1) in
      syslib_delay INIT_DELAY_MS ;;
      if negb (rslt =? CY_RTC_SUCCESS) && negb (attempts =? 0)
      then retry_loop call n' attempts
      else ret rslt
  end.

(** *** rtc_init (main.c 240-257) *)
Definition rtc_init (fuel : nat) : M Env Z :=
  retry_loop rtc_init_call fuel MAX_ATTEMPTS.

(** The use of [rtc_init] in [main] (186-190). *)
Definition main_rtc_init (fuel : nat) : M Env unit :=
  rtcSta <- rtc_init fuel ;;
  if negb (rtcSta =? CY_RTC_SUCCESS) then handle_error else ret tt.

(** *** set_new_time (main.c 573-622)

    The six [int] variables are declared without initialisers;
    [uninit] is what their storage holds on entry. *)
Definition set_new_time (fuel : nat) (uninit : Scan.vars) (timeout_ms : Z)
  : M Env unit :=
  uart_put_string MsgEnterTime ;;
  f <- fetch_time_data fuel zero_buffer timeout_ms ;;
  if received (Fetch.rslt f) then
    if negb (Fetch.space_count f =? MIN_SPACE_KEY_COUNT) then
      uart_put_string MsgInvalidValues
    else
      let v := sscanf (c_string (Fetch.buffer f)) uninit in
      rslt <- retry_loop
                (rtc_set_date_and_time_direct
                   (to_uint32 (Scan.sec v)) (to_uint32 (Scan.min v))
                   (to_uint32 (Scan.hour v)) (to_uint32 (Scan.mday v))
                   (to_uint32 (Scan.month v)) (to_uint32 (Scan.year v)))
                fuel MAX_ATTEMPTS ;;
      uart_put_string MsgRtcTimeUpdated ;;
      if negb (CY_RTC_SUCCESS =? rslt) then
        uart_put_string MsgInvalidValues ;;
        handle_error
      else ret tt
  else uart_put_string MsgTimeout.

(** *** set_dst_feature (main.c 353-558) *)

(** The assignments of lines 424-436 and, again, 478-489. *)
Definition build_dst (fmt : Z) (v : Scan.vars) : cy_stc_rtc_dst_format_t :=
  {| format := if fmt =? FIXED_DST_FORMAT then CY_RTC_DST_FIXED
               else CY_RTC_DST_RELATIVE;
     hour := Scan.hour v;
     month := Scan.month v;
     dayOfWeek := if fmt =? FIXED_DST_FORMAT then 1
                  else Cy_RTC_ConvertDayOfWeek (Scan.mday v) (Scan.month v) (Scan.year v);
     dayOfMonth := if fmt =? FIXED_DST_FORMAT then Scan.mday v else 1;
     weekOfMonth := if fmt =? FIXED_DST_FORMAT then 1
                    else Cy_RTC_ConvertDayOfWeek (Scan.mday v) (Scan.month v) (Scan.year v) |}.

(** A descriptor whose two halves were both built by [build_dst] from
    validated fields under a recognized format. *)
Definition validated_pair (dst : cy_stc_rtc_dst_t) : Prop :=
  exists fmt v1 v2,
    recognized_format fmt = true /\ validated v1 = true /\ validated v2 = true /\
    dst = {| startDst := Some (build_dst fmt v1);
             stopDst := Some (build_dst fmt v2) |}.

(** Lines 404-451: prompt for the start time, read and check it.  The
    result is the six variables and [dst_time] afterwards. *)
Definition enter_dst_start (fuel : nat) (fmt timeout_ms : Z)
    (v : Scan.vars) (dst_time : cy_stc_rtc_dst_t)
  : M Env (Scan.vars * cy_stc_rtc_dst_t) :=
  uart_put_string MsgEnterDstStart ;;
  f <- fetch_time_data fuel zero_buffer timeout_ms ;;
  if received (Fetch.rslt f) then
    if negb (Fetch.space_count f =? MIN_SPACE_KEY_COUNT) then
      uart_put_string MsgInvalidValues ;;
      ret (v, dst_time)
    else
      let v := sscanf (c_string (Fetch.buffer f)) v in
      if validated v && recognized_format fmt then
        set_dst_data_flag DST_VALID_START_TIME_FLAG ;;
        ret (v, {| startDst := Some (build_dst fmt v); stopDst := stopDst dst_time |})
      else
        uart_put_string MsgInvalidValues ;;
        ret (v, dst_time)
  else
    uart_put_string MsgTimeout ;;
    ret (v, dst_time).

(** Lines 457-505, the body of the [if] of line 453. *)
Definition enter_dst_end (fuel : nat) (fmt timeout_ms : Z)
    (v : Scan.vars) (dst_time : cy_stc_rtc_dst_t)
  : M Env (Scan.vars * cy_stc_rtc_dst_t) :=
  uart_put_string MsgEnterDstEnd ;;
  f <- fetch_time_data fuel zero_buffer timeout_ms ;;
  if received (Fetch.rslt f) then
    if negb (Fetch.space_count f =? MIN_SPACE_KEY_COUNT) then
      uart_put_string MsgInvalidValues ;;
      ret (v, dst_time)
    else
      let v := sscanf (c_string (Fetch.buffer f)) v in
      if validated v && recognized_format fmt then
        set_dst_data_flag DST_VALID_END_TIME_FLAG ;;
        ret (v, {| startDst := startDst dst_time; stopDst := Some (build_dst fmt v) |})
      else
        uart_put_string MsgInvalidValues ;;
        ret (v, dst_time)
  else
    uart_put_string MsgTimeout ;;
    ret (v, dst_time).

(** Lines 508-521: the write of the rule entered. *)
Definition commit_dst (dst_time : cy_stc_rtc_dst_t) : M Env unit :=
  flag <- get_dst_data_flag ;;
  if DST_VALID_END_TIME_FLAG =? flag then
    rslt <- rtc_enable_dst_time dst_time ;;
    if CY_RTC_SUCCESS =? rslt then
      set_dst_data_flag DST_ENABLED_FLAG ;;
      uart_put_string MsgDstTimeUpdated
    else handle_error
  else ret tt.

(** Lines 530-547: the rule written to switch DST off. *)
Definition disabled_dst_time : cy_stc_rtc_dst_t :=
  let stop := {| format := CY_RTC_DST_FIXED; hour := 0; month := 1;
                 dayOfWeek := 1; dayOfMonth := 1; weekOfMonth := 1 |} in
  {| startDst := Some stop; stopDst := Some stop |}.

Definition disable_dst : M Env unit :=
  rslt <- rtc_enable_dst_time disabled_dst_time ;;
  if CY_RTC_SUCCESS =? rslt then
    set_dst_data_flag DST_DISABLED_FLAG ;;
    uart_put_string MsgDstDisabled
  else handle_error.

(** Lines 394-527, the Enable branch. *)
Definition enable_dst (fuel : nat) (timeout_ms : Z) : M Env unit :=
  uart_put_string MsgDstFormatMenu ;;
  r <- user_uart_getc fuel 0 timeout_ms ;;
  let fmt := r.2 in
  if negb (r.1 =? CY_SCB_UART_RX_NO_DATA) then
    s <- enter_dst_start fuel fmt timeout_ms (Scan.Vars 0 0 0 0 0 0)
           {| startDst := None; stopDst := None |} ;;
    flag <- get_dst_data_flag ;;
    s <- (if DST_VALID_START_TIME_FLAG =? flag
          then enter_dst_end fuel fmt timeout_ms s.1 s.2
          else ret s) ;;
    commit_dst s.2
  else uart_put_string MsgTimeout.

Definition set_dst_feature (fuel : nat) (timeout_ms : Z) : M Env unit :=
  flag <- get_dst_data_flag ;;
  (if DST_ENABLED_FLAG =? flag then
     active <- rtc_get_dst_status ;;
     if active then uart_put_string MsgDstStatusActive
     else uart_put_string MsgDstStatusInactive
   else uart_put_string MsgDstStatusDisabled) ;;
  uart_put_string MsgDstMenu ;;
  r <- user_uart_getc fuel 0 timeout_ms ;;
  let dst_cmd := r.2 in
  if negb (r.1 =? CY_SCB_UART_RX_NO_DATA) then
    if RTC_CMD_ENABLE_DST =? dst_cmd then enable_dst fuel timeout_ms
    else if RTC_CMD_DISABLE_DST =? dst_cmd then disable_dst
    else if RTC_CMD_QUIT_CONFIG_DST =? dst_cmd then uart_put_string MsgDstExit
    else ret tt
  else uart_put_string MsgTimeout.
End Flows.

(** ** Reading the log *)

(** The bytes received, oldest first. *)
Fixpoint rx_bytes (l : list event) : list Z :=
  match l with
  | UartGet v :: l' =>
      if v =? CY_SCB_UART_RX_NO_DATA then rx_bytes l' else rx_bytes l' ++ [to_uint8 v]
  | _ :: l' => rx_bytes l'
  | [] => []
  end.

(** The descriptors handed to [Cy_RTC_EnableDstTime], newest first. *)
Fixpoint enable_dst_calls (l : list event) : list cy_stc_rtc_dst_t :=
  match l with
  | RtcEnableDstTime dst _ :: l' => dst :: enable_dst_calls l'
  | _ :: l' => enable_dst_calls l'
  | [] => []
  end.

(** The argument tuples handed to [Cy_RTC_SetDateAndTimeDirect], newest
    first, as sec, min, hour, date, month, year. *)
Fixpoint set_time_calls (l : list event) : list (list Z) :=
  match l with
  | RtcSetDateAndTimeDirect sec min hour date month year _ :: l' =>
      [sec; min; hour; date; month; year] :: set_time_calls l'
  | _ :: l' => set_time_calls l'
  | [] => []
  end.

Definition count_spaces (s : list Z) : Z :=
  Z.of_nat (length (filter (fun c => c = SPACE) s)).

(** ** A scripted environment for concrete runs *)

(** [keys] are the words the next polls of the receiver return (after
    the last one the receiver stays empty); [rtc_replies] are the
    statuses of the next RTC calls (success once they are used up). *)
Record script := Script {
  keys : list Z;
  rtc_replies : list Z
}.

Definition next_key (s : script) : Z * script :=
  match keys s with
  | k :: ks => (k, Script ks (rtc_replies s))
  | [] => (CY_SCB_UART_RX_NO_DATA, s)
  end.

Definition next_reply (s : script) : Z * script :=
  match rtc_replies s with
  | r :: rs => (r, Script (keys s) rs)
  | [] => (CY_RTC_SUCCESS, s)
  end.

(** Zeller's congruence with Saturday numbered 7, standing in for the
    driver's day-of-week conversion. *)
Definition zeller (day month year : Z) : Z :=
  let m := if month <? 3 then month + 12 else month in
  let y := if month <? 3 then year - 1 else year in
  let r := (day + ((m + 1) * 26) / 10 + y + y / 4 + 6 * (y / 100) + y / 400) mod 7 in
  if r =? 0 then 7 else r.

#[export] Instance scripted : PDL script := {|
  Cy_SCB_UART_Get := next_key;
  Cy_SCB_UART_Put := fun _ s => (1, s);
  Cy_SCB_UART_PutString := fun _ s => s;
  Cy_SysLib_Delay := fun _ s => s;
  Cy_RTC_Init := next_reply;
  Cy_RTC_SetDateAndTimeDirect := fun _ _ _ _ _ _ => next_reply;
  Cy_RTC_EnableDstTime := fun _ => next_reply;
  Cy_RTC_GetDstStatus := fun s => (false, s);
  Cy_RTC_ConvertDayOfWeek := zeller;
  Cy_SCB_UART_Put_count := fun _ _ => or_intror eq_refl
|}.

Fixpoint bytes_of_string (s : string) : list Z :=
  match s with
  | EmptyString => []
  | String a s' => Z.of_N (N_of_ascii a) :: bytes_of_string s'
  end.

(** The machine at reset: [dst_data_flag = 0], nothing logged. *)
Definition power_on (s : script) : machine script := Machine s [] DST_DISABLED_FLAG.

(** The fuel used in the concrete runs. *)
Definition run_fuel : nat := Z.to_nat 200000.

(** ** Relating two machines *)

(** The calls that leave the RTC as it is: console input and output, the
    delay and the query of the DST status. *)
Definition passive (e : event) : bool :=
  match e with
  | UartGet _ | UartPut _ _ | UartPutString _ | SysLibDelay _
  | RtcGetDstStatus _ => true
  | _ => false
  end.

(** [console m m' bytes]: from [m] to [m'] only passive calls were made,
    [bytes] were received in that order and [dst_data_flag] was not
    written. *)
Definition console {Env} (m m' : machine Env) (bytes : list Z) : Prop :=
  dst_data_flag m' = dst_data_flag m /\
  exists new, log m' = new ++ log m /\
              forallb passive new = true /\
              rx_bytes new = bytes.

(** A byte that [fetch_time_data] stores: a character code that is no
    line terminator. *)
Definition plain (c : Z) : Prop := 0 <= c < 256 /\ is_terminator c = false.

(** What [fetch_loop] guarantees from locals [l] and machine [m] to the
    locals [l'] and machine [m'] it ends with.  [chars] are the bytes
    stored in this run, [tail] is the terminator if one was read. *)
Definition fetch_post {Env} (l : Fetch.locals) (m : machine Env)
    (l' : Fetch.locals) (m' : machine Env) : Prop :=
  exists chars tail v,
    console m m' (chars ++ tail) /\
    Fetch.line l' = Fetch.line l ++ chars /\
    Forall plain chars /\
    (tail = [] \/ exists t, tail = [t] /\ is_terminator t = true) /\
    Fetch.index l' = Fetch.index l + Z.of_nat (length chars) /\
    Fetch.index l' <= STRING_BUFFER_SIZE /\
    length (Fetch.buffer l') = length (Fetch.buffer l) /\
    Fetch.space_count l' = Fetch.space_count l + count_spaces chars /\
    (Fetch.iterations l <= Fetch.iterations l')%nat /\
    Fetch.timeout_ms l'
    = Fetch.timeout_ms l
      - UART_TIMEOUT_MS * Z.of_nat (Fetch.iterations l' - Fetch.iterations l) /\
    0 <= Fetch.timeout_ms l' /\
    (length chars <= Fetch.iterations l' - Fetch.iterations l)%nat /\
    Fetch.rslt l' = Some v /\
    (v = CY_SCB_UART_RX_NO_DATA
     <-> Fetch.timeout_ms l' <= UART_TIMEOUT_MS /\ Fetch.index l' < STRING_BUFFER_SIZE) /\
    (tail <> [] -> v = CY_RSLT_SUCCESS) /\
    (Fetch.index l' = STRING_BUFFER_SIZE -> tail = [] /\ (v = 0 \/ v = 1)).

(** The loop invariant these guarantees are proved from. *)
Definition fetch_pre (l : Fetch.locals) : Prop :=
  0 <= Fetch.index l <= STRING_BUFFER_SIZE /\
  length (Fetch.buffer l) = Z.to_nat STRING_BUFFER_SIZE /\
  0 <= Fetch.space_count l <= Fetch.index l /\
  0 <= Fetch.timeout_ms l < 2 ^ 32 /\
  (Fetch.index l = STRING_BUFFER_SIZE ->
   exists v, Fetch.rslt l = Some v /\ (v = 0 \/ v = 1)).

(** The events logged in the scripted environment while the bytes of
    [data] are received and stored one after the other, newest first. *)
Fixpoint typed_log (data : list Z) (lg : list event) : list event :=
  match data with
  | [] => lg
  | k :: data' => typed_log data' (UartPut k 1 :: UartGet k :: lg)
  end.

(** [passive_only m m']: from [m] to [m'] only passive calls were made
    ([dst_data_flag] may have been written). *)
Definition passive_only {Env} (m m' : machine Env) : Prop :=
  exists new, log m' = new ++ log m /\ forallb passive new = true.

(** The statuses returned by [Cy_RTC_EnableDstTime], newest first. *)
Fixpoint dst_statuses (l : list event) : list Z :=
  match l with
  | RtcEnableDstTime _ status :: l' => status :: dst_statuses l'
  | _ :: l' => dst_statuses l'
  | [] => []
  end.

(** The log of a run of [retry_loop], newest first: each attempt is the
    call, logged by [ev] with its status, followed by the delay. *)
Definition attempt_log (ev : Z -> event) (statuses : list Z) : list event :=
  flat_map (fun s => [SysLibDelay INIT_DELAY_MS; ev s]) statuses.

(** Fuel that lets every loop of a flow called with [timeout_ms] end. *)
Definition enough_fuel (fuel : nat) (timeout_ms : Z) : Prop :=
  (Z.to_nat timeout_ms < fuel)%nat /\
  (Z.to_nat UART_TIMEOUT_MS < fuel)%nat /\
  (Z.to_nat MAX_ATTEMPTS <= fuel)%nat.

(** How a flow that may write the DST rule ends: it returns after no
    write or after one successful write, or it halts in [handle_error]
    right after one failed write.  [m] is the machine the flow started
    from, [o] its outcome. *)
Definition one_dst_write {Env} (o : outcome Env unit) (m : machine Env) : Prop :=
  (exists m' new,
      o = Done tt m' /\ log m' = new ++ log m /\
      (dst_statuses new = [] \/ dst_statuses new = [CY_RTC_SUCCESS])) \/
  (exists m' dst st rest,
      o = Halted m' /\ st <> CY_RTC_SUCCESS /\
      log m' = HandleError :: RtcEnableDstTime dst st :: rest ++ log m /\
      dst_statuses rest = []).

(** [rslt :: failed] are the statuses of the attempts of one retry loop,
    newest first: every attempt but the last failed, there are at most
    [MAX_ATTEMPTS] of them, and exactly that many when the last one
    failed too. *)
Definition retried (rslt : Z) (failed : list Z) : Prop :=
  Forall (fun s => s <> CY_RTC_SUCCESS) failed /\
  (length failed < Z.to_nat MAX_ATTEMPTS)%nat /\
  (rslt <> CY_RTC_SUCCESS -> S (length failed) = Z.to_nat MAX_ATTEMPTS).

(** How the RTC bring-up of [main] ends from machine [m]: [rtc_init]
    returns the status of its last attempt, and [main] goes on when that
    is success and halts otherwise. *)
Definition init_retried {Env} (r : outcome Env Z) (o : outcome Env unit)
    (m : machine Env) : Prop :=
  exists rslt failed m',
    retried rslt failed /\
    r = Done rslt m' /\
    log m' = attempt_log RtcInit (rslt :: failed) ++ log m /\
    ((rslt = CY_RTC_SUCCESS /\ o = Done tt m') \/
     (rslt <> CY_RTC_SUCCESS /\
      o = Halted (Machine (hw m') (HandleError :: log m') (dst_data_flag m')))).

(** How [set_new_time] ends from machine [m]: without any attempt to set
    the time, or after a retry loop on one tuple of arguments, returning
    when the last attempt succeeded and halting otherwise.  [pre] are the
    passive calls made before the first attempt. *)
Definition set_time_retried {Env} (o : outcome Env unit) (m : machine Env) : Prop :=
  (exists m', o = Done tt m' /\ passive_only m m') \/
  (exists sec min hour date month year rslt failed pre m',
      retried rslt failed /\ forallb passive pre = true /\
      let attempts :=
        attempt_log (RtcSetDateAndTimeDirect sec min hour date month year)
          (rslt :: failed) in
      ((rslt = CY_RTC_SUCCESS /\ o = Done tt m' /\
        log m' = UartPutString MsgRtcTimeUpdated :: attempts ++ pre ++ log m) \/
       (rslt <> CY_RTC_SUCCESS /\ o = Halted m' /\
        log m' = HandleError :: UartPutString MsgInvalidValues
                   :: UartPutString MsgRtcTimeUpdated :: attempts ++ pre ++ log m))).

(** [dst_writes o m P]: the flow with outcome [o], started from [m],
    ended, and the descriptors it handed to the DST write, newest first,
    satisfy [P]. *)
Definition dst_writes {Env} (o : outcome Env unit) (m : machine Env)
    (P : list cy_stc_rtc_dst_t -> Prop) : Prop :=
  exists m' new,
    final o = Some m' /\ log m' = new ++ log m /\ P (enable_dst_calls new).

(** The DST writes a call of the flow may make according to section 4.4:
    none, the rule that switches DST off, or one validated pair. *)
Definition validated_writes {Env} `{PDL Env} (calls : list cy_stc_rtc_dst_t) : Prop :=
  calls = [] \/ calls = [disabled_dst_time] \/
  exists dst, calls = [dst] /\ validated_pair dst.

(** What [fetch_time_data] needs in order to return: a buffer of the
    declared size, a budget that fits [uint32_t], and fuel for the polls
    of one character and for the passes of the loop. *)
Definition fetch_ready (fuel : nat) (buffer : list Z) (timeout_ms : Z) : Prop :=
  length buffer = Z.to_nat STRING_BUFFER_SIZE /\
  0 <= timeout_ms < 2 ^ 32 /\
  (Z.to_nat UART_TIMEOUT_MS < fuel)%nat /\
  (Z.to_nat (timeout_ms / UART_TIMEOUT_MS) < fuel)%nat.

(** ** Console sessions used below *)

(** A well-formed entry, section 8. *)
Definition entry_march_15 : list Z := bytes_of_string "03 15 10 30 00 24".

(** Month 13, day 32, hour 25, minute 61, second 61: six numbers and
    five blanks, no field but the year in range. *)
Definition entry_out_of_range : list Z := bytes_of_string "13 32 25 61 61 24".

(** Menu choice 1 (enable), format 1 (fixed), a valid start time, and an
    end time with only three blanks. *)
Definition session_end_rejected : list Z :=
  bytes_of_string "11" ++ bytes_of_string "03 15 10 00 00 24" ++ [CR]
  ++ bytes_of_string "11 01 10 00" ++ [CR].

(** Menu choice 1, format 1, a start entry that is no date at all, then a
    valid end time. *)
Definition session_start_rejected : list Z :=
  bytes_of_string "11" ++ bytes_of_string "junk" ++ [CR]
  ++ bytes_of_string "11 01 10 00 00 24" ++ [CR].

(** The messages printed, oldest first. *)
Fixpoint printed (l : list event) : list message :=
  match l with
  | UartPutString s :: l' => printed l' ++ [s]
  | _ :: l' => printed l'
  | [] => []
  end.

(** The machine a second call of a flow starts from: the hardware and
    the global as the first call left them, and an empty log, so that
    the log of the second call shows that call alone. *)
Definition next_call {Env} (m : machine Env) : machine Env :=
  Machine (hw m) [] (dst_data_flag m).

(** Menu choice 1, the format given, and the start and end times of the
    end-to-end example of section 8. *)
Definition session_enable (fmt : Z) : list Z :=
  [RTC_CMD_ENABLE_DST; fmt] ++ bytes_of_string "03 15 10 00 00 24" ++ [CR]
  ++ bytes_of_string "11 01 10 00 00 24" ++ [CR].

(** Menu choice 1, format 1, the start time of 1 January 2024 with the
    day typed as -1, and a valid end time. *)
Definition session_negative_day : list Z :=
  bytes_of_string "11" ++ bytes_of_string "01 -1 00 00 00 2024" ++ [CR]
  ++ bytes_of_string "02 01 00 00 00 2024" ++ [CR].

(** ** Further readings of the log *)

(** The log of the polls of one call of [user_uart_getc] with a timeout,
    newest first: the words read, and the delay of line 284 between two
    consecutive polls. *)
Fixpoint poll_log (words : list Z) : list event :=
  match words with
  | [] => []
  | v :: words' =>
      match words' with
      | [] => [UartGet v]
      | _ :: _ => UartGet v :: SysLibDelay UART_GET_CHAR_DELAY :: poll_log words'
      end
  end.

(** The bytes handed to [Cy_SCB_UART_Put], oldest first. *)
Fixpoint tx_bytes (l : list event) : list Z :=
  match l with
  | UartPut c _ :: l' => tx_bytes l' ++ [c]
  | _ :: l' => tx_bytes l'
  | [] => []
  end.

(** ** How a call of the DST flow ends *)

(** From machine [m] a call of [set_dst_feature] with outcome [o] ends in
    one of four ways: it returns without any call that changes the RTC,
    the flag as it was or at [DST_VALID_START_TIME_FLAG]; it returns
    right after a successful write of an entered rule, the flag at
    [DST_ENABLED_FLAG]; it returns right after a successful write of the
    switch-off rule, the flag at [DST_DISABLED_FLAG]; or it halts right
    after a failed write, the flag as it was or at
    [DST_VALID_END_TIME_FLAG].  [pre] are the passive calls before the
    write. *)
Definition dst_flow_ends {Env} (o : outcome Env unit) (m : machine Env) : Prop :=
  (exists m',
      o = Done tt m' /\ passive_only m m' /\
      (dst_data_flag m' = dst_data_flag m \/
       dst_data_flag m' = DST_VALID_START_TIME_FLAG)) \/
  (exists m' dst pre,
      o = Done tt m' /\ forallb passive pre = true /\
      log m' = UartPutString MsgDstTimeUpdated
                 :: RtcEnableDstTime dst CY_RTC_SUCCESS :: pre ++ log m /\
      dst_data_flag m' = DST_ENABLED_FLAG) \/
  (exists m' pre,
      o = Done tt m' /\ forallb passive pre = true /\
      log m' = UartPutString MsgDstDisabled
                 :: RtcEnableDstTime disabled_dst_time CY_RTC_SUCCESS
                 :: pre ++ log m /\
      dst_data_flag m' = DST_DISABLED_FLAG) \/
  (exists m' dst st pre,
      o = Halted m' /\ st <> CY_RTC_SUCCESS /\ forallb passive pre = true /\
      log m' = HandleError :: RtcEnableDstTime dst st :: pre ++ log m /\
      (dst_data_flag m' = dst_data_flag m \/
       dst_data_flag m' = DST_VALID_END_TIME_FLAG)).

(** ** Waiting on a silent line *)

(** The calls made while nothing arrives: polls that find the receiver
    empty, and delays. *)
Definition idle_event (e : event) : bool :=
  match e with
  | UartGet v => v =? CY_SCB_UART_RX_NO_DATA
  | SysLibDelay _ => true
  | _ => false
  end.

(** [idle lg lg']: the log grew from [lg] to [lg'] by such calls only. *)
Definition idle (lg lg' : list event) : Prop :=
  exists new, lg' = new ++ lg /\ forallb idle_event new = true.

(** The status line and the menu that [set_dst_feature] prints first, in
    the scripted environment (whose DST status query answers false). *)
Definition dst_menu_log (fl : Z) (lg : list event) : list event :=
  UartPutString MsgDstMenu
    :: (if DST_ENABLED_FLAG =? fl
        then UartPutString MsgDstStatusInactive :: RtcGetDstStatus false :: lg
        else UartPutString MsgDstStatusDisabled :: lg).

(** The six arguments of the time-set call for the parsed fields [v], in
    the order of the call: sec, min, hour, date, month, year. *)
Definition set_time_args (v : Scan.vars) : list Z :=
  [to_uint32 (Scan.sec v); to_uint32 (Scan.min v); to_uint32 (Scan.hour v);
   to_uint32 (Scan.mday v); to_uint32 (Scan.month v); to_uint32 (Scan.year v)].

Section Dispatch.
Context {Env : Type} `{PDL Env}.

(** What [set_dst_feature] does with the result [r] of reading the menu
    choice (lines 392-557). *)
Definition dst_dispatch (fuel : nat) (timeout_ms : Z) (r : Z * Z) : M Env unit :=
  if negb (r.1 =? CY_SCB_UART_RX_NO_DATA) then
    if RTC_CMD_ENABLE_DST =? r.2 then enable_dst fuel timeout_ms
    else if RTC_CMD_DISABLE_DST =? r.2 then disable_dst
    else if RTC_CMD_QUIT_CONFIG_DST =? r.2 then uart_put_string MsgDstExit
    else ret tt
  else uart_put_string MsgTimeout.
End Dispatch.

(** ** The calls into the RTC driver *)

Definition rtc_call (e : event) : bool :=
  match e with
  | RtcInit _ | RtcSetDateAndTimeDirect _ _ _ _ _ _ _ | RtcEnableDstTime _ _
  | RtcGetDstStatus _ => true
  | _ => false
  end.

(** The calls into the RTC driver, newest first. *)
Fixpoint rtc_calls (l : list event) : list event :=
  match l with
  | e :: l' => if rtc_call e then e :: rtc_calls l' else rtc_calls l'
  | [] => []
  end.

(** The time-set call for the parsed fields [v] as it is logged with its
    status: the arguments of line 600, converted to unsigned. *)
Definition set_time_event (v : Scan.vars) (status : Z) : event :=
  RtcSetDateAndTimeDirect
    (to_uint32 (Scan.sec v)) (to_uint32 (Scan.min v)) (to_uint32 (Scan.hour v))
    (to_uint32 (Scan.mday v)) (to_uint32 (Scan.month v)) (to_uint32 (Scan.year v))
    status.

(** An entry for [set_new_time] whose first byte is also choice 2 of
    the DST menu. *)
Definition entry_february_1 : list Z := bytes_of_string "2 1 1 1 1 1".
(** ** Properties of validate_date_time *)

Lemma range_checks_true (sec min hour month year : Z) :
  range_checks sec min hour month year = true <-> in_domain sec min hour month year.
Proof.
  unfold range_checks, in_domain, CY_RTC_IS_SEC_VALID, CY_RTC_IS_MIN_VALID,
    CY_RTC_IS_HOUR_VALID, CY_RTC_IS_MONTH_VALID, CY_RTC_IS_YEAR_LONG_VALID.
  destruct (0 <=? sec) eqn:E1, (sec <=? 59) eqn:E2, (0 <=? min) eqn:E3,
    (min <=? 59) eqn:E4, (0 <=? hour) eqn:E5, (hour <=? 23) eqn:E6,
    (1 <=? month) eqn:E7, (month <=? 12) eqn:E8, (0 <=? year) eqn:E9;
    cbn; split; intros H; try discriminate; try reflexivity; lia.
Qed.

Lemma days_in_month_index_guarded (sec min hour month year : Z) :
  range_checks sec min hour month year = true ->
  0 <= days_in_month_index month <= 11 /\ days_in_month_index month = month - 1.
Proof.
  intros H. apply range_checks_true in H. destruct H as (_ & _ & _ & Hm & _).
  unfold days_in_month_index, to_uint32, LEAP_YEAR_MONTH1.
  rewrite Z.mod_small by lia. lia.
Qed.

Lemma table_lookup (i : Z) :
  0 <= i <= 11 ->
  days_in_month_table !! Z.to_nat i
  = Some (nth (Z.to_nat i) [31; 28; 31; 30; 31; 30; 31; 31; 30; 31; 30; 31] 0).
Proof.
  intros H.
  assert (Hc : i = 0 \/ i = 1 \/ i = 2 \/ i = 3 \/ i = 4 \/ i = 5 \/ i = 6
               \/ i = 7 \/ i = 8 \/ i = 9 \/ i = 10 \/ i = 11) by lia.
  repeat (destruct Hc as [-> | Hc]; [reflexivity |]). subst i. reflexivity.
Qed.

(** The validator is total: the table is never read outside its bounds. *)
Lemma validate_date_time_total (sec min hour mday month year : Z) :
  exists b, validate_date_time sec min hour mday month year = Some b.
Proof.
  unfold validate_date_time.
  destruct (range_checks sec min hour month year) eqn:E; [| eauto].
  destruct (days_in_month_index_guarded _ _ _ _ _ E) as [Hi _].
  rewrite (table_lookup _ Hi). eauto.
Qed.

(** Whenever one of the five range checks fails the answer is false. *)
Lemma validate_date_time_out_of_range (sec min hour mday month year : Z) :
  ~ in_domain sec min hour month year ->
  validate_date_time sec min hour mday month year = Some false.
Proof.
  intros H. unfold validate_date_time.
  destruct (range_checks sec min hour month year) eqn:E; [| reflexivity].
  apply range_checks_true in E. contradiction.
Qed.

Lemma leap_year_agrees (y : Z) : 0 <= y < 2 ^ 32 -> IS_LEAP_YEAR y = leap_year_rule y.
Proof.
  intros H. unfold IS_LEAP_YEAR, leap_year_rule, to_uint32.
  rewrite (Z.mod_small y) by lia.
  rewrite !(Z.eqb_sym 0). reflexivity.
Qed.

(** Inside the domain the validator computes the day test against the
    calendar length of the month; the only difference from
    [validate_spec] is the unsigned reading of [mday] in [day_check]. *)
Lemma validate_date_time_in_domain (sec min hour mday month year : Z) :
  in_domain sec min hour month year -> year < 2 ^ 32 ->
  validate_date_time sec min hour mday month year
  = Some (day_check mday (days_in_month month year)).
Proof.
  intros Hd Hy. pose proof Hd as (_ & _ & _ & Hm & Hy0).
  apply range_checks_true in Hd. unfold validate_date_time. rewrite Hd.
  destruct (days_in_month_index_guarded _ _ _ _ _ Hd) as [Hi Hidx].
  rewrite (table_lookup _ Hi), Hidx.
  rewrite leap_year_agrees by lia.
  unfold to_uint32 at 1. rewrite (Z.mod_small month) by lia.
  unfold LEAP_YEAR_MONTH2, days_in_month.
  rewrite (andb_comm (leap_year_rule year)).
  assert (Hn : 28 <= nth (Z.to_nat (month - 1))
                         [31; 28; 31; 30; 31; 30; 31; 31; 30; 31; 30; 31] 0 <= 31).
  { assert (Hc : month = 1 \/ month = 2 \/ month = 3 \/ month = 4 \/ month = 5
                 \/ month = 6 \/ month = 7 \/ month = 8 \/ month = 9
                 \/ month = 10 \/ month = 11 \/ month = 12) by lia.
    repeat (destruct Hc as [-> | Hc]; [vm_compute; split; discriminate |]).
    subst month. vm_compute. split; discriminate. }
  destruct ((month =? 2) && leap_year_rule year).
  - unfold to_uint8. rewrite Z.mod_small by lia.
    destruct (day_check mday _); reflexivity.
  - rewrite Z.add_0_r. destruct (day_check mday _); reflexivity.
Qed.

(** For a day that is not negative the validator answers exactly as the
    specification asks. *)
Lemma validate_date_time_nonneg_day (sec min hour mday month year : Z) :
  in_domain sec min hour month year -> year < 2 ^ 32 -> 0 <= mday < 2 ^ 32 ->
  (validate_date_time sec min hour mday month year = Some true
   <-> validate_spec mday month year).
Proof.
  intros Hd Hy Hm. rewrite validate_date_time_in_domain by assumption.
  unfold day_check, validate_spec, to_uint32. rewrite Z.mod_small by lia.
  destruct (0 <? mday) eqn:E1, (mday <=? days_in_month month year) eqn:E2;
    cbn; split; intros H; try discriminate; try reflexivity; try lia.
Qed.

(** ** The log *)

Lemma rx_bytes_app (l1 l2 : list event) :
  rx_bytes (l1 ++ l2) = rx_bytes l2 ++ rx_bytes l1.
Proof.
  induction l1 as [| e l1 IH]; cbn [app rx_bytes].
  - now rewrite app_nil_r.
  - destruct e; try exact IH.
    destruct (read_value =? CY_SCB_UART_RX_NO_DATA); [exact IH |].
    now rewrite IH, app_assoc.
Qed.

Lemma enable_dst_calls_uart (new old : list event) :
  forallb passive new = true ->
  enable_dst_calls (new ++ old) = enable_dst_calls old.
Proof.
  induction new as [| e new IH]; cbn; [reflexivity |].
  intros Hn. apply andb_prop in Hn as [He Hn].
  destruct e; try discriminate; now apply IH.
Qed.

Lemma set_time_calls_uart (new old : list event) :
  forallb passive new = true ->
  set_time_calls (new ++ old) = set_time_calls old.
Proof.
  induction new as [| e new IH]; cbn; [reflexivity |].
  intros Hn. apply andb_prop in Hn as [He Hn].
  destruct e; try discriminate; now apply IH.
Qed.

Section Console.
Context {Env : Type}.
Implicit Types m : machine Env.

Lemma console_refl m : console m m [].
Proof. split; [reflexivity | exists []; auto]. Qed.

Lemma console_trans m1 m2 m3 b1 b2 :
  console m1 m2 b1 -> console m2 m3 b2 -> console m1 m3 (b1 ++ b2).
Proof.
  intros [Hf1 (n1 & Hl1 & Hu1 & Hb1)] [Hf2 (n2 & Hl2 & Hu2 & Hb2)].
  split; [congruence |].
  exists (n2 ++ n1). rewrite Hl2, Hl1, app_assoc. split; [reflexivity |].
  split.
  - rewrite forallb_app, Hu1, Hu2. reflexivity.
  - rewrite rx_bytes_app. congruence.
Qed.

Lemma console_call m (e : Env) (ev : event) :
  passive ev = true ->
  console m (record_call e ev m) (rx_bytes [ev]).
Proof.
  intros Hev. split; [reflexivity |].
  exists [ev]. cbn [forallb]. rewrite Hev. auto.
Qed.

Lemma console_enable_dst_calls m m' b :
  console m m' b -> enable_dst_calls (log m') = enable_dst_calls (log m).
Proof.
  intros [_ (new & -> & Hu & _)]. now apply enable_dst_calls_uart.
Qed.

Lemma console_set_time_calls m m' b :
  console m m' b -> set_time_calls (log m') = set_time_calls (log m).
Proof.
  intros [_ (new & -> & Hu & _)]. now apply set_time_calls_uart.
Qed.

Lemma console_rx_bytes m m' b :
  console m m' b -> rx_bytes (log m') = rx_bytes (log m) ++ b.
Proof.
  intros [_ (new & -> & _ & <-)]. apply rx_bytes_app.
Qed.

Lemma console_flag m m' b : console m m' b -> dst_data_flag m' = dst_data_flag m.
Proof. now intros [Hf _]. Qed.
End Console.

(** ** user_uart_getc *)

Section Getc.
Context {Env : Type} `{PDL Env}.
Implicit Types m : machine Env.

Lemma uart_put_string_console s m :
  exists m', uart_put_string s m = Done tt m' /\ console m m' [].
Proof. eexists. split; [reflexivity |]. now apply (console_call m _ (UartPutString s)). Qed.

Lemma getc_wait_spec n : forall timeout ticks v m,
  timeout <> 0 -> (Z.to_nat ticks < n)%nat ->
  exists r m', getc_wait n timeout ticks v m = Done r m' /\
    match r with
    | Some v' =>
        v' <> CY_SCB_UART_RX_NO_DATA /\
        (v <> CY_SCB_UART_RX_NO_DATA -> v' = v) /\
        console m m' (if v =? CY_SCB_UART_RX_NO_DATA then [to_uint8 v'] else [])
    | None => v = CY_SCB_UART_RX_NO_DATA /\ console m m' []
    end.
Proof.
  induction n as [| n IH]; intros timeout ticks v m Ht Hn; [lia |].
  cbn [getc_wait].
  destruct (v =? CY_SCB_UART_RX_NO_DATA) eqn:Ev.
  2:{ exists (Some v), m. split; [reflexivity |].
      split; [now apply Z.eqb_neq |]. split; [auto | apply console_refl]. }
  apply Z.eqb_eq in Ev.
  apply Z.eqb_neq in Ht as Ht'. rewrite Ht'. cbn [negb].
  destruct (0 <? ticks) eqn:Et.
  2:{ exists None, m. split; [reflexivity |]. split; auto using console_refl. }
  apply Z.ltb_lt in Et.
  unfold bind at 1. unfold syslib_delay at 1.
  unfold bind at 1. unfold uart_get at 1. cbn [record_call hw log dst_data_flag].
  set (m1 := record_call _ (SysLibDelay UART_GET_CHAR_DELAY) m).
  set (g := Cy_SCB_UART_Get (hw m1)).
  set (m2 := record_call g.2 (UartGet g.1) m1).
  assert (Hc : console m m2
                 (if g.1 =? CY_SCB_UART_RX_NO_DATA then [] else [to_uint8 g.1])).
  { change (if g.1 =? CY_SCB_UART_RX_NO_DATA then [] else [to_uint8 g.1])
      with ([] ++ rx_bytes [UartGet g.1]).
    apply (console_trans m m1 m2).
    - now apply (console_call m _ (SysLibDelay UART_GET_CHAR_DELAY)).
    - now apply (console_call m1 g.2 (UartGet g.1)). }
  destruct (IH timeout (to_uint32 (ticks - 1)) g.1 m2 Ht) as (r & m' & Hr & Hp).
  { unfold to_uint32.
    pose proof (Z.mod_le (ticks - 1) (2 ^ 32) ltac:(lia) ltac:(lia)). lia. }
  exists r, m'. split; [exact Hr |].
  destruct r as [v' |].
  - destruct Hp as (Hv' & Hsame & Hc').
    split; [exact Hv' |]. split; [intros Hv; contradiction |].
    destruct (g.1 =? CY_SCB_UART_RX_NO_DATA) eqn:Eg.
    + change [to_uint8 v'] with ([] ++ [to_uint8 v']).
      eapply console_trans; eassumption.
    + apply Z.eqb_neq in Eg. rewrite (Hsame Eg).
      rewrite <- (app_nil_r [to_uint8 g.1]).
      eapply console_trans; eassumption.
  - destruct Hp as (Hg & Hc'). split; [exact Ev |].
    apply Z.eqb_eq in Hg. rewrite Hg in Hc.
    change (@nil Z) with (@nil Z ++ []). eapply console_trans; eassumption.
Qed.

(** With a timeout that is not 0 the function returns: either nothing
    was received and [*value] is untouched, or one byte was received
    and stored. *)
Lemma user_uart_getc_spec fuel value timeout m :
  timeout <> 0 -> (Z.to_nat timeout < fuel)%nat ->
  exists rslt value' m',
    user_uart_getc fuel value timeout m = Done (rslt, value') m' /\
    ((rslt = CY_SCB_UART_RX_NO_DATA /\ value' = value /\ console m m' [])
     \/ (rslt = CY_RSLT_SUCCESS /\ 0 <= value' < 256 /\ console m m' [value'])).
Proof.
  intros Ht Hn. unfold user_uart_getc.
  unfold bind at 1. unfold uart_get at 1.
  set (g := Cy_SCB_UART_Get (hw m)).
  set (m1 := record_call g.2 (UartGet g.1) m).
  assert (Hc : console m m1
                 (if g.1 =? CY_SCB_UART_RX_NO_DATA then [] else [to_uint8 g.1])).
  { now apply (console_call m g.2 (UartGet g.1)). }
  destruct (getc_wait_spec fuel timeout timeout g.1 m1 Ht Hn) as (r & m' & Hr & Hp).
  unfold bind. rewrite Hr.
  destruct r as [v' |].
  - destruct Hp as (Hv' & Hsame & Hc').
    exists CY_RSLT_SUCCESS, (to_uint8 v'), m'. split; [reflexivity |].
    right. split; [reflexivity |]. split.
    { unfold to_uint8. apply Z.mod_pos_bound. lia. }
    destruct (g.1 =? CY_SCB_UART_RX_NO_DATA) eqn:Eg.
    + change [to_uint8 v'] with ([] ++ [to_uint8 v']).
      eapply console_trans; eassumption.
    + apply Z.eqb_neq in Eg. rewrite (Hsame Eg).
      rewrite <- (app_nil_r [to_uint8 g.1]).
      eapply console_trans; eassumption.
  - destruct Hp as (Hg & Hc').
    exists CY_SCB_UART_RX_NO_DATA, value, m'. split; [reflexivity |].
    left. split; [reflexivity |]. split; [reflexivity |].
    apply Z.eqb_eq in Hg. rewrite Hg in Hc.
    change (@nil Z) with (@nil Z ++ []). eapply console_trans; eassumption.
Qed.
End Getc.

(** ** fetch_time_data *)

Lemma count_spaces_nil : count_spaces [] = 0.
Proof. reflexivity. Qed.

Lemma count_spaces_cons (c : Z) (s : list Z) :
  count_spaces (c :: s) = (if c =? SPACE then 1 else 0) + count_spaces s.
Proof.
  unfold count_spaces. rewrite filter_cons.
  destruct (decide (c = SPACE)) as [-> | Hc].
  - rewrite Z.eqb_refl. cbn [length]. lia.
  - apply Z.eqb_neq in Hc. rewrite Hc. lia.
Qed.

Lemma count_spaces_bounds (s : list Z) : 0 <= count_spaces s <= Z.of_nat (length s).
Proof.
  induction s as [| c s IH]; [rewrite count_spaces_nil; cbn [length]; lia |].
  rewrite count_spaces_cons. cbn [length]. destruct (c =? SPACE); lia.
Qed.

Lemma line_store (buffer : list Z) (index ch : Z) :
  0 <= index -> (Z.to_nat index < length buffer)%nat ->
  take (Z.to_nat (index + 1)) (<[Z.to_nat index := ch]> buffer)
  = take (Z.to_nat index) buffer ++ [ch].
Proof.
  intros Hi Hl.
  replace (Z.to_nat (index + 1)) with (S (Z.to_nat index)) by lia.
  rewrite (take_S_r _ _ ch) by now apply list_lookup_insert_eq.
  now rewrite take_insert_ge by lia.
Qed.

(** Closes the arithmetic side conditions of [fetch_post]. *)
Ltac post_side :=
  intros;
  first [ assumption | reflexivity | lia | congruence
        | apply Forall_nil_2 | (left; reflexivity) ].

Section FetchLoop.
Context {Env : Type} `{PDL Env}.
Implicit Types m : machine Env.

Lemma uart_put_console c m :
  exists n m', uart_put c m = Done n m' /\ (n = 0 \/ n = 1) /\ console m m' [].
Proof.
  exists (Cy_SCB_UART_Put c (hw m)).1, (record_call (Cy_SCB_UART_Put c (hw m)).2
                                       (UartPut c (Cy_SCB_UART_Put c (hw m)).1) m).
  split; [reflexivity |]. split; [apply Cy_SCB_UART_Put_count |].
  now apply (console_call m _ (UartPut c _)).
Qed.

(** The loop returns for every environment once [n] exceeds the number
    of sub-timeouts in the budget, and then [fetch_post] holds. *)
Lemma fetch_loop_spec fuel n : forall l m,
  (Z.to_nat UART_TIMEOUT_MS < fuel)%nat ->
  (Z.to_nat (Fetch.timeout_ms l / UART_TIMEOUT_MS) < n)%nat ->
  fetch_pre l ->
  exists l' m', fetch_loop fuel n l m = Done l' m' /\ fetch_post l m l' m'.
Proof.
  induction n as [| n IH]; intros l m Hfuel Hn Hpre; [lia |].
  destruct Hpre as (Hidx & Hlen & Hsc & Hto & Hfull).
  unfold STRING_BUFFER_SIZE, UART_TIMEOUT_MS in *.
  cbn [fetch_loop]. unfold STRING_BUFFER_SIZE, UART_TIMEOUT_MS.
  destruct (Fetch.index l <? 80) eqn:Ei.
  2:{ (* buffer already full *)
    apply Z.ltb_ge in Ei. destruct Hfull as (v & Hv & Hv01); [lia |].
    exists l, m. split; [reflexivity |].
    exists [], [], v. rewrite !app_nil_r, count_spaces_nil, Nat.sub_diag.
    unfold STRING_BUFFER_SIZE, UART_TIMEOUT_MS, CY_SCB_UART_RX_NO_DATA.
    cbn [length]. split; [apply console_refl |].
    repeat split; post_side. }
  apply Z.ltb_lt in Ei.
  destruct (Fetch.timeout_ms l <=? 10) eqn:Et.
  { (* budget used up *)
    apply Z.leb_le in Et.
    eexists _, m. split; [reflexivity |].
    exists [], [], CY_SCB_UART_RX_NO_DATA.
    rewrite !app_nil_r, count_spaces_nil, Nat.sub_diag.
    unfold STRING_BUFFER_SIZE, UART_TIMEOUT_MS, Fetch.line.
    cbn [length Fetch.index Fetch.buffer Fetch.space_count Fetch.timeout_ms
           Fetch.rslt Fetch.iterations].
    unfold CY_SCB_UART_RX_NO_DATA.
    split; [apply console_refl |].
    repeat split; post_side. }
  apply Z.leb_gt in Et.
  destruct (user_uart_getc_spec fuel (Fetch.ch l) 10 m ltac:(lia) Hfuel)
    as (rslt & ch & m1 & Hg & Hcase).
  unfold bind at 1. fold UART_TIMEOUT_MS. unfold UART_TIMEOUT_MS at 1.
  rewrite Hg. cbn [fst snd].
  assert (Hdec : to_uint32 (Fetch.timeout_ms l - 10) = Fetch.timeout_ms l - 10).
  { unfold to_uint32. apply Z.mod_small. lia. }
  assert (Hdiv : (Fetch.timeout_ms l - 10) / 10 = Fetch.timeout_ms l / 10 - 1).
  { replace (Fetch.timeout_ms l - 10) with (Fetch.timeout_ms l + (-1) * 10) by lia.
    rewrite Z.div_add by lia. lia. }
  assert (Hq : 1 <= Fetch.timeout_ms l / 10).
  { apply Z.div_le_lower_bound; lia. }
  unfold UART_TIMEOUT_MS. rewrite Hdec.
  destruct Hcase as [(-> & -> & Hc1) | (-> & Hch & Hc1)].
  - (* nothing received in this pass *)
    rewrite Z.eqb_refl. cbn [negb].
    match goal with |- context [fetch_loop fuel n ?x m1] => set (l2 := x) end.
    destruct (IH l2 m1 Hfuel) as (l' & m' & Hrun & Hpost).
    { subst l2. cbn [Fetch.timeout_ms]. rewrite Hdiv. lia. }
    { subst l2. unfold fetch_pre, STRING_BUFFER_SIZE.
      cbn [Fetch.index Fetch.buffer Fetch.space_count Fetch.timeout_ms Fetch.rslt].
      repeat split; lia. }
    exists l', m'. split; [exact Hrun |].
    destruct Hpost as (chars & tail & v & P1 & P2 & P3 & P4 & P5 & P6 & P7 & P8
                       & P9 & P10 & P11 & P12 & P13 & P14 & P15 & P16).
    subst l2. unfold Fetch.line in *.
    cbn [Fetch.index Fetch.buffer Fetch.space_count Fetch.timeout_ms
           Fetch.rslt Fetch.iterations] in *.
    exists chars, tail, v.
    split. { change (chars ++ tail) with ([] ++ (chars ++ tail)).
             eapply console_trans; eassumption. }
    unfold Fetch.line, UART_TIMEOUT_MS in *.
    repeat (split; [first [assumption | lia] |]). assumption.
  - (* one byte received *)
    change (CY_RSLT_SUCCESS =? CY_SCB_UART_RX_NO_DATA) with false. cbn [negb].
    destruct (is_terminator ch) eqn:Eterm.
    + (* a line terminator: leave the loop *)
      eexists _, m1. split; [reflexivity |].
      exists [], [ch], CY_RSLT_SUCCESS.
      rewrite count_spaces_nil, Nat.sub_diag.
      unfold STRING_BUFFER_SIZE, UART_TIMEOUT_MS, Fetch.line,
        CY_RSLT_SUCCESS, CY_SCB_UART_RX_NO_DATA.
      cbn [length app Fetch.index Fetch.buffer Fetch.space_count Fetch.timeout_ms
             Fetch.rslt Fetch.iterations].
      rewrite app_nil_r.
      split; [exact Hc1 |].
      split; [reflexivity |]. split; [apply Forall_nil_2 |].
      split; [right; eauto |].
      repeat split; post_side.
    + (* a byte to store *)
      destruct (uart_put_console ch m1) as (cnt & m2 & Hput & Hcnt & Hc2).
      unfold bind at 1. rewrite Hput.
      assert (Hinc : to_uint32 (Fetch.index l + 1) = Fetch.index l + 1).
      { unfold to_uint32. apply Z.mod_small. lia. }
      rewrite Hinc.
      match goal with |- context [fetch_loop fuel n ?x m2] => set (l2 := x) end.
      assert (Hsp : Fetch.space_count l2
                    = Fetch.space_count l + (if ch =? SPACE then 1 else 0)).
      { subst l2. cbn [Fetch.space_count].
        destruct (ch =? SPACE); [| lia].
        unfold to_uint32. apply Z.mod_small. lia. }
      destruct (IH l2 m2 Hfuel) as (l' & m' & Hrun & Hpost).
      { subst l2. cbn [Fetch.timeout_ms]. rewrite Hdiv. lia. }
      { unfold fetch_pre. rewrite Hsp. subst l2. unfold STRING_BUFFER_SIZE.
        cbn [Fetch.index Fetch.buffer Fetch.timeout_ms Fetch.rslt].
        rewrite length_insert.
        repeat split; try lia; try (destruct (ch =? SPACE); lia).
        intros _. eauto. }
      exists l', m'. split; [exact Hrun |].
      destruct Hpost as (chars & tail & v & P1 & P2 & P3 & P4 & P5 & P6 & P7 & P8
                         & P9 & P10 & P11 & P12 & P13 & P14 & P15 & P16).
      rewrite Hsp in P8. subst l2. unfold Fetch.line in *.
      cbn [Fetch.index Fetch.buffer Fetch.space_count Fetch.timeout_ms
             Fetch.rslt Fetch.iterations] in *.
      rewrite length_insert in P7.
      rewrite line_store in P2 by lia.
      exists (ch :: chars), tail, v.
      split. { change ((ch :: chars) ++ tail) with ([ch] ++ ([] ++ (chars ++ tail))).
               eapply console_trans; [eassumption |].
               eapply console_trans; eassumption. }
      split. { unfold Fetch.line. rewrite P2, <- app_assoc. reflexivity. }
      split. { constructor; [split; assumption | assumption]. }
      rewrite count_spaces_cons. cbn [length].
      unfold UART_TIMEOUT_MS in *.
      repeat (split; [first [assumption | lia] |]). assumption.
Qed.

End FetchLoop.

Section FetchTimeDataTrace.
Context {Env : Type} `{PDL Env}.
Implicit Types m : machine Env.

Lemma fetch_post_console l m l' m1 m' :
  fetch_post l m l' m1 -> console m1 m' [] -> fetch_post l m l' m'.
Proof.
  intros (chars & tail & v & P1 & P) Hc.
  exists chars, tail, v. split; [| exact P].
  rewrite <- (app_nil_r (chars ++ tail)). eapply console_trans; eassumption.
Qed.

(** The function returns for every environment, and what it returns is
    described by [fetch_post] from the initial values of its locals. *)
Lemma fetch_time_data_spec fuel buffer timeout_ms m :
  length buffer = Z.to_nat STRING_BUFFER_SIZE ->
  0 <= timeout_ms < 2 ^ 32 ->
  (Z.to_nat UART_TIMEOUT_MS < fuel)%nat ->
  (Z.to_nat (timeout_ms / UART_TIMEOUT_MS) < fuel)%nat ->
  exists l m',
    fetch_time_data fuel buffer timeout_ms m = Done l m' /\
    fetch_post (Fetch.Locals buffer 0 0 0 timeout_ms None O) m l m'.
Proof.
  intros Hlen Hto Hf1 Hf2.
  destruct (fetch_loop_spec fuel fuel (Fetch.Locals buffer 0 0 0 timeout_ms None O) m)
    as (l & m1 & Hrun & Hpost); [exact Hf1 | exact Hf2 | |].
  { unfold fetch_pre, STRING_BUFFER_SIZE.
    cbn [Fetch.index Fetch.buffer Fetch.space_count Fetch.timeout_ms Fetch.rslt].
    repeat split; try lia; try assumption. }
  destruct (uart_put_string_console MsgNewline m1) as (m' & Hput & Hc).
  exists l, m'. split.
  - unfold fetch_time_data, bind. rewrite Hrun, Hput. reflexivity.
  - eapply fetch_post_console; eassumption.
Qed.
End FetchTimeDataTrace.

(** ** fetch_time_data on input typed without pauses *)

Section Typed.
Implicit Types (l : Fetch.locals) (data rest : list Z).

Lemma plain_no_data c : plain c -> (c =? CY_SCB_UART_RX_NO_DATA) = false.
Proof. intros [Hc _]. apply Z.eqb_neq. unfold CY_SCB_UART_RX_NO_DATA. lia. Qed.

Lemma byte_to_uint8 c : 0 <= c < 256 -> to_uint8 c = c.
Proof. intros Hc. unfold to_uint8. apply Z.mod_small. lia. Qed.

(** A key that is waiting is returned at once. *)
Lemma user_uart_getc_key fuel value timeout k ks rr lg fl :
  0 <= k < 256 ->
  user_uart_getc fuel value timeout (Machine (Script (k :: ks) rr) lg fl)
  = Done (CY_RSLT_SUCCESS, k) (Machine (Script ks rr) (UartGet k :: lg) fl).
Proof.
  intros Hk. unfold user_uart_getc, bind, uart_get, record_call.
  cbn [hw log dst_data_flag Cy_SCB_UART_Get scripted next_key keys rtc_replies fst snd].
  assert (Hnd : (k =? CY_SCB_UART_RX_NO_DATA) = false).
  { apply Z.eqb_neq. unfold CY_SCB_UART_RX_NO_DATA. lia. }
  destruct fuel; cbn [getc_wait]; rewrite Hnd; unfold ret;
    rewrite byte_to_uint8 by assumption; reflexivity.
Qed.

(** One pass of the loop that stores the key [k]. *)
Lemma fetch_loop_key fuel n l k ks rr lg fl :
  plain k -> 0 <= Fetch.index l < STRING_BUFFER_SIZE ->
  UART_TIMEOUT_MS < Fetch.timeout_ms l < 2 ^ 32 ->
  0 <= Fetch.space_count l <= Fetch.index l ->
  fetch_loop fuel (S n) l (Machine (Script (k :: ks) rr) lg fl)
  = fetch_loop fuel n
      (Fetch.Locals (<[Z.to_nat (Fetch.index l) := k]> (Fetch.buffer l))
         (Fetch.index l + 1) k
         (Fetch.space_count l + (if k =? SPACE then 1 else 0))
         (Fetch.timeout_ms l - UART_TIMEOUT_MS) (Some 1)
         (S (Fetch.iterations l)))
      (Machine (Script ks rr) (UartPut k 1 :: UartGet k :: lg) fl).
Proof.
  intros [Hk Hterm] Hi Ht Hs. unfold STRING_BUFFER_SIZE, UART_TIMEOUT_MS in *.
  cbn [fetch_loop]. unfold STRING_BUFFER_SIZE, UART_TIMEOUT_MS.
  replace (Fetch.index l <? 80) with true by (symmetry; apply Z.ltb_lt; lia).
  replace (Fetch.timeout_ms l <=? 10) with false by (symmetry; apply Z.leb_gt; lia).
  unfold bind at 1. rewrite user_uart_getc_key by assumption.
  cbn [fst snd]. change (CY_RSLT_SUCCESS =? CY_SCB_UART_RX_NO_DATA) with false.
  cbn [negb]. rewrite Hterm.
  unfold bind, uart_put, record_call.
  cbn [hw log dst_data_flag Cy_SCB_UART_Put scripted fst snd].
  f_equal. f_equal.
  - unfold to_uint32. apply Z.mod_small. lia.
  - destruct (k =? SPACE); [| lia]. unfold to_uint32. rewrite Z.mod_small; lia.
  - unfold to_uint32. apply Z.mod_small. lia.
Qed.

(** The passes that store [data]. *)
Lemma fetch_loop_typed fuel data : forall n l rest rr lg fl,
  Forall plain data ->
  0 <= Fetch.index l -> Fetch.index l + Z.of_nat (length data) <= STRING_BUFFER_SIZE ->
  UART_TIMEOUT_MS * Z.of_nat (length data) < Fetch.timeout_ms l < 2 ^ 32 ->
  0 <= Fetch.space_count l <= Fetch.index l ->
  length (Fetch.buffer l) = Z.to_nat STRING_BUFFER_SIZE ->
  exists l',
    fetch_loop fuel (length data + n) l (Machine (Script (data ++ rest) rr) lg fl)
    = fetch_loop fuel n l' (Machine (Script rest rr) (typed_log data lg) fl) /\
    Fetch.line l' = Fetch.line l ++ data /\
    Fetch.index l' = Fetch.index l + Z.of_nat (length data) /\
    Fetch.space_count l' = Fetch.space_count l + count_spaces data /\
    Fetch.timeout_ms l' = Fetch.timeout_ms l - UART_TIMEOUT_MS * Z.of_nat (length data) /\
    length (Fetch.buffer l') = Z.to_nat STRING_BUFFER_SIZE /\
    (data = [] -> l' = l) /\
    (data <> [] -> Fetch.rslt l' = Some 1).
Proof.
  induction data as [| k data IH]; intros n l rest rr lg fl Hp Hi Hcap Ht Hs Hlen.
  - exists l. cbn [length app typed_log Nat.add].
    rewrite app_nil_r, count_spaces_nil.
    repeat split; try lia; try assumption. congruence.
  - inversion Hp as [| ? ? Hk Hp']; subst.
    cbn [length] in *. unfold STRING_BUFFER_SIZE, UART_TIMEOUT_MS in *.
    cbn [app Nat.add].
    rewrite fetch_loop_key; unfold STRING_BUFFER_SIZE, UART_TIMEOUT_MS;
      [| assumption | lia | lia | lia].
    match goal with |- context [fetch_loop fuel _ ?x (Machine (Script (data ++ rest) _) _ _)] =>
      set (l2 := x) end.
    destruct (IH n l2 rest rr (UartPut k 1 :: UartGet k :: lg) fl Hp')
      as (l' & Hrun & Q1 & Q2 & Q3 & Q4 & Q5 & Q0 & Q6);
      subst l2;
      cbn [Fetch.index Fetch.buffer Fetch.space_count Fetch.timeout_ms];
      try lia.
    { destruct (k =? SPACE); lia. }
    { now rewrite length_insert. }
    exists l'. split; [exact Hrun |].
    unfold Fetch.line in *.
    cbn [Fetch.index Fetch.buffer Fetch.space_count Fetch.timeout_ms] in *.
    rewrite line_store in Q1 by lia.
    rewrite count_spaces_cons.
    split; [rewrite Q1, <- app_assoc; reflexivity |].
    split; [lia |]. split; [lia |]. split; [lia |]. split; [assumption |].
    split.
    + discriminate.
    + intros _. destruct data as [| k' data'].
      * rewrite (Q0 eq_refl). reflexivity.
      * apply Q6. discriminate.
Qed.

(** A line of fewer than 80 plain bytes followed by a terminator. *)
Lemma fetch_typed_line fuel buffer timeout_ms data t rest rr lg fl :
  Forall plain data -> (length data < Z.to_nat STRING_BUFFER_SIZE)%nat ->
  t = LF \/ t = CR ->
  length buffer = Z.to_nat STRING_BUFFER_SIZE ->
  UART_TIMEOUT_MS * (Z.of_nat (length data) + 1) < timeout_ms < 2 ^ 32 ->
  (length data < fuel)%nat ->
  exists l,
    fetch_time_data fuel buffer timeout_ms (Machine (Script (data ++ t :: rest) rr) lg fl)
    = Done l (Machine (Script rest rr)
                (UartPutString MsgNewline :: UartGet t :: typed_log data lg) fl) /\
    Fetch.line l = data /\
    Fetch.space_count l = count_spaces data /\
    Fetch.rslt l = Some CY_RSLT_SUCCESS.
Proof.
  intros Hp Hlen Ht Hbuf Hto Hfuel.
  unfold STRING_BUFFER_SIZE, UART_TIMEOUT_MS in *.
  destruct (fetch_loop_typed fuel data (fuel - length data)
              (Fetch.Locals buffer 0 0 0 timeout_ms None O) (t :: rest) rr lg fl Hp)
    as (l' & Hrun & Q1 & Q2 & Q3 & Q4 & Q5 & _ & _);
    unfold STRING_BUFFER_SIZE, UART_TIMEOUT_MS;
    cbn [Fetch.index Fetch.buffer Fetch.space_count Fetch.timeout_ms];
    try lia.
  replace (length data + (fuel - length data))%nat with fuel in Hrun by lia.
  cbn [Fetch.index Fetch.buffer Fetch.space_count Fetch.timeout_ms] in *.
  unfold UART_TIMEOUT_MS in *.
  unfold fetch_time_data, bind. rewrite Hrun.
  destruct (fuel - length data)%nat as [| n] eqn:En; [lia |].
  cbn [fetch_loop]. unfold STRING_BUFFER_SIZE, UART_TIMEOUT_MS.
  replace (Fetch.index l' <? 80) with true by (symmetry; apply Z.ltb_lt; lia).
  replace (Fetch.timeout_ms l' <=? 10) with false by (symmetry; apply Z.leb_gt; lia).
  unfold bind. rewrite user_uart_getc_key by (unfold LF, CR in Ht; lia).
  cbn [fst snd]. change (CY_RSLT_SUCCESS =? CY_SCB_UART_RX_NO_DATA) with false.
  cbn [negb].
  replace (is_terminator t) with true
    by (destruct Ht as [-> | ->]; reflexivity).
  unfold ret, uart_put_string, record_call.
  cbn [hw log dst_data_flag Cy_SCB_UART_PutString scripted].
  eexists. split; [reflexivity |].
  unfold Fetch.line in *. cbn [Fetch.index Fetch.buffer Fetch.space_count Fetch.rslt].
  rewrite Q1, Q3. cbn [take app]. repeat split; lia.
Qed.

(** At least 80 plain bytes and no terminator among the first 80. *)
Lemma fetch_typed_overflow fuel buffer timeout_ms data rest rr lg fl :
  Forall plain data -> (Z.to_nat STRING_BUFFER_SIZE <= length data)%nat ->
  length buffer = Z.to_nat STRING_BUFFER_SIZE ->
  UART_TIMEOUT_MS * STRING_BUFFER_SIZE < timeout_ms < 2 ^ 32 ->
  (Z.to_nat STRING_BUFFER_SIZE <= fuel)%nat ->
  exists l,
    fetch_time_data fuel buffer timeout_ms (Machine (Script (data ++ rest) rr) lg fl)
    = Done l (Machine (Script (drop (Z.to_nat STRING_BUFFER_SIZE) data ++ rest) rr)
                (UartPutString MsgNewline
                   :: typed_log (take (Z.to_nat STRING_BUFFER_SIZE) data) lg) fl) /\
    Fetch.line l = take (Z.to_nat STRING_BUFFER_SIZE) data /\
    Fetch.index l = STRING_BUFFER_SIZE /\
    Fetch.rslt l = Some 1.
Proof.
  intros Hp Hlen Hbuf Hto Hfuel.
  unfold STRING_BUFFER_SIZE, UART_TIMEOUT_MS in *.
  remember (Z.to_nat 80) as N eqn:EN.
  assert (HN : N = 80%nat) by lia.
  assert (Htk : length (take N data) = N) by (rewrite length_take; lia).
  destruct (fetch_loop_typed fuel (take N data) (fuel - N)
              (Fetch.Locals buffer 0 0 0 timeout_ms None O) (drop N data ++ rest) rr lg fl)
    as (l' & Hrun & Q1 & Q2 & Q3 & Q4 & Q5 & _ & Q7);
    unfold STRING_BUFFER_SIZE, UART_TIMEOUT_MS;
    cbn [Fetch.index Fetch.buffer Fetch.space_count Fetch.timeout_ms];
    rewrite ?Htk; try lia.
  { now apply Forall_take. }
  rewrite app_assoc, take_drop in Hrun.
  rewrite Htk in *.
  replace (N + (fuel - N))%nat with fuel in Hrun by lia.
  cbn [Fetch.index Fetch.buffer Fetch.space_count Fetch.timeout_ms] in *.
  unfold fetch_time_data, bind. rewrite Hrun.
  assert (Hexit : forall n m, fetch_loop (Env := script) fuel n l' m = Done l' m).
  { intros n m. destruct n; cbn [fetch_loop]; unfold STRING_BUFFER_SIZE;
      replace (Fetch.index l' <? 80) with false
        by (symmetry; apply Z.ltb_ge; lia); reflexivity. }
  rewrite Hexit.
  unfold uart_put_string, record_call.
  cbn [hw log dst_data_flag Cy_SCB_UART_PutString scripted].
  exists l'. split; [reflexivity |].
  unfold Fetch.line in *. cbn [Fetch.index Fetch.buffer] in Q1.
  split; [| split; [lia |]].
  - change (take (Z.to_nat 0) buffer) with (@nil Z) in Q1. exact Q1.
  - apply Q7. intros E. rewrite E in Htk. cbn [length] in Htk. lia.
Qed.
End Typed.

(** ** The retry loop *)

Section Retry.
Context {Env : Type} `{PDL Env}.
Implicit Types m : machine Env.

Lemma attempt_log_snoc ev statuses s :
  attempt_log ev (statuses ++ [s])
  = attempt_log ev statuses ++ [SysLibDelay INIT_DELAY_MS; ev s].
Proof. unfold attempt_log. rewrite flat_map_app. reflexivity. Qed.

(** The loop makes between 1 and [attempts] calls, stops at the first
    success, and returns the status of the last call. *)
Lemma retry_loop_spec (call : M Env Z) (ev : Z -> event) :
  (forall m, exists s e, call m = Done s (record_call e (ev s) m)) ->
  forall n attempts m,
    1 <= attempts < 2 ^ 32 -> (Z.to_nat attempts <= n)%nat ->
    exists rslt failed m',
      retry_loop call n attempts m = Done rslt m' /\
      log m' = attempt_log ev (rslt :: failed) ++ log m /\
      dst_data_flag m' = dst_data_flag m /\
      Forall (fun s => s <> CY_RTC_SUCCESS) failed /\
      (length failed < Z.to_nat attempts)%nat /\
      (rslt <> CY_RTC_SUCCESS -> S (length failed) = Z.to_nat attempts).
Proof.
  intros Hcall. induction n as [| n IH]; intros attempts m Ha Hn; [lia |].
  cbn [retry_loop]. destruct (Hcall m) as (s & e & Hs).
  unfold bind at 1. rewrite Hs.
  unfold bind at 1. unfold syslib_delay at 1.
  set (m2 := record_call _ (SysLibDelay INIT_DELAY_MS) (record_call e (ev s) m)).
  assert (Hdec : to_uint32 (attempts - 1) = attempts - 1).
  { unfold to_uint32. apply Z.mod_small. lia. }
  rewrite Hdec.
  destruct (negb (s =? CY_RTC_SUCCESS) && negb (attempts - 1 =? 0)) eqn:Eagain.
  - apply andb_prop in Eagain as [Es Ea].
    apply negb_true_iff, Z.eqb_neq in Es. apply negb_true_iff, Z.eqb_neq in Ea.
    destruct (IH (attempts - 1) m2 ltac:(lia) ltac:(lia))
      as (rslt & failed & m' & Hrun & Hlog & Hflag & Hfail & Hlen & Hlast).
    exists rslt, (failed ++ [s]), m'. split; [exact Hrun |].
    split. { rewrite Hlog. change (rslt :: failed ++ [s]) with ((rslt :: failed) ++ [s]).
             rewrite attempt_log_snoc, <- app_assoc. reflexivity. }
    split; [exact Hflag |].
    split. { apply Forall_app. split; [exact Hfail | now constructor]. }
    rewrite length_app. cbn [length]. split; [lia |].
    intros Hr. specialize (Hlast Hr). lia.
  - exists s, [], m2. split; [reflexivity |].
    split; [reflexivity |]. split; [reflexivity |]. split; [constructor |].
    cbn [length]. split; [lia |].
    intros Hs'. apply andb_false_iff in Eagain as [E | E].
    + apply negb_false_iff, Z.eqb_eq in E. contradiction.
    + apply negb_false_iff, Z.eqb_eq in E. lia.
Qed.

Lemma rtc_init_call_logged m :
  exists s e, rtc_init_call m = Done s (record_call e (RtcInit s) m).
Proof. eexists _, _. reflexivity. Qed.

Lemma rtc_set_date_and_time_direct_logged sec min hour date month year m :
  exists s e,
    rtc_set_date_and_time_direct sec min hour date month year m
    = Done s (record_call e (RtcSetDateAndTimeDirect sec min hour date month year s) m).
Proof. eexists _, _. reflexivity. Qed.
End Retry.

(** ** The DST configuration flow *)

Lemma dst_statuses_app (l1 l2 : list event) :
  dst_statuses (l1 ++ l2) = dst_statuses l1 ++ dst_statuses l2.
Proof.
  induction l1 as [| e l1 IH]; [reflexivity |].
  destruct e; cbn; rewrite ?IH; reflexivity.
Qed.

Lemma dst_statuses_passive (new : list event) :
  forallb passive new = true -> dst_statuses new = [].
Proof.
  induction new as [| e new IH]; cbn; [reflexivity |].
  intros Hn. apply andb_prop in Hn as [He Hn].
  destruct e; try discriminate; now apply IH.
Qed.

Lemma enable_dst_calls_app (l1 l2 : list event) :
  enable_dst_calls (l1 ++ l2) = enable_dst_calls l1 ++ enable_dst_calls l2.
Proof.
  induction l1 as [| e l1 IH]; [reflexivity |].
  destruct e; cbn; rewrite ?IH; reflexivity.
Qed.

Lemma enable_dst_calls_passive (new : list event) :
  forallb passive new = true -> enable_dst_calls new = [].
Proof.
  intros Hn. rewrite <- (app_nil_r new). now apply enable_dst_calls_uart.
Qed.

Lemma set_time_calls_app (l1 l2 : list event) :
  set_time_calls (l1 ++ l2) = set_time_calls l1 ++ set_time_calls l2.
Proof.
  induction l1 as [| e l1 IH]; [reflexivity |].
  destruct e; cbn; rewrite ?IH; reflexivity.
Qed.

Lemma div_sub_timeout (t : Z) : 0 <= t -> (Z.to_nat (t / UART_TIMEOUT_MS) <= Z.to_nat t)%nat.
Proof.
  intros Ht. unfold UART_TIMEOUT_MS.
  assert (t / 10 <= t) by (apply Z.div_le_upper_bound; lia).
  assert (0 <= t / 10) by (apply Z.div_pos; lia). lia.
Qed.

Section PassiveOnly.
Context {Env : Type}.
Implicit Types m : machine Env.

Lemma passive_only_refl m : passive_only m m.
Proof. exists []. auto. Qed.

Lemma passive_only_trans m1 m2 m3 :
  passive_only m1 m2 -> passive_only m2 m3 -> passive_only m1 m3.
Proof.
  intros (n1 & Hl1 & Hu1) (n2 & Hl2 & Hu2).
  exists (n2 ++ n1). rewrite Hl2, Hl1, app_assoc, forallb_app, Hu1, Hu2. auto.
Qed.

Lemma passive_only_console m m' b : console m m' b -> passive_only m m'.
Proof. intros [_ (new & Hl & Hu & _)]. now exists new. Qed.

Lemma passive_only_call m (e : Env) ev :
  passive ev = true -> passive_only m (record_call e ev m).
Proof. intros Hev. exists [ev]. cbn. rewrite Hev. auto. Qed.

Lemma passive_only_flag m v : passive_only m (Machine (hw m) (log m) v).
Proof. exists []. auto. Qed.
End PassiveOnly.

Create HintDb passive.
#[local] Hint Resolve passive_only_refl passive_only_console passive_only_call
  passive_only_flag : passive.

Section DstFlow.
Context {Env : Type} `{PDL Env}.
Implicit Types m : machine Env.

Lemma fetch_time_data_returns fuel timeout_ms m :
  0 <= timeout_ms < 2 ^ 32 -> enough_fuel fuel timeout_ms ->
  exists f m', fetch_time_data fuel zero_buffer timeout_ms m = Done f m' /\
               passive_only m m' /\ dst_data_flag m' = dst_data_flag m.
Proof.
  intros Ht (Hf1 & Hf2 & _).
  destruct (fetch_time_data_spec fuel zero_buffer timeout_ms m)
    as (f & m' & Hrun & (chars & tail & v & Hc & _)); try assumption.
  - reflexivity.
  - pose proof (div_sub_timeout timeout_ms ltac:(lia)). lia.
  - exists f, m'. split; [exact Hrun |].
    split; [eapply passive_only_console; eassumption | eapply console_flag; eassumption].
Qed.

Lemma user_uart_getc_returns fuel value timeout_ms m :
  0 < timeout_ms -> enough_fuel fuel timeout_ms ->
  exists r m', user_uart_getc fuel value timeout_ms m = Done r m' /\
               passive_only m m' /\ dst_data_flag m' = dst_data_flag m.
Proof.
  intros Ht (Hf1 & _).
  destruct (user_uart_getc_spec fuel value timeout_ms m ltac:(lia) Hf1)
    as (rslt & value' & m' & Hrun & Hcase).
  exists (rslt, value'), m'. split; [exact Hrun |].
  destruct Hcase as [(_ & _ & Hc) | (_ & _ & Hc)];
    (split; [eapply passive_only_console; eassumption | eapply console_flag; eassumption]).
Qed.

Lemma enter_dst_start_returns fuel fmt timeout_ms v dst_time m :
  0 <= timeout_ms < 2 ^ 32 -> enough_fuel fuel timeout_ms ->
  exists r m', enter_dst_start fuel fmt timeout_ms v dst_time m = Done r m' /\
               passive_only m m' /\
               ((dst_data_flag m' = dst_data_flag m /\ r.2 = dst_time) \/
                (dst_data_flag m' = DST_VALID_START_TIME_FLAG /\
                 validated r.1 = true /\ recognized_format fmt = true /\
                 r.2 = {| startDst := Some (build_dst fmt r.1); stopDst := stopDst dst_time |})).
Proof.
  intros Ht Hf. unfold enter_dst_start, bind, uart_put_string.
  set (m1 := record_call _ (UartPutString MsgEnterDstStart) m).
  destruct (fetch_time_data_returns fuel timeout_ms m1 Ht Hf)
    as (f & m2 & Hrun & Hp & Hflag).
  rewrite Hrun.
  assert (Hp1 : passive_only m m2).
  { eapply passive_only_trans; [| exact Hp]. now apply passive_only_call. }
  change (dst_data_flag m1) with (dst_data_flag m) in Hflag.
  destruct (received (Fetch.rslt f)).
  2:{ eexists _, _. split; [reflexivity |].
      split; [eapply passive_only_trans; [exact Hp1 |]; auto with passive |].
      left. now split. }
  destruct (negb (Fetch.space_count f =? MIN_SPACE_KEY_COUNT)).
  { eexists _, _. split; [reflexivity |].
    split; [eapply passive_only_trans; [exact Hp1 |]; auto with passive |].
    left. now split. }
  destruct (validated _ && recognized_format fmt) eqn:Eok.
  - apply andb_prop in Eok as [Ev Ef].
    unfold set_dst_data_flag, ret. eexists _, _. split; [reflexivity |].
    split; [eapply passive_only_trans; [exact Hp1 |]; auto with passive |].
    right. cbn [fst snd dst_data_flag]. repeat split; assumption.
  - eexists _, _. split; [reflexivity |].
    split; [eapply passive_only_trans; [exact Hp1 |]; auto with passive |].
    left. now split.
Qed.

Lemma enter_dst_end_returns fuel fmt timeout_ms v dst_time m :
  0 <= timeout_ms < 2 ^ 32 -> enough_fuel fuel timeout_ms ->
  exists r m', enter_dst_end fuel fmt timeout_ms v dst_time m = Done r m' /\
               passive_only m m' /\
               ((dst_data_flag m' = dst_data_flag m /\ r.2 = dst_time) \/
                (dst_data_flag m' = DST_VALID_END_TIME_FLAG /\
                 validated r.1 = true /\ recognized_format fmt = true /\
                 r.2 = {| startDst := startDst dst_time; stopDst := Some (build_dst fmt r.1) |})).
Proof.
  intros Ht Hf. unfold enter_dst_end, bind, uart_put_string.
  set (m1 := record_call _ (UartPutString MsgEnterDstEnd) m).
  destruct (fetch_time_data_returns fuel timeout_ms m1 Ht Hf)
    as (f & m2 & Hrun & Hp & Hflag).
  rewrite Hrun.
  assert (Hp1 : passive_only m m2).
  { eapply passive_only_trans; [| exact Hp]. now apply passive_only_call. }
  change (dst_data_flag m1) with (dst_data_flag m) in Hflag.
  destruct (received (Fetch.rslt f)).
  2:{ eexists _, _. split; [reflexivity |].
      split; [eapply passive_only_trans; [exact Hp1 |]; auto with passive |].
      left. now split. }
  destruct (negb (Fetch.space_count f =? MIN_SPACE_KEY_COUNT)).
  { eexists _, _. split; [reflexivity |].
    split; [eapply passive_only_trans; [exact Hp1 |]; auto with passive |].
    left. now split. }
  destruct (validated _ && recognized_format fmt) eqn:Eok.
  - apply andb_prop in Eok as [Ev Ef].
    unfold set_dst_data_flag, ret. eexists _, _. split; [reflexivity |].
    split; [eapply passive_only_trans; [exact Hp1 |]; auto with passive |].
    right. cbn [fst snd dst_data_flag]. repeat split; assumption.
  - eexists _, _. split; [reflexivity |].
    split; [eapply passive_only_trans; [exact Hp1 |]; auto with passive |].
    left. now split.
Qed.

Lemma one_dst_write_after m0 m o :
  passive_only m0 m -> one_dst_write o m -> one_dst_write o m0.
Proof.
  intros (pre & Hpre & Hpp) [(m' & new & Ho & Hl & Hs) | (m' & dst & st & rest & Ho & Hst & Hl & Hs)].
  - left. exists m', (new ++ pre). split; [exact Ho |].
    split; [rewrite Hl, Hpre, app_assoc; reflexivity |].
    rewrite dst_statuses_app, (dst_statuses_passive pre Hpp), app_nil_r. exact Hs.
  - right. exists m', dst, st, (rest ++ pre). split; [exact Ho |].
    split; [exact Hst |].
    split; [rewrite Hl, Hpre, <- app_assoc; reflexivity |].
    rewrite dst_statuses_app, (dst_statuses_passive pre Hpp), Hs. reflexivity.
Qed.

Lemma one_dst_write_passive m m' :
  passive_only m m' -> one_dst_write (Done tt m') m.
Proof.
  intros (new & Hl & Hp). left. exists m', new. split; [reflexivity |].
  split; [exact Hl |]. left. now apply dst_statuses_passive.
Qed.

(** The write itself, common to the Enable and the Disable branch. *)
Lemma write_dst_rule (dst : cy_stc_rtc_dst_t) (flag : Z) (s : message) m :
  one_dst_write
    ((rslt <- rtc_enable_dst_time dst ;;
      if CY_RTC_SUCCESS =? rslt then
        set_dst_data_flag flag ;; uart_put_string s
      else handle_error) m) m.
Proof.
  unfold bind, rtc_enable_dst_time.
  set (r := Cy_RTC_EnableDstTime dst (hw m)).
  destruct (CY_RTC_SUCCESS =? r.1) eqn:Er.
  - apply Z.eqb_eq in Er. left.
    unfold set_dst_data_flag, uart_put_string.
    eexists _, [UartPutString s; RtcEnableDstTime dst r.1].
    split; [reflexivity |]. split; [reflexivity |].
    right. cbn. now rewrite <- Er.
  - apply Z.eqb_neq in Er. right.
    eexists _, dst, r.1, []. split; [reflexivity |].
    split; [congruence |]. split; reflexivity.
Qed.

Lemma commit_dst_once dst m : one_dst_write (commit_dst dst m) m.
Proof.
  unfold commit_dst. unfold bind at 1. unfold get_dst_data_flag.
  destruct (DST_VALID_END_TIME_FLAG =? dst_data_flag m).
  - apply write_dst_rule.
  - apply one_dst_write_passive, passive_only_refl.
Qed.

Lemma disable_dst_once m : one_dst_write (disable_dst m) m.
Proof. apply write_dst_rule. Qed.

Lemma enable_dst_once fuel timeout_ms m :
  0 < timeout_ms < 2 ^ 32 -> enough_fuel fuel timeout_ms ->
  one_dst_write (enable_dst fuel timeout_ms m) m.
Proof.
  intros Ht Hf. unfold enable_dst. unfold bind at 1. unfold uart_put_string at 1.
  set (m1 := record_call _ (UartPutString MsgDstFormatMenu) m).
  destruct (user_uart_getc_returns fuel 0 timeout_ms m1 ltac:(lia) Hf)
    as (r & m2 & Hrun & Hp2 & _).
  unfold bind at 1. rewrite Hrun.
  assert (Hp : passive_only m m2).
  { eapply passive_only_trans; [| exact Hp2]. now apply passive_only_call. }
  destruct (negb (r.1 =? CY_SCB_UART_RX_NO_DATA)).
  2:{ apply one_dst_write_passive. eapply passive_only_trans; [exact Hp |].
      now apply passive_only_call. }
  destruct (enter_dst_start_returns fuel r.2 timeout_ms (Scan.Vars 0 0 0 0 0 0)
              {| startDst := None; stopDst := None |} m2 ltac:(lia) Hf)
    as (s1 & m3 & Hrun3 & Hp3 & _).
  unfold bind at 1. rewrite Hrun3.
  unfold bind at 1. unfold get_dst_data_flag at 1.
  assert (Hp' : passive_only m m3) by (eapply passive_only_trans; eassumption).
  destruct (DST_VALID_START_TIME_FLAG =? dst_data_flag m3).
  - destruct (enter_dst_end_returns fuel r.2 timeout_ms s1.1 s1.2 m3 ltac:(lia) Hf)
      as (s2 & m4 & Hrun4 & Hp4 & _).
    unfold bind at 1. rewrite Hrun4.
    eapply one_dst_write_after; [| apply commit_dst_once].
    eapply passive_only_trans; eassumption.
  - unfold bind at 1. unfold ret at 1.
    eapply one_dst_write_after; [exact Hp' | apply commit_dst_once].
Qed.

(** Every call of the flow with a timeout that is not 0 ends, and it
    writes the DST rule at most once. *)
Lemma set_dst_feature_once fuel timeout_ms m :
  0 < timeout_ms < 2 ^ 32 -> enough_fuel fuel timeout_ms ->
  one_dst_write (set_dst_feature fuel timeout_ms m) m.
Proof.
  intros Ht Hf. unfold set_dst_feature.
  unfold bind at 1. unfold get_dst_data_flag at 1.
  assert (Hstatus : exists m1,
    (if DST_ENABLED_FLAG =? dst_data_flag m
     then active <- rtc_get_dst_status ;;
          if active then uart_put_string MsgDstStatusActive
          else uart_put_string MsgDstStatusInactive
     else uart_put_string MsgDstStatusDisabled) m = Done tt m1 /\ passive_only m m1).
  { destruct (DST_ENABLED_FLAG =? dst_data_flag m).
    - unfold bind, rtc_get_dst_status.
      destruct (Cy_RTC_GetDstStatus (hw m)).1; eexists; (split; [reflexivity |]);
        (eapply passive_only_trans; [| now apply passive_only_call]);
        now apply passive_only_call.
    - eexists. split; [reflexivity |]. now apply passive_only_call. }
  destruct Hstatus as (m1 & Hrun1 & Hp1).
  unfold bind at 1. rewrite Hrun1.
  unfold bind at 1. unfold uart_put_string at 1.
  set (m2 := record_call _ (UartPutString MsgDstMenu) m1).
  destruct (user_uart_getc_returns fuel 0 timeout_ms m2 ltac:(lia) Hf)
    as (r & m3 & Hrun3 & Hp3 & _).
  unfold bind at 1. rewrite Hrun3.
  assert (Hp : passive_only m m3).
  { eapply passive_only_trans; [exact Hp1 |].
    eapply passive_only_trans; [| exact Hp3]. now apply passive_only_call. }
  eapply one_dst_write_after; [exact Hp |].
  destruct (negb (r.1 =? CY_SCB_UART_RX_NO_DATA)).
  2:{ apply one_dst_write_passive. now apply passive_only_call. }
  destruct (RTC_CMD_ENABLE_DST =? r.2); [now apply enable_dst_once |].
  destruct (RTC_CMD_DISABLE_DST =? r.2); [apply disable_dst_once |].
  destruct (RTC_CMD_QUIT_CONFIG_DST =? r.2).
  - apply one_dst_write_passive. now apply passive_only_call.
  - apply one_dst_write_passive, passive_only_refl.
Qed.

(** *** Which descriptors reach the DST write *)

Lemma dst_writes_after m0 m o P :
  passive_only m0 m -> dst_writes o m P -> dst_writes o m0 P.
Proof.
  intros (pre & Hpre & Hpp) (m' & new & Ho & Hl & HP).
  exists m', (new ++ pre). split; [exact Ho |].
  split; [rewrite Hl, Hpre, app_assoc; reflexivity |].
  rewrite enable_dst_calls_app, (enable_dst_calls_passive pre Hpp), app_nil_r.
  exact HP.
Qed.

Lemma dst_writes_passive m m' (P : list cy_stc_rtc_dst_t -> Prop) :
  passive_only m m' -> P [] -> dst_writes (Done tt m') m P.
Proof.
  intros (new & Hl & Hp) HP. exists m', new. split; [reflexivity |].
  split; [exact Hl |]. now rewrite enable_dst_calls_passive.
Qed.

Lemma write_dst_rule_call (dst : cy_stc_rtc_dst_t) (flag : Z) (s : message) m :
  dst_writes
    ((rslt <- rtc_enable_dst_time dst ;;
      if CY_RTC_SUCCESS =? rslt then
        set_dst_data_flag flag ;; uart_put_string s
      else handle_error) m) m (fun calls => calls = [dst]).
Proof.
  unfold dst_writes, bind, rtc_enable_dst_time.
  set (r := Cy_RTC_EnableDstTime dst (hw m)).
  destruct (CY_RTC_SUCCESS =? r.1).
  - eexists _, [UartPutString s; RtcEnableDstTime dst r.1].
    split; [reflexivity |]. split; reflexivity.
  - eexists _, [HandleError; RtcEnableDstTime dst r.1].
    split; [reflexivity |]. split; reflexivity.
Qed.

Lemma commit_dst_call dst m :
  dst_writes (commit_dst dst m) m
    (fun calls => if DST_VALID_END_TIME_FLAG =? dst_data_flag m
                  then calls = [dst] else calls = []).
Proof.
  unfold commit_dst. unfold bind at 1. unfold get_dst_data_flag.
  destruct (DST_VALID_END_TIME_FLAG =? dst_data_flag m).
  - apply write_dst_rule_call.
  - now apply dst_writes_passive; [apply passive_only_refl |].
Qed.

Lemma dst_writes_weaken o m (P Q : list cy_stc_rtc_dst_t -> Prop) :
  (forall calls, P calls -> Q calls) -> dst_writes o m P -> dst_writes o m Q.
Proof. intros HPQ (m' & new & Ho & Hl & HP). exists m', new. auto. Qed.

Lemma enable_dst_validated fuel timeout_ms m :
  0 < timeout_ms < 2 ^ 32 -> enough_fuel fuel timeout_ms ->
  dst_data_flag m <> DST_VALID_START_TIME_FLAG ->
  dst_data_flag m <> DST_VALID_END_TIME_FLAG ->
  dst_writes (enable_dst fuel timeout_ms m) m validated_writes.
Proof.
  intros Ht Hf Hn1 Hn2. unfold enable_dst.
  unfold bind at 1. unfold uart_put_string at 1.
  set (m1 := record_call _ (UartPutString MsgDstFormatMenu) m).
  destruct (user_uart_getc_returns fuel 0 timeout_ms m1 ltac:(lia) Hf)
    as (r & m2 & Hrun & Hp2 & Hflag2).
  change (dst_data_flag m1) with (dst_data_flag m) in Hflag2.
  unfold bind at 1. rewrite Hrun.
  assert (Hp : passive_only m m2).
  { eapply passive_only_trans; [| exact Hp2]. now apply passive_only_call. }
  destruct (negb (r.1 =? CY_SCB_UART_RX_NO_DATA)).
  2:{ apply dst_writes_passive; [| now left].
      eapply passive_only_trans; [exact Hp |]. now apply passive_only_call. }
  destruct (enter_dst_start_returns fuel r.2 timeout_ms (Scan.Vars 0 0 0 0 0 0)
              {| startDst := None; stopDst := None |} m2 ltac:(lia) Hf)
    as (s1 & m3 & Hrun3 & Hp3 & Hcase3).
  unfold bind at 1. rewrite Hrun3.
  unfold bind at 1. unfold get_dst_data_flag at 1.
  assert (Hp' : passive_only m m3) by (eapply passive_only_trans; eassumption).
  destruct Hcase3 as [(Hflag3 & _) | (Hflag3 & Hv1 & Hfmt & Hdst1)].
  - (* start time not accepted *)
    rewrite Hflag3, Hflag2.
    replace (DST_VALID_START_TIME_FLAG =? dst_data_flag m) with false
      by (symmetry; apply Z.eqb_neq; congruence).
    unfold bind at 1. unfold ret at 1.
    eapply dst_writes_after; [exact Hp' |].
    eapply dst_writes_weaken; [| apply commit_dst_call].
    cbn beta. rewrite Hflag3, Hflag2.
    replace (DST_VALID_END_TIME_FLAG =? dst_data_flag m) with false
      by (symmetry; apply Z.eqb_neq; congruence).
    intros calls ->. now left.
  - (* start time accepted *)
    rewrite Hflag3, Z.eqb_refl.
    destruct (enter_dst_end_returns fuel r.2 timeout_ms s1.1 s1.2 m3 ltac:(lia) Hf)
      as (s2 & m4 & Hrun4 & Hp4 & Hcase4).
    unfold bind at 1. rewrite Hrun4.
    eapply dst_writes_after; [eapply passive_only_trans; eassumption |].
    eapply dst_writes_weaken; [| apply commit_dst_call].
    cbn beta.
    destruct Hcase4 as [(Hflag4 & _) | (Hflag4 & Hv2 & _ & Hdst2)].
    + rewrite Hflag4, Hflag3. intros calls ->. now left.
    + rewrite Hflag4, Z.eqb_refl. intros calls ->. right. right.
      exists s2.2. split; [reflexivity |].
      exists r.2, s1.1, s2.1. rewrite Hdst2, Hdst1. cbn [startDst].
      repeat split; assumption.
Qed.

(** Entered in the disabled or in the enabled state, the flow hands
    to the DST write only the switch-off rule or a pair whose halves
    were both built in this call from validated fields. *)
Lemma set_dst_feature_validated fuel timeout_ms m :
  0 < timeout_ms < 2 ^ 32 -> enough_fuel fuel timeout_ms ->
  dst_data_flag m = DST_DISABLED_FLAG \/ dst_data_flag m = DST_ENABLED_FLAG ->
  dst_writes (set_dst_feature fuel timeout_ms m) m validated_writes.
Proof.
  intros Ht Hf Hterm. unfold set_dst_feature.
  unfold bind at 1. unfold get_dst_data_flag at 1.
  assert (Hstatus : exists m1,
    (if DST_ENABLED_FLAG =? dst_data_flag m
     then active <- rtc_get_dst_status ;;
          if active then uart_put_string MsgDstStatusActive
          else uart_put_string MsgDstStatusInactive
     else uart_put_string MsgDstStatusDisabled) m = Done tt m1 /\
    passive_only m m1 /\ dst_data_flag m1 = dst_data_flag m).
  { destruct (DST_ENABLED_FLAG =? dst_data_flag m).
    - unfold bind, rtc_get_dst_status.
      destruct (Cy_RTC_GetDstStatus (hw m)).1; eexists; (split; [reflexivity |]);
        (split; [| reflexivity]);
        (eapply passive_only_trans; [| now apply passive_only_call]);
        now apply passive_only_call.
    - eexists. split; [reflexivity |]. split; [| reflexivity].
      now apply passive_only_call. }
  destruct Hstatus as (m1 & Hrun1 & Hp1 & Hflag1).
  unfold bind at 1. rewrite Hrun1.
  unfold bind at 1. unfold uart_put_string at 1.
  set (m2 := record_call _ (UartPutString MsgDstMenu) m1).
  destruct (user_uart_getc_returns fuel 0 timeout_ms m2 ltac:(lia) Hf)
    as (r & m3 & Hrun3 & Hp3 & Hflag3).
  change (dst_data_flag m2) with (dst_data_flag m1) in Hflag3.
  unfold bind at 1. rewrite Hrun3.
  assert (Hp : passive_only m m3).
  { eapply passive_only_trans; [exact Hp1 |].
    eapply passive_only_trans; [| exact Hp3]. now apply passive_only_call. }
  eapply dst_writes_after; [exact Hp |].
  destruct (negb (r.1 =? CY_SCB_UART_RX_NO_DATA)).
  2:{ apply dst_writes_passive; [now apply passive_only_call | now left]. }
  destruct (RTC_CMD_ENABLE_DST =? r.2).
  { apply enable_dst_validated; try assumption;
      rewrite Hflag3, Hflag1;
      unfold DST_DISABLED_FLAG, DST_ENABLED_FLAG, DST_VALID_START_TIME_FLAG,
        DST_VALID_END_TIME_FLAG in *; lia. }
  destruct (RTC_CMD_DISABLE_DST =? r.2).
  { eapply dst_writes_weaken; [| apply write_dst_rule_call].
    intros calls ->. right. now left. }
  destruct (RTC_CMD_QUIT_CONFIG_DST =? r.2).
  - apply dst_writes_passive; [now apply passive_only_call | now left].
  - apply dst_writes_passive; [apply passive_only_refl | now left].
Qed.
End DstFlow.

(** ** rtc_init and set_new_time *)

Section RetryFlows.
Context {Env : Type} `{PDL Env}.
Implicit Types m : machine Env.

Lemma rtc_init_retried fuel m :
  (Z.to_nat MAX_ATTEMPTS <= fuel)%nat ->
  init_retried (rtc_init fuel m) (main_rtc_init fuel m) m.
Proof.
  intros Hf. unfold rtc_init.
  destruct (retry_loop_spec rtc_init_call RtcInit rtc_init_call_logged
              fuel MAX_ATTEMPTS m ltac:(unfold MAX_ATTEMPTS; lia) Hf)
    as (rslt & failed & m' & Hrun & Hlog & _ & Hfail & Hlen & Hlast).
  exists rslt, failed, m'. split; [now repeat split |].
  split; [exact Hrun |]. split; [exact Hlog |].
  unfold main_rtc_init, rtc_init, bind. rewrite Hrun.
  destruct (rslt =? CY_RTC_SUCCESS) eqn:Er.
  - apply Z.eqb_eq in Er. left. now split.
  - apply Z.eqb_neq in Er. right. now split.
Qed.

Lemma set_new_time_retried fuel uninit timeout_ms m :
  0 <= timeout_ms < 2 ^ 32 -> enough_fuel fuel timeout_ms ->
  set_time_retried (set_new_time fuel uninit timeout_ms m) m.
Proof.
  intros Ht Hf. unfold set_new_time.
  unfold bind at 1. unfold uart_put_string at 1.
  set (m1 := record_call _ (UartPutString MsgEnterTime) m).
  destruct (fetch_time_data_returns fuel timeout_ms m1 Ht Hf)
    as (f & m2 & Hrun & Hp & _).
  unfold bind at 1. rewrite Hrun.
  assert (Hp1 : passive_only m m2).
  { eapply passive_only_trans; [| exact Hp]. now apply passive_only_call. }
  destruct (received (Fetch.rslt f)).
  2:{ left. eexists. split; [reflexivity |].
      eapply passive_only_trans; [exact Hp1 |]. now apply passive_only_call. }
  destruct (negb (Fetch.space_count f =? MIN_SPACE_KEY_COUNT)).
  { left. eexists. split; [reflexivity |].
    eapply passive_only_trans; [exact Hp1 |]. now apply passive_only_call. }
  set (v := sscanf (c_string (Fetch.buffer f)) uninit).
  destruct Hf as (_ & _ & Hf3).
  destruct (retry_loop_spec _ _
              (rtc_set_date_and_time_direct_logged
                 (to_uint32 (Scan.sec v)) (to_uint32 (Scan.min v))
                 (to_uint32 (Scan.hour v)) (to_uint32 (Scan.mday v))
                 (to_uint32 (Scan.month v)) (to_uint32 (Scan.year v)))
              fuel MAX_ATTEMPTS m2 ltac:(unfold MAX_ATTEMPTS; lia) Hf3)
    as (rslt & failed & m3 & Hrun3 & Hlog & _ & Hfail & Hlen & Hlast).
  unfold bind at 1. rewrite Hrun3.
  destruct Hp1 as (pre & Hpre & Hpp).
  right.
  exists (to_uint32 (Scan.sec v)), (to_uint32 (Scan.min v)),
    (to_uint32 (Scan.hour v)), (to_uint32 (Scan.mday v)),
    (to_uint32 (Scan.month v)), (to_uint32 (Scan.year v)), rslt, failed, pre.
  unfold bind, uart_put_string, record_call. cbn [hw log dst_data_flag].
  rewrite Hlog, Hpre.
  destruct (CY_RTC_SUCCESS =? rslt) eqn:Er; cbn [negb].
  - apply Z.eqb_eq in Er. eexists. split; [now repeat split |].
    split; [exact Hpp |]. left. split; [congruence |]. split; reflexivity.
  - apply Z.eqb_neq in Er. eexists. split; [now repeat split |].
    split; [exact Hpp |]. right. split; [congruence |]. split; reflexivity.
Qed.
End RetryFlows.

(** ** Fuel for a given number of passes *)

Lemma fetch_ready_passes fuel buffer timeout_ms (k : Z) :
  fetch_ready fuel buffer timeout_ms -> 0 <= k ->
  UART_TIMEOUT_MS * k < timeout_ms -> (Z.to_nat k < fuel)%nat.
Proof.
  intros (_ & Ht & _ & Hf) Hk Hb. unfold UART_TIMEOUT_MS in *.
  assert (k <= timeout_ms / 10) by (apply Z.div_le_lower_bound; lia). lia.
Qed.

(** * Further lemmas on the flows *)

(** ** The polls of user_uart_getc *)

Lemma poll_log_cons (v w : Z) (ws : list Z) :
  poll_log (v :: w :: ws)
  = UartGet v :: SysLibDelay UART_GET_CHAR_DELAY :: poll_log (w :: ws).
Proof. reflexivity. Qed.

Section Polls.
Context {Env : Type} `{PDL Env}.
Implicit Types m : machine Env.

(** The loop of line 278 with a timeout that is not 0.  [v :: ws] are
    the words polled so far in this call, newest first. *)
Lemma getc_wait_polls n : forall timeout ticks v ws base m,
  timeout <> 0 -> 0 <= ticks < 2 ^ 32 -> (Z.to_nat ticks < n)%nat ->
  log m = poll_log (v :: ws) ++ base ->
  Forall (fun w => w = CY_SCB_UART_RX_NO_DATA) ws ->
  exists r w words m',
    getc_wait n timeout ticks v m = Done r m' /\
    log m' = poll_log (w :: words) ++ base /\
    dst_data_flag m' = dst_data_flag m /\
    Forall (fun w => w = CY_SCB_UART_RX_NO_DATA) words /\
    (length ws <= length words <= length ws + Z.to_nat ticks)%nat /\
    match r with
    | Some w' => w' = w /\ w <> CY_SCB_UART_RX_NO_DATA
    | None => w = CY_SCB_UART_RX_NO_DATA /\
              length words = (length ws + Z.to_nat ticks)%nat
    end.
Proof.
  induction n as [| n IH]; intros timeout ticks v ws base m Ht Hticks Hn Hlog Hws; [lia |].
  cbn [getc_wait].
  destruct (v =? CY_SCB_UART_RX_NO_DATA) eqn:Ev.
  2:{ apply Z.eqb_neq in Ev. exists (Some v), v, ws, m.
      repeat split; auto; lia. }
  apply Z.eqb_eq in Ev.
  apply Z.eqb_neq in Ht as Ht'. rewrite Ht'. cbn [negb].
  destruct (0 <? ticks) eqn:Et.
  2:{ apply Z.ltb_ge in Et. exists None, v, ws, m.
      repeat split; auto; lia. }
  apply Z.ltb_lt in Et.
  unfold bind at 1. unfold syslib_delay at 1.
  unfold bind at 1. unfold uart_get at 1. cbn [record_call hw log dst_data_flag].
  set (m1 := record_call _ (SysLibDelay UART_GET_CHAR_DELAY) m).
  set (g := Cy_SCB_UART_Get (hw m1)).
  set (m2 := record_call g.2 (UartGet g.1) m1).
  assert (Hdec : to_uint32 (ticks - 1) = ticks - 1).
  { unfold to_uint32. apply Z.mod_small. lia. }
  rewrite Hdec.
  destruct (IH timeout (ticks - 1) g.1 (v :: ws) base m2 Ht ltac:(lia) ltac:(lia))
    as (r & w & words & m' & Hrun & Hlog' & Hflag & Hwords & Hlen & Hr).
  { subst m2 m1. cbn [record_call log]. rewrite Hlog. reflexivity. }
  { constructor; assumption. }
  exists r, w, words, m'. split; [exact Hrun |]. split; [exact Hlog' |].
  split; [exact Hflag |]. split; [exact Hwords |].
  cbn [length] in Hlen. split; [lia |].
  destruct r; [exact Hr |]. destruct Hr as [Hw Hl]. split; [exact Hw |].
  cbn [length] in Hl. lia.
Qed.

(** With a timeout [t] that is not 0 the function polls at most [t + 1]
    times, with a delay of 1 ms before every poll but the first, and
    stops at the first word that is not [CY_SCB_UART_RX_NO_DATA]. *)
Lemma user_uart_getc_polls fuel value timeout m :
  0 < timeout < 2 ^ 32 -> (Z.to_nat timeout < fuel)%nat ->
  exists w words rslt value' m',
    user_uart_getc fuel value timeout m = Done (rslt, value') m' /\
    log m' = poll_log (w :: words) ++ log m /\
    dst_data_flag m' = dst_data_flag m /\
    Forall (fun w => w = CY_SCB_UART_RX_NO_DATA) words /\
    (length words <= Z.to_nat timeout)%nat /\
    ((w = CY_SCB_UART_RX_NO_DATA /\ length words = Z.to_nat timeout /\
      rslt = CY_SCB_UART_RX_NO_DATA /\ value' = value) \/
     (w <> CY_SCB_UART_RX_NO_DATA /\
      rslt = CY_RSLT_SUCCESS /\ value' = to_uint8 w)).
Proof.
  intros Ht Hn. unfold user_uart_getc.
  unfold bind at 1. unfold uart_get at 1.
  set (g := Cy_SCB_UART_Get (hw m)).
  set (m1 := record_call g.2 (UartGet g.1) m).
  destruct (getc_wait_polls fuel timeout timeout g.1 [] (log m) m1
              ltac:(lia) ltac:(lia) Hn eq_refl ltac:(constructor))
    as (r & w & words & m' & Hrun & Hlog & Hflag & Hwords & Hlen & Hr).
  unfold bind. rewrite Hrun. cbn [length] in *.
  destruct r as [w' |].
  - destruct Hr as [-> Hw].
    exists w, words, CY_RSLT_SUCCESS, (to_uint8 w), m'.
    split; [reflexivity |]. split; [exact Hlog |]. split; [exact Hflag |].
    split; [exact Hwords |]. split; [lia |]. right. auto.
  - destruct Hr as [Hw Hl].
    exists w, words, CY_SCB_UART_RX_NO_DATA, value, m'.
    split; [reflexivity |]. split; [exact Hlog |]. split; [exact Hflag |].
    split; [exact Hwords |]. split; [lia |]. left. repeat split; auto; lia.
Qed.

(** With [timeout = 0] the loop polls without delay until a word
    arrives.  [ws] are the empty polls made so far, [v] the word just
    read. *)
Lemma getc_wait_blocking n : forall ticks v ws base m o,
  log m = map UartGet (v :: ws) ++ base ->
  Forall (fun w => w = CY_SCB_UART_RX_NO_DATA) ws ->
  getc_wait n 0 ticks v m = o ->
  (forall m', o <> Halted m') /\
  (forall r m', o = Done r m' ->
     exists w words,
       r = Some w /\ w <> CY_SCB_UART_RX_NO_DATA /\
       log m' = map UartGet (w :: words) ++ base /\
       Forall (fun w => w = CY_SCB_UART_RX_NO_DATA) words /\
       dst_data_flag m' = dst_data_flag m).
Proof.
  induction n as [| n IH]; intros ticks v ws base m o Hlog Hws Hrun;
    cbn [getc_wait] in Hrun;
    destruct (v =? CY_SCB_UART_RX_NO_DATA) eqn:Ev.
  - subst o. split; [discriminate |]. discriminate.
  - apply Z.eqb_neq in Ev. subst o. split; [discriminate |].
    intros r' m' [= <- <-]. exists v, ws. auto.
  - apply Z.eqb_eq in Ev. cbn [Z.eqb negb] in Hrun.
    unfold bind in Hrun at 1. unfold uart_get in Hrun at 1.
    set (g := Cy_SCB_UART_Get (hw m)) in Hrun.
    set (m1 := record_call g.2 (UartGet g.1) m) in Hrun.
    eapply (IH ticks g.1 (v :: ws) base m1 o); [| | exact Hrun].
    + subst m1. cbn [record_call log map app]. rewrite Hlog. reflexivity.
    + constructor; assumption.
  - apply Z.eqb_neq in Ev. subst o. split; [discriminate |].
    intros r' m' [= <- <-]. exists v, ws. auto.
Qed.
End Polls.

(** ** What fetch_time_data sends and what it leaves in the buffer *)

Lemma tx_bytes_app (l1 l2 : list event) :
  tx_bytes (l1 ++ l2) = tx_bytes l2 ++ tx_bytes l1.
Proof.
  induction l1 as [| e l1 IH]; cbn [app tx_bytes].
  - now rewrite app_nil_r.
  - destruct e; try exact IH. now rewrite IH, app_assoc.
Qed.

Lemma printed_app (l1 l2 : list event) :
  printed (l1 ++ l2) = printed l2 ++ printed l1.
Proof.
  induction l1 as [| e l1 IH]; cbn [app printed].
  - now rewrite app_nil_r.
  - destruct e; try exact IH. now rewrite IH, app_assoc.
Qed.

Lemma poll_log_quiet (words : list Z) :
  tx_bytes (poll_log words) = [] /\ printed (poll_log words) = [] /\
  enable_dst_calls (poll_log words) = [] /\ set_time_calls (poll_log words) = [].
Proof.
  induction words as [| v words IH]; [now repeat split |].
  destruct words as [| w words]; [now repeat split |].
  rewrite poll_log_cons. exact IH.
Qed.

Lemma c_string_nul (xs : list Z) (k : nat) :
  c_string (xs ++ replicate (S k) 0) = c_string xs.
Proof.
  induction xs as [| c xs IH]; [reflexivity |].
  cbn [app c_string]. now rewrite IH.
Qed.

Lemma c_string_no_nul (xs : list Z) : Forall (fun c => c <> 0) xs -> c_string xs = xs.
Proof.
  induction 1 as [| c xs Hc _ IH]; [reflexivity |].
  cbn [c_string]. apply Z.eqb_neq in Hc. now rewrite Hc, IH.
Qed.

Section Frame.
Context {Env : Type} `{PDL Env}.
Implicit Types m : machine Env.

(** Whatever the loop returns: the bytes it stored are the bytes it
    echoed, it printed no text, and the buffer from the final index on
    is untouched. *)
Lemma fetch_loop_frame fuel n : forall l m l' m',
  (Z.to_nat UART_TIMEOUT_MS < fuel)%nat ->
  0 <= Fetch.index l ->
  length (Fetch.buffer l) = Z.to_nat STRING_BUFFER_SIZE ->
  fetch_loop fuel n l m = Done l' m' ->
  exists chars,
    Fetch.line l' = Fetch.line l ++ chars /\
    tx_bytes (log m') = tx_bytes (log m) ++ chars /\
    printed (log m') = printed (log m) /\
    Fetch.index l <= Fetch.index l' /\
    length (Fetch.buffer l') = Z.to_nat STRING_BUFFER_SIZE /\
    drop (Z.to_nat (Fetch.index l')) (Fetch.buffer l')
    = drop (Z.to_nat (Fetch.index l')) (Fetch.buffer l).
Proof.
  induction n as [| n IH]; intros l m l' m' Hfuel Hi Hlen Hrun;
    cbn [fetch_loop] in Hrun; unfold STRING_BUFFER_SIZE, UART_TIMEOUT_MS in *;
    destruct (Fetch.index l <? 80) eqn:Ei;
    try (injection Hrun as <- <-; exists []; rewrite !app_nil_r;
         repeat split; auto; lia);
    try discriminate.
  apply Z.ltb_lt in Ei.
  destruct (Fetch.timeout_ms l <=? 10).
  { injection Hrun as <- <-. exists []. rewrite !app_nil_r.
    unfold Fetch.line. cbn [Fetch.index Fetch.buffer]. repeat split; auto; lia. }
  destruct (user_uart_getc_polls fuel (Fetch.ch l) 10 m ltac:(lia) Hfuel)
    as (w & words & rslt & ch & m1 & Hg & Hlog1 & _ & _ & _ & Hcase).
  unfold bind at 1 in Hrun. rewrite Hg in Hrun. cbn [fst snd] in Hrun.
  destruct (poll_log_quiet (w :: words)) as (Htx1 & Hpr1 & _).
  assert (Htx : tx_bytes (log m1) = tx_bytes (log m)).
  { rewrite Hlog1, tx_bytes_app, Htx1, app_nil_r. reflexivity. }
  assert (Hpr : printed (log m1) = printed (log m)).
  { rewrite Hlog1, printed_app, Hpr1, app_nil_r. reflexivity. }
  destruct (negb (rslt =? CY_SCB_UART_RX_NO_DATA)).
  - destruct (is_terminator ch).
    + injection Hrun as <- <-. exists []. rewrite !app_nil_r.
      unfold Fetch.line. cbn [Fetch.index Fetch.buffer].
      repeat split; auto; lia.
    + unfold bind at 1 in Hrun. unfold uart_put at 1 in Hrun.
      set (p := Cy_SCB_UART_Put ch (hw m1)) in Hrun.
      set (m2 := record_call p.2 (UartPut ch p.1) m1) in Hrun.
      assert (Hinc : to_uint32 (Fetch.index l + 1) = Fetch.index l + 1).
      { unfold to_uint32. apply Z.mod_small. lia. }
      rewrite Hinc in Hrun.
      apply IH in Hrun; try assumption;
        cbn [Fetch.index Fetch.buffer]; [| lia | now rewrite length_insert].
      destruct Hrun as (chars & Q1 & Q2 & Q3 & Q4 & Q5 & Q6).
      unfold Fetch.line in *. cbn [Fetch.index Fetch.buffer] in *.
      rewrite line_store in Q1 by lia.
      exists (ch :: chars).
      split; [rewrite Q1, <- app_assoc; reflexivity |].
      split. { rewrite Q2. subst m2. cbn [record_call log tx_bytes].
               rewrite Htx, <- app_assoc. reflexivity. }
      split. { rewrite Q3. subst m2. cbn [record_call log printed]. exact Hpr. }
      split; [lia |]. split; [exact Q5 |].
      rewrite Q6. apply drop_insert_lt. lia.
  - apply IH in Hrun; try assumption.
    destruct Hrun as (chars & Q1 & Q2 & Q3 & Q4 & Q5 & Q6).
    unfold Fetch.line in *. cbn [Fetch.index Fetch.buffer] in *.
    exists chars. rewrite Q2, Q3, Htx, Hpr. repeat split; auto.
Qed.

(** The same for the whole function: the echo is the line, the one text
    printed is the final line feed and carriage return, and the buffer
    is the line followed by what it held before from that index on. *)
Lemma fetch_time_data_frame fuel buffer timeout_ms m l m' :
  (Z.to_nat UART_TIMEOUT_MS < fuel)%nat ->
  length buffer = Z.to_nat STRING_BUFFER_SIZE ->
  fetch_time_data fuel buffer timeout_ms m = Done l m' ->
  tx_bytes (log m') = tx_bytes (log m) ++ Fetch.line l /\
  printed (log m') = printed (log m) ++ [MsgNewline] /\
  (exists rest, log m' = UartPutString MsgNewline :: rest) /\
  0 <= Fetch.index l /\
  length (Fetch.buffer l) = Z.to_nat STRING_BUFFER_SIZE /\
  Fetch.buffer l = Fetch.line l ++ drop (Z.to_nat (Fetch.index l)) buffer.
Proof.
  intros Hfuel Hlen Hrun. unfold fetch_time_data, bind in Hrun.
  destruct (fetch_loop fuel fuel (Fetch.Locals buffer 0 0 0 timeout_ms None 0) m)
    as [l1 m1 | |] eqn:Eloop; try discriminate.
  unfold uart_put_string, ret in Hrun. injection Hrun as <- <-.
  apply fetch_loop_frame in Eloop; cbn [Fetch.index Fetch.buffer];
    [| assumption | lia | assumption].
  destruct Eloop as (chars & Q1 & Q2 & Q3 & Q4 & Q5 & Q6).
  unfold Fetch.line in Q1 at 2. cbn [Fetch.index Fetch.buffer] in *.
  change (take (Z.to_nat 0) buffer) with (@nil Z) in Q1. cbn [app] in Q1.
  cbn [record_call log tx_bytes printed].
  rewrite Q2, Q3, Q1. repeat split; eauto.
  rewrite <- Q6, <- Q1. unfold Fetch.line. now rewrite take_drop.
Qed.
End Frame.

(** ** The ways a call of the DST flow ends *)

Section FlowEnds.
Context {Env : Type} `{PDL Env}.
Implicit Types m : machine Env.

Lemma dst_flow_ends_after m0 m o :
  passive_only m0 m -> dst_data_flag m = dst_data_flag m0 ->
  dst_flow_ends o m -> dst_flow_ends o m0.
Proof.
  intros Hp0 Hflag.
  pose proof Hp0 as (pre0 & Hpre0 & Hpp0).
  intros [(m' & Ho & Hp & Hf) | [(m' & dst & pre & Ho & Hpp & Hl & Hf)
         | [(m' & pre & Ho & Hpp & Hl & Hf) | (m' & dst & st & pre & Ho & Hst & Hpp & Hl & Hf)]]].
  - left. exists m'. split; [exact Ho |].
    split; [eapply passive_only_trans; eassumption |]. now rewrite <- Hflag.
  - right. left. exists m', dst, (pre ++ pre0). split; [exact Ho |].
    split; [rewrite forallb_app, Hpp, Hpp0; reflexivity |].
    split; [rewrite Hl, Hpre0, <- app_assoc; reflexivity | exact Hf].
  - right. right. left. exists m', (pre ++ pre0). split; [exact Ho |].
    split; [rewrite forallb_app, Hpp, Hpp0; reflexivity |].
    split; [rewrite Hl, Hpre0, <- app_assoc; reflexivity | exact Hf].
  - right. right. right. exists m', dst, st, (pre ++ pre0). split; [exact Ho |].
    split; [exact Hst |].
    split; [rewrite forallb_app, Hpp, Hpp0; reflexivity |].
    split; [rewrite Hl, Hpre0, <- app_assoc; reflexivity | now rewrite <- Hflag].
Qed.

(** The write of lines 508-521, reached from [m] over passive calls that
    may have moved the flag to one of the two intermediate values. *)
Lemma commit_dst_ends dst m mx :
  passive_only m mx ->
  dst_data_flag mx = dst_data_flag m \/
  dst_data_flag mx = DST_VALID_START_TIME_FLAG \/
  dst_data_flag mx = DST_VALID_END_TIME_FLAG ->
  dst_flow_ends (commit_dst dst mx) m.
Proof.
  intros Hp Hflag. pose proof Hp as (pre & Hpre & Hpp).
  unfold commit_dst. unfold bind at 1. unfold get_dst_data_flag.
  destruct (DST_VALID_END_TIME_FLAG =? dst_data_flag mx) eqn:E2.
  - apply Z.eqb_eq in E2.
    unfold bind, rtc_enable_dst_time.
    set (r := Cy_RTC_EnableDstTime dst (hw mx)).
    destruct (CY_RTC_SUCCESS =? r.1) eqn:Er.
    + apply Z.eqb_eq in Er. right. left.
      unfold set_dst_data_flag, uart_put_string, record_call.
      cbn [hw log dst_data_flag]. eexists _, dst, pre.
      split; [reflexivity |]. split; [exact Hpp |].
      cbn [log dst_data_flag]. rewrite Hpre, <- Er. split; reflexivity.
    + apply Z.eqb_neq in Er. right. right. right.
      unfold handle_error, record_call. cbn [hw log dst_data_flag].
      eexists _, dst, r.1, pre. split; [reflexivity |].
      split; [congruence |]. split; [exact Hpp |].
      cbn [log dst_data_flag]. rewrite Hpre. split; [reflexivity |]. now right.
  - apply Z.eqb_neq in E2. left. exists mx. split; [reflexivity |].
    split; [exact Hp |].
    destruct Hflag as [Hf | [Hf | Hf]]; [now left | now right | congruence].
Qed.

Lemma enable_dst_ends fuel timeout_ms m :
  0 < timeout_ms < 2 ^ 32 -> enough_fuel fuel timeout_ms ->
  dst_flow_ends (enable_dst fuel timeout_ms m) m.
Proof.
  intros Ht Hf. unfold enable_dst. unfold bind at 1. unfold uart_put_string at 1.
  set (m1 := record_call _ (UartPutString MsgDstFormatMenu) m).
  destruct (user_uart_getc_returns fuel 0 timeout_ms m1 ltac:(lia) Hf)
    as (r & m2 & Hrun & Hp2 & Hflag2).
  change (dst_data_flag m1) with (dst_data_flag m) in Hflag2.
  unfold bind at 1. rewrite Hrun.
  assert (Hp : passive_only m m2).
  { eapply passive_only_trans; [| exact Hp2]. now apply passive_only_call. }
  destruct (negb (r.1 =? CY_SCB_UART_RX_NO_DATA)).
  2:{ left. eexists. split; [reflexivity |]. split; [| now left].
      eapply passive_only_trans; [exact Hp |]. now apply passive_only_call. }
  destruct (enter_dst_start_returns fuel r.2 timeout_ms (Scan.Vars 0 0 0 0 0 0)
              {| startDst := None; stopDst := None |} m2 ltac:(lia) Hf)
    as (s1 & m3 & Hrun3 & Hp3 & Hcase3).
  unfold bind at 1. rewrite Hrun3.
  unfold bind at 1. unfold get_dst_data_flag at 1.
  assert (Hp' : passive_only m m3) by (eapply passive_only_trans; eassumption).
  assert (Hflag3 : dst_data_flag m3 = dst_data_flag m \/
                   dst_data_flag m3 = DST_VALID_START_TIME_FLAG).
  { destruct Hcase3 as [(Hf3 & _) | (Hf3 & _)]; [left; congruence | now right]. }
  destruct (DST_VALID_START_TIME_FLAG =? dst_data_flag m3) eqn:E1.
  - apply Z.eqb_eq in E1.
    destruct (enter_dst_end_returns fuel r.2 timeout_ms s1.1 s1.2 m3 ltac:(lia) Hf)
      as (s2 & m4 & Hrun4 & Hp4 & Hcase4).
    unfold bind at 1. rewrite Hrun4.
    apply commit_dst_ends; [eapply passive_only_trans; eassumption |].
    destruct Hcase4 as [(Hf4 & _) | (Hf4 & _)]; [| now right; right].
    right. left. congruence.
  - unfold bind at 1. unfold ret at 1.
    apply commit_dst_ends; [exact Hp' |].
    destruct Hflag3 as [Hf3 | Hf3]; [now left | right; now left].
Qed.

Lemma disable_dst_ends m : dst_flow_ends (disable_dst m) m.
Proof.
  unfold disable_dst, bind, rtc_enable_dst_time.
  set (r := Cy_RTC_EnableDstTime disabled_dst_time (hw m)).
  destruct (CY_RTC_SUCCESS =? r.1) eqn:Er.
  - apply Z.eqb_eq in Er. right. right. left.
    unfold set_dst_data_flag, uart_put_string, record_call.
    cbn [hw log dst_data_flag]. eexists _, [].
    split; [reflexivity |]. split; [reflexivity |].
    cbn [log dst_data_flag app]. rewrite <- Er. split; reflexivity.
  - apply Z.eqb_neq in Er. right. right. right.
    unfold handle_error, record_call. cbn [hw log dst_data_flag].
    eexists _, disabled_dst_time, r.1, []. split; [reflexivity |].
    split; [congruence |]. split; [reflexivity |].
    cbn [log dst_data_flag app]. split; [reflexivity |]. now left.
Qed.

Lemma set_dst_feature_ends fuel timeout_ms m :
  0 < timeout_ms < 2 ^ 32 -> enough_fuel fuel timeout_ms ->
  dst_flow_ends (set_dst_feature fuel timeout_ms m) m.
Proof.
  intros Ht Hf. unfold set_dst_feature.
  unfold bind at 1. unfold get_dst_data_flag at 1.
  assert (Hstatus : exists m1,
    (if DST_ENABLED_FLAG =? dst_data_flag m
     then active <- rtc_get_dst_status ;;
          if active then uart_put_string MsgDstStatusActive
          else uart_put_string MsgDstStatusInactive
     else uart_put_string MsgDstStatusDisabled) m = Done tt m1 /\
    passive_only m m1 /\ dst_data_flag m1 = dst_data_flag m).
  { destruct (DST_ENABLED_FLAG =? dst_data_flag m).
    - unfold bind, rtc_get_dst_status.
      destruct (Cy_RTC_GetDstStatus (hw m)).1; eexists; (split; [reflexivity |]);
        (split; [| reflexivity]);
        (eapply passive_only_trans; [| now apply passive_only_call]);
        now apply passive_only_call.
    - eexists. split; [reflexivity |]. split; [| reflexivity].
      now apply passive_only_call. }
  destruct Hstatus as (m1 & Hrun1 & Hp1 & Hflag1).
  unfold bind at 1. rewrite Hrun1.
  unfold bind at 1. unfold uart_put_string at 1.
  set (m2 := record_call _ (UartPutString MsgDstMenu) m1).
  destruct (user_uart_getc_returns fuel 0 timeout_ms m2 ltac:(lia) Hf)
    as (r & m3 & Hrun3 & Hp3 & Hflag3).
  change (dst_data_flag m2) with (dst_data_flag m1) in Hflag3.
  unfold bind at 1. rewrite Hrun3.
  assert (Hp : passive_only m m3).
  { eapply passive_only_trans; [exact Hp1 |].
    eapply passive_only_trans; [| exact Hp3]. now apply passive_only_call. }
  eapply dst_flow_ends_after; [exact Hp | congruence |].
  destruct (negb (r.1 =? CY_SCB_UART_RX_NO_DATA)).
  2:{ left. eexists. split; [reflexivity |].
      split; [now apply passive_only_call | now left]. }
  destruct (RTC_CMD_ENABLE_DST =? r.2); [now apply enable_dst_ends |].
  destruct (RTC_CMD_DISABLE_DST =? r.2); [apply disable_dst_ends |].
  destruct (RTC_CMD_QUIT_CONFIG_DST =? r.2).
  - left. eexists. split; [reflexivity |].
    split; [now apply passive_only_call | now left].
  - left. exists m3. split; [reflexivity |].
    split; [apply passive_only_refl | now left].
Qed.
End FlowEnds.

(** ** The scripted environment: silence *)

Lemma idle_refl lg : idle lg lg.
Proof. exists []. auto. Qed.

Lemma idle_trans lg1 lg2 lg3 : idle lg1 lg2 -> idle lg2 lg3 -> idle lg1 lg3.
Proof.
  intros (n1 & -> & H1) (n2 & -> & H2). exists (n2 ++ n1).
  rewrite app_assoc, forallb_app, H1, H2. auto.
Qed.

Lemma idle_step e lg : idle_event e = true -> idle lg (e :: lg).
Proof. intros He. exists [e]. cbn. rewrite He. auto. Qed.

(** Idle calls show in none of the readings of the log. *)
Lemma idle_readings lg lg' :
  idle lg lg' ->
  printed lg' = printed lg /\ tx_bytes lg' = tx_bytes lg /\
  rx_bytes lg' = rx_bytes lg /\ enable_dst_calls lg' = enable_dst_calls lg /\
  set_time_calls lg' = set_time_calls lg /\ dst_statuses lg' = dst_statuses lg.
Proof.
  intros (new & -> & Hn).
  induction new as [| e new IH]; [now repeat split |].
  cbn [forallb] in Hn. apply andb_prop in Hn as [He Hn].
  specialize (IH Hn).
  destruct e; try discriminate; cbn [app printed tx_bytes rx_bytes enable_dst_calls
    set_time_calls dst_statuses]; try exact IH.
  cbn [idle_event] in He. rewrite He. exact IH.
Qed.

Lemma getc_wait_silent n : forall timeout ticks rr lg fl,
  timeout <> 0 -> 0 <= ticks < 2 ^ 32 -> (Z.to_nat ticks < n)%nat ->
  exists lg',
    getc_wait n timeout ticks CY_SCB_UART_RX_NO_DATA (Machine (Script [] rr) lg fl)
    = Done None (Machine (Script [] rr) lg' fl) /\ idle lg lg'.
Proof.
  induction n as [| n IH]; intros timeout ticks rr lg fl Ht Hticks Hn; [lia |].
  cbn [getc_wait]. rewrite Z.eqb_refl.
  apply Z.eqb_neq in Ht as Ht'. rewrite Ht'. cbn [negb].
  destruct (0 <? ticks) eqn:Et.
  2:{ exists lg. split; [reflexivity | apply idle_refl]. }
  apply Z.ltb_lt in Et.
  unfold bind at 1. unfold syslib_delay at 1.
  unfold bind at 1. unfold uart_get at 1. unfold record_call.
  cbn [hw log dst_data_flag Cy_SysLib_Delay Cy_SCB_UART_Get scripted next_key
         keys rtc_replies fst snd].
  assert (Hdec : to_uint32 (ticks - 1) = ticks - 1).
  { unfold to_uint32. apply Z.mod_small. lia. }
  rewrite Hdec.
  destruct (IH timeout (ticks - 1) rr
              (UartGet CY_SCB_UART_RX_NO_DATA :: SysLibDelay UART_GET_CHAR_DELAY :: lg)
              fl Ht ltac:(lia) ltac:(lia)) as (lg' & Hrun & Hidle).
  exists lg'. split; [exact Hrun |].
  eapply idle_trans; [| exact Hidle].
  eapply idle_trans; [apply (idle_step (SysLibDelay UART_GET_CHAR_DELAY)); reflexivity |].
  now apply idle_step.
Qed.

(** On a silent line [user_uart_getc] reports the timeout, leaves the
    byte variable alone and has only polled and waited. *)
Lemma user_uart_getc_silent fuel value timeout rr lg fl :
  0 < timeout < 2 ^ 32 -> (Z.to_nat timeout < fuel)%nat ->
  exists lg',
    user_uart_getc fuel value timeout (Machine (Script [] rr) lg fl)
    = Done (CY_SCB_UART_RX_NO_DATA, value) (Machine (Script [] rr) lg' fl) /\
    idle lg lg'.
Proof.
  intros Ht Hn. unfold user_uart_getc.
  unfold bind at 1. unfold uart_get at 1. unfold record_call.
  cbn [hw log dst_data_flag Cy_SCB_UART_Get scripted next_key keys fst snd].
  destruct (getc_wait_silent fuel timeout timeout rr
              (UartGet CY_SCB_UART_RX_NO_DATA :: lg) fl ltac:(lia) ltac:(lia) Hn)
    as (lg' & Hrun & Hidle).
  unfold bind. rewrite Hrun. exists lg'. split; [reflexivity |].
  eapply idle_trans; [| exact Hidle]. now apply idle_step.
Qed.

(** On a silent line the collection loop stores nothing more and ends
    with the timeout status. *)
Lemma fetch_loop_silent fuel n : forall l rr lg fl,
  (Z.to_nat UART_TIMEOUT_MS < fuel)%nat ->
  0 <= Fetch.timeout_ms l < 2 ^ 32 ->
  (Z.to_nat (Fetch.timeout_ms l / UART_TIMEOUT_MS) < n)%nat ->
  Fetch.index l < STRING_BUFFER_SIZE ->
  exists l' lg',
    fetch_loop fuel n l (Machine (Script [] rr) lg fl)
    = Done l' (Machine (Script [] rr) lg' fl) /\
    idle lg lg' /\
    Fetch.buffer l' = Fetch.buffer l /\ Fetch.index l' = Fetch.index l /\
    Fetch.space_count l' = Fetch.space_count l /\
    Fetch.rslt l' = Some CY_SCB_UART_RX_NO_DATA.
Proof.
  induction n as [| n IH]; intros l rr lg fl Hfuel Hto Hn Hi; [lia |].
  unfold STRING_BUFFER_SIZE, UART_TIMEOUT_MS in *.
  cbn [fetch_loop]. unfold STRING_BUFFER_SIZE, UART_TIMEOUT_MS.
  replace (Fetch.index l <? 80) with true by (symmetry; apply Z.ltb_lt; lia).
  destruct (Fetch.timeout_ms l <=? 10) eqn:Et.
  { eexists _, lg. split; [reflexivity |]. split; [apply idle_refl |].
    repeat split. }
  apply Z.leb_gt in Et.
  destruct (user_uart_getc_silent fuel (Fetch.ch l) 10 rr lg fl ltac:(lia) Hfuel)
    as (lg1 & Hg & Hidle1).
  unfold bind at 1. rewrite Hg. cbn [fst snd]. rewrite Z.eqb_refl. cbn [negb].
  assert (Hdec : to_uint32 (Fetch.timeout_ms l - 10) = Fetch.timeout_ms l - 10).
  { unfold to_uint32. apply Z.mod_small. lia. }
  rewrite Hdec.
  match goal with |- context [fetch_loop fuel n ?x _] => set (l2 := x) end.
  destruct (IH l2 rr lg1 fl Hfuel) as (l' & lg' & Hrun & Hidle & Q);
    subst l2; cbn [Fetch.timeout_ms Fetch.index]; try lia.
  { replace (Fetch.timeout_ms l - 10) with (Fetch.timeout_ms l + (-1) * 10) by lia.
    rewrite Z.div_add by lia.
    assert (1 <= Fetch.timeout_ms l / 10) by (apply Z.div_le_lower_bound; lia). lia. }
  exists l', lg'. split; [exact Hrun |].
  split; [eapply idle_trans; eassumption | exact Q].
Qed.

(** ** The scripted environment: the flows step by step *)

Lemma typed_log_readings (data : list Z) : forall lg,
  Forall plain data ->
  printed (typed_log data lg) = printed lg /\
  rx_bytes (typed_log data lg) = rx_bytes lg ++ data /\
  tx_bytes (typed_log data lg) = tx_bytes lg ++ data /\
  enable_dst_calls (typed_log data lg) = enable_dst_calls lg /\
  set_time_calls (typed_log data lg) = set_time_calls lg.
Proof.
  induction data as [| k data IH]; intros lg Hp.
  - cbn [typed_log]. rewrite !app_nil_r. now repeat split.
  - inversion Hp as [| ? ? Hk Hp']; subst. cbn [typed_log].
    destruct (IH (UartPut k 1 :: UartGet k :: lg) Hp') as (Q1 & Q2 & Q3 & Q4 & Q5).
    rewrite Q1, Q2, Q3, Q4, Q5.
    cbn [printed rx_bytes tx_bytes enable_dst_calls set_time_calls].
    rewrite (plain_no_data k Hk), (byte_to_uint8 k) by apply Hk.
    rewrite <- !app_assoc. now repeat split.
Qed.

(** Bytes typed without pause and then silence: the collector stores
    them and ends with the timeout status. *)
Lemma fetch_typed_then_silent fuel buffer timeout_ms data rr lg fl :
  fetch_ready fuel buffer timeout_ms ->
  Forall plain data -> (length data < Z.to_nat STRING_BUFFER_SIZE)%nat ->
  UART_TIMEOUT_MS * Z.of_nat (length data) < timeout_ms ->
  exists l lg',
    fetch_time_data fuel buffer timeout_ms (Machine (Script data rr) lg fl)
    = Done l (Machine (Script [] rr) lg' fl) /\
    Fetch.line l = data /\
    Fetch.space_count l = count_spaces data /\
    Fetch.rslt l = Some CY_SCB_UART_RX_NO_DATA /\
    printed lg' = printed lg ++ [MsgNewline] /\
    rx_bytes lg' = rx_bytes lg ++ data /\
    enable_dst_calls lg' = enable_dst_calls lg /\
    set_time_calls lg' = set_time_calls lg.
Proof.
  intros (Hbuf & Hto & Hf1 & Hf2) Hp Hlen Hb.
  unfold STRING_BUFFER_SIZE, UART_TIMEOUT_MS in *.
  assert (Hq : Z.of_nat (length data) <= timeout_ms / 10)
    by (apply Z.div_le_lower_bound; lia).
  destruct (fetch_loop_typed fuel data (fuel - length data)
              (Fetch.Locals buffer 0 0 0 timeout_ms None O) [] rr lg fl Hp)
    as (l1 & Hrun & Q1 & Q2 & Q3 & Q4 & Q5 & _ & _);
    unfold STRING_BUFFER_SIZE, UART_TIMEOUT_MS;
    cbn [Fetch.index Fetch.buffer Fetch.space_count Fetch.timeout_ms];
    try lia.
  replace (length data + (fuel - length data))%nat with fuel in Hrun by lia.
  rewrite app_nil_r in Hrun.
  cbn [Fetch.index Fetch.buffer Fetch.space_count Fetch.timeout_ms] in *.
  unfold UART_TIMEOUT_MS in *.
  destruct (fetch_loop_silent fuel (fuel - length data) l1 rr (typed_log data lg) fl)
    as (l & lg1 & Hrun2 & Hidle & R1 & R2 & R3 & R4);
    unfold STRING_BUFFER_SIZE, UART_TIMEOUT_MS; try lia.
  { rewrite Q4.
    replace (timeout_ms - 10 * Z.of_nat (length data))
      with (timeout_ms + (- Z.of_nat (length data)) * 10) by lia.
    rewrite Z.div_add by lia. lia. }
  unfold fetch_time_data, bind. rewrite Hrun, Hrun2.
  unfold uart_put_string, record_call, ret.
  cbn [hw log dst_data_flag Cy_SCB_UART_PutString scripted].
  eexists l, _. split; [reflexivity |].
  destruct (idle_readings _ _ Hidle) as (I1 & I2 & I3 & I4 & I5 & _).
  destruct (typed_log_readings data lg Hp) as (T1 & T2 & T3 & T4 & T5).
  cbn [printed rx_bytes enable_dst_calls set_time_calls].
  rewrite I1, I3, I4, I5, T1, T2, T4, T5.
  unfold Fetch.line in *. rewrite R1, R2, R3, R4.
  change (take (Z.to_nat 0) buffer) with (@nil Z) in Q1.
  repeat split; auto.
Qed.

(** The start of [set_dst_feature]: status line, menu, and the read of
    the menu choice. *)
Lemma set_dst_feature_menu fuel timeout_ms ks rr lg fl :
  set_dst_feature fuel timeout_ms (Machine (Script ks rr) lg fl)
  = (r <- user_uart_getc fuel 0 timeout_ms ;; dst_dispatch fuel timeout_ms r)
      (Machine (Script ks rr) (dst_menu_log fl lg) fl).
Proof.
  unfold set_dst_feature, dst_dispatch, dst_menu_log.
  unfold bind at 1. unfold get_dst_data_flag at 1. cbn [dst_data_flag].
  destruct (DST_ENABLED_FLAG =? fl); reflexivity.
Qed.

Lemma enough_fuel_fetch_ready fuel timeout_ms :
  0 <= timeout_ms < 2 ^ 32 -> enough_fuel fuel timeout_ms ->
  fetch_ready fuel zero_buffer timeout_ms.
Proof.
  intros Ht (Hf1 & Hf2 & _). split; [reflexivity |]. split; [exact Ht |].
  split; [exact Hf2 |]. pose proof (div_sub_timeout timeout_ms ltac:(lia)). lia.
Qed.

Lemma printed_dst_menu_log fl lg :
  printed (dst_menu_log fl lg)
  = printed lg ++ [if DST_ENABLED_FLAG =? fl then MsgDstStatusInactive
                   else MsgDstStatusDisabled; MsgDstMenu].
Proof.
  unfold dst_menu_log. destruct (DST_ENABLED_FLAG =? fl);
    cbn [printed]; rewrite <- app_assoc; reflexivity.
Qed.

Lemma dst_menu_log_no_write fl lg :
  enable_dst_calls (dst_menu_log fl lg) = enable_dst_calls lg /\
  set_time_calls (dst_menu_log fl lg) = set_time_calls lg.
Proof. unfold dst_menu_log. destruct (DST_ENABLED_FLAG =? fl); now split. Qed.

(** *** A menu choice that is neither 1 nor 2 *)

Lemma set_dst_feature_other_key fuel timeout_ms k rest rr lg fl :
  0 <= k < 256 -> k <> RTC_CMD_ENABLE_DST -> k <> RTC_CMD_DISABLE_DST ->
  set_dst_feature fuel timeout_ms (Machine (Script (k :: rest) rr) lg fl)
  = Done tt (Machine (Script rest rr)
               ((if RTC_CMD_QUIT_CONFIG_DST =? k
                 then [UartPutString MsgDstExit] else [])
                ++ UartGet k :: dst_menu_log fl lg) fl).
Proof.
  intros Hk H1 H2. rewrite set_dst_feature_menu.
  unfold bind. rewrite user_uart_getc_key by assumption.
  unfold dst_dispatch. cbn [fst snd].
  change (CY_RSLT_SUCCESS =? CY_SCB_UART_RX_NO_DATA) with false. cbn [negb].
  replace (RTC_CMD_ENABLE_DST =? k) with false
    by (symmetry; apply Z.eqb_neq; congruence).
  replace (RTC_CMD_DISABLE_DST =? k) with false
    by (symmetry; apply Z.eqb_neq; congruence).
  destruct (RTC_CMD_QUIT_CONFIG_DST =? k); reflexivity.
Qed.

(** *** Menu choice 2 *)

Lemma set_dst_feature_disable_key fuel timeout_ms rest rr lg fl :
  set_dst_feature fuel timeout_ms
    (Machine (Script (RTC_CMD_DISABLE_DST :: rest) rr) lg fl)
  = let reply := next_reply (Script rest rr) in
    let lg' := RtcEnableDstTime disabled_dst_time reply.1
                 :: UartGet RTC_CMD_DISABLE_DST :: dst_menu_log fl lg in
    if CY_RTC_SUCCESS =? reply.1
    then Done tt (Machine reply.2 (UartPutString MsgDstDisabled :: lg')
                    DST_DISABLED_FLAG)
    else Halted (Machine reply.2 (HandleError :: lg') fl).
Proof.
  rewrite set_dst_feature_menu.
  unfold bind at 1. rewrite user_uart_getc_key by (unfold RTC_CMD_DISABLE_DST; lia).
  unfold dst_dispatch. cbn [fst snd].
  change (CY_RSLT_SUCCESS =? CY_SCB_UART_RX_NO_DATA) with false. cbn [negb].
  change (RTC_CMD_ENABLE_DST =? RTC_CMD_DISABLE_DST) with false.
  rewrite Z.eqb_refl.
  unfold disable_dst, bind, rtc_enable_dst_time, record_call.
  cbn [hw log dst_data_flag Cy_RTC_EnableDstTime scripted].
  cbn zeta. destruct (CY_RTC_SUCCESS =? (next_reply (Script rest rr)).1); reflexivity.
Qed.

(** *** The Enable branch, step by step *)

Lemma set_dst_feature_enable_key fuel timeout_ms ks rr lg fl :
  set_dst_feature fuel timeout_ms
    (Machine (Script (RTC_CMD_ENABLE_DST :: ks) rr) lg fl)
  = enable_dst fuel timeout_ms
      (Machine (Script ks rr) (UartGet RTC_CMD_ENABLE_DST :: dst_menu_log fl lg) fl).
Proof.
  rewrite set_dst_feature_menu.
  unfold bind at 1. rewrite user_uart_getc_key by (unfold RTC_CMD_ENABLE_DST; lia).
  unfold dst_dispatch. cbn [fst snd].
  change (CY_RSLT_SUCCESS =? CY_SCB_UART_RX_NO_DATA) with false. cbn [negb].
  rewrite Z.eqb_refl. reflexivity.
Qed.

(** The rest of the Enable branch once the start time has been dealt
    with and the flag is at neither intermediate value: no end-time
    prompt, no write. *)
Lemma enable_dst_rest_terminal (s : Scan.vars * cy_stc_rtc_dst_t) (m : machine script) :
  dst_data_flag m <> DST_VALID_START_TIME_FLAG ->
  dst_data_flag m <> DST_VALID_END_TIME_FLAG ->
  forall fuel fmt timeout_ms,
    (flag <- get_dst_data_flag ;;
     s' <- (if DST_VALID_START_TIME_FLAG =? flag
            then enter_dst_end fuel fmt timeout_ms s.1 s.2
            else ret s) ;;
     commit_dst s'.2) m = Done tt m.
Proof.
  intros H1 H2 fuel fmt timeout_ms.
  unfold bind at 1. unfold get_dst_data_flag at 1.
  replace (DST_VALID_START_TIME_FLAG =? dst_data_flag m) with false
    by (symmetry; apply Z.eqb_neq; congruence).
  unfold bind at 1. unfold ret at 1.
  unfold commit_dst, bind, get_dst_data_flag.
  replace (DST_VALID_END_TIME_FLAG =? dst_data_flag m) with false
    by (symmetry; apply Z.eqb_neq; congruence).
  reflexivity.
Qed.

(** A start entry with a number of blanks other than five, typed in
    full: the text for invalid values, and the call is over. *)
Lemma enable_dst_wrong_blanks fuel timeout_ms fmt data t rest rr lg fl :
  0 <= fmt < 256 ->
  Forall plain data -> (length data < Z.to_nat STRING_BUFFER_SIZE)%nat ->
  t = LF \/ t = CR ->
  count_spaces data <> MIN_SPACE_KEY_COUNT ->
  UART_TIMEOUT_MS * (Z.of_nat (length data) + 1) < timeout_ms < 2 ^ 32 ->
  (length data < fuel)%nat ->
  fl <> DST_VALID_START_TIME_FLAG -> fl <> DST_VALID_END_TIME_FLAG ->
  enable_dst fuel timeout_ms (Machine (Script (fmt :: data ++ t :: rest) rr) lg fl)
  = Done tt (Machine (Script rest rr)
               (UartPutString MsgInvalidValues :: UartPutString MsgNewline
                  :: UartGet t
                  :: typed_log data (UartPutString MsgEnterDstStart :: UartGet fmt
                                       :: UartPutString MsgDstFormatMenu :: lg)) fl).
Proof.
  intros Hfmt Hp Hlen Ht Hcount Hto Hfuel H1 H2.
  unfold enable_dst. unfold bind at 1. unfold uart_put_string at 1.
  unfold bind at 1. unfold record_call at 1.
  cbn [hw log dst_data_flag Cy_SCB_UART_PutString scripted].
  rewrite user_uart_getc_key by assumption. cbn [fst snd].
  change (CY_RSLT_SUCCESS =? CY_SCB_UART_RX_NO_DATA) with false. cbn [negb].
  unfold bind at 1. unfold enter_dst_start.
  unfold bind at 1. unfold uart_put_string at 1. unfold record_call at 1.
  cbn [hw log dst_data_flag Cy_SCB_UART_PutString scripted].
  destruct (fetch_typed_line fuel zero_buffer timeout_ms data t rest rr
              (UartPutString MsgEnterDstStart :: UartGet fmt
                 :: UartPutString MsgDstFormatMenu :: lg) fl Hp Hlen Ht eq_refl Hto Hfuel)
    as (f & Hrun & _ & Hsc & Hr).
  unfold bind at 1. rewrite Hrun. rewrite Hr, Hsc.
  cbn [received]. change (negb (CY_RSLT_SUCCESS =? CY_SCB_UART_RX_NO_DATA)) with true.
  replace (count_spaces data =? MIN_SPACE_KEY_COUNT) with false
    by (symmetry; apply Z.eqb_neq; assumption).
  cbn [negb]. unfold bind at 1. unfold uart_put_string at 1. unfold record_call at 1.
  cbn [hw log dst_data_flag Cy_SCB_UART_PutString scripted]. unfold ret at 1.
  apply (enable_dst_rest_terminal _ (Machine _ _ fl)); assumption.
Qed.

(** ** The scripted environment: set_new_time *)

Lemma set_time_calls_attempt_log sec min hour date month year (statuses : list Z) :
  set_time_calls
    (attempt_log (RtcSetDateAndTimeDirect sec min hour date month year) statuses)
  = repeat [sec; min; hour; date; month; year] (length statuses).
Proof.
  induction statuses as [| s statuses IH]; [reflexivity |].
  cbn [attempt_log flat_map app set_time_calls length repeat].
  fold (attempt_log (RtcSetDateAndTimeDirect sec min hour date month year) statuses).
  now rewrite IH.
Qed.

Lemma enable_dst_calls_attempt_log sec min hour date month year (statuses : list Z) :
  enable_dst_calls
    (attempt_log (RtcSetDateAndTimeDirect sec min hour date month year) statuses)
  = [].
Proof.
  induction statuses as [| s statuses IH]; [reflexivity | exact IH].
Qed.

(** The buffer [fetch_time_data] hands back after a line of fewer than
    80 bytes typed into a zeroed buffer reads, as a C string, like the
    line. *)
Lemma fetch_typed_c_string fuel timeout_ms (m m' : machine script) f data :
  (Z.to_nat UART_TIMEOUT_MS < fuel)%nat ->
  fetch_time_data fuel zero_buffer timeout_ms m = Done f m' ->
  Fetch.line f = data -> (length data < Z.to_nat STRING_BUFFER_SIZE)%nat ->
  c_string (Fetch.buffer f) = c_string data.
Proof.
  intros Hfuel Hrun Hline Hlen.
  destruct (fetch_time_data_frame fuel zero_buffer timeout_ms m f m' Hfuel eq_refl Hrun)
    as (_ & _ & _ & Hi & Hl80 & Hbuf).
  assert (Hidx : Z.to_nat (Fetch.index f) = length data).
  { rewrite <- Hline in Hlen |- *. unfold Fetch.line in *.
    rewrite length_take in *. lia. }
  rewrite Hbuf, Hline, Hidx. unfold zero_buffer. rewrite drop_replicate.
  destruct (Z.to_nat STRING_BUFFER_SIZE - length data)%nat as [| k] eqn:Ek; [lia |].
  apply c_string_nul.
Qed.

Lemma set_new_time_typed fuel uninit timeout_ms data t rest rr lg fl :
  Forall plain data -> (length data < Z.to_nat STRING_BUFFER_SIZE)%nat ->
  t = LF \/ t = CR ->
  UART_TIMEOUT_MS * (Z.of_nat (length data) + 1) < timeout_ms < 2 ^ 32 ->
  enough_fuel fuel timeout_ms ->
  (count_spaces data <> MIN_SPACE_KEY_COUNT ->
   set_new_time fuel uninit timeout_ms (Machine (Script (data ++ t :: rest) rr) lg fl)
   = Done tt (Machine (Script rest rr)
                (UartPutString MsgInvalidValues :: UartPutString MsgNewline
                   :: UartGet t :: typed_log data (UartPutString MsgEnterTime :: lg))
                fl)) /\
  (count_spaces data = MIN_SPACE_KEY_COUNT ->
   exists m' k,
     final (set_new_time fuel uninit timeout_ms
              (Machine (Script (data ++ t :: rest) rr) lg fl)) = Some m' /\
     (1 <= k <= Z.to_nat MAX_ATTEMPTS)%nat /\
     set_time_calls (log m')
     = repeat (set_time_args (sscanf (c_string data) uninit)) k ++ set_time_calls lg /\
     enable_dst_calls (log m') = enable_dst_calls lg /\
     dst_data_flag m' = fl).
Proof.
  intros Hp Hlen Ht Hto Hf.
  assert (Hrange : 0 <= timeout_ms < 2 ^ 32) by (unfold UART_TIMEOUT_MS in Hto; lia).
  assert (Hq : (length data < fuel)%nat).
  { pose proof (fetch_ready_passes fuel zero_buffer timeout_ms
                  (Z.of_nat (length data) + 1)
                  (enough_fuel_fetch_ready fuel timeout_ms Hrange Hf) ltac:(lia) (proj1 Hto)).
    lia. }
  destruct (fetch_typed_line fuel zero_buffer timeout_ms data t rest rr
              (UartPutString MsgEnterTime :: lg) fl Hp Hlen Ht eq_refl Hto Hq)
    as (f & Hrun & Hline & Hsc & Hr).
  pose proof (fetch_typed_c_string fuel timeout_ms _ _ f data (proj1 (proj2 Hf))
                Hrun Hline Hlen) as Hstr.
  set (v := sscanf (c_string data) uninit).
  assert (Hstep :
    set_new_time fuel uninit timeout_ms (Machine (Script (data ++ t :: rest) rr) lg fl)
    = (if negb (count_spaces data =? MIN_SPACE_KEY_COUNT) then
         uart_put_string MsgInvalidValues
       else
         rslt <- retry_loop
                   (rtc_set_date_and_time_direct
                      (to_uint32 (Scan.sec v)) (to_uint32 (Scan.min v))
                      (to_uint32 (Scan.hour v)) (to_uint32 (Scan.mday v))
                      (to_uint32 (Scan.month v)) (to_uint32 (Scan.year v)))
                   fuel MAX_ATTEMPTS ;;
         uart_put_string MsgRtcTimeUpdated ;;
         if negb (CY_RTC_SUCCESS =? rslt) then
           uart_put_string MsgInvalidValues ;; handle_error
         else ret tt)
        (Machine (Script rest rr)
           (UartPutString MsgNewline :: UartGet t
              :: typed_log data (UartPutString MsgEnterTime :: lg)) fl)).
  { unfold set_new_time. unfold bind at 1. unfold uart_put_string at 1.
    unfold record_call at 1. cbn [hw log dst_data_flag Cy_SCB_UART_PutString scripted].
    unfold bind at 1. rewrite Hrun, Hr, Hsc, Hstr.
    cbn [received]. change (negb (CY_RSLT_SUCCESS =? CY_SCB_UART_RX_NO_DATA)) with true.
    reflexivity. }
  rewrite Hstep. clear Hstep.
  split; intros Hcount.
  - replace (count_spaces data =? MIN_SPACE_KEY_COUNT) with false
      by (symmetry; apply Z.eqb_neq; assumption).
    reflexivity.
  - rewrite Hcount, Z.eqb_refl. cbn [negb].
    set (m2 := Machine (Script rest rr)
                 (UartPutString MsgNewline :: UartGet t
                    :: typed_log data (UartPutString MsgEnterTime :: lg)) fl).
    destruct (retry_loop_spec _ _
                (rtc_set_date_and_time_direct_logged
                   (to_uint32 (Scan.sec v)) (to_uint32 (Scan.min v))
                   (to_uint32 (Scan.hour v)) (to_uint32 (Scan.mday v))
                   (to_uint32 (Scan.month v)) (to_uint32 (Scan.year v)))
                fuel MAX_ATTEMPTS m2 ltac:(unfold MAX_ATTEMPTS; lia)
                (proj2 (proj2 Hf)))
      as (rslt & failed & m3 & Hrun3 & Hlog & Hflag & Hfail & Hlenf & Hlast).
    unfold bind at 1. rewrite Hrun3.
    subst m2. cbn [log dst_data_flag] in Hlog, Hflag.
    destruct (typed_log_readings data (UartPutString MsgEnterTime :: lg) Hp)
      as (_ & _ & _ & T4 & T5).
    assert (Hcalls : set_time_calls (log m3)
                     = repeat (set_time_args v) (S (length failed)) ++ set_time_calls lg).
    { rewrite Hlog, set_time_calls_app, set_time_calls_attempt_log.
      cbn [set_time_calls]. rewrite T5. reflexivity. }
    assert (Hdst : enable_dst_calls (log m3) = enable_dst_calls lg).
    { rewrite Hlog, enable_dst_calls_app, enable_dst_calls_attempt_log.
      cbn [app enable_dst_calls]. exact T4. }
    unfold bind, uart_put_string, handle_error, record_call.
    cbn [hw log dst_data_flag].
    destruct (negb (CY_RTC_SUCCESS =? rslt));
      (eexists _, (S (length failed)); split; [reflexivity |]);
      cbn [log dst_data_flag set_time_calls enable_dst_calls];
      (split; [lia |]); (split; [exact Hcalls |]); (split; [exact Hdst | exact Hflag]).
Qed.

(** An entry that breaks off before its terminator. *)
Lemma set_new_time_silent fuel uninit timeout_ms data rr lg fl :
  Forall plain data -> (length data < Z.to_nat STRING_BUFFER_SIZE)%nat ->
  UART_TIMEOUT_MS * Z.of_nat (length data) < timeout_ms < 2 ^ 32 ->
  enough_fuel fuel timeout_ms ->
  exists lg',
    set_new_time fuel uninit timeout_ms (Machine (Script data rr) lg fl)
    = Done tt (Machine (Script [] rr) lg' fl) /\
    printed lg' = printed lg ++ [MsgEnterTime; MsgNewline; MsgTimeout] /\
    set_time_calls lg' = set_time_calls lg /\
    enable_dst_calls lg' = enable_dst_calls lg.
Proof.
  intros Hp Hlen Hto Hf.
  assert (Hrange : 0 <= timeout_ms < 2 ^ 32) by (unfold UART_TIMEOUT_MS in Hto; lia).
  destruct (fetch_typed_then_silent fuel zero_buffer timeout_ms data rr
              (UartPutString MsgEnterTime :: lg) fl
              (enough_fuel_fetch_ready fuel timeout_ms Hrange Hf) Hp Hlen (proj1 Hto))
    as (f & lg1 & Hrun & _ & _ & Hr & Q1 & _ & Q3 & Q4).
  unfold set_new_time. unfold bind at 1. unfold uart_put_string at 1.
  unfold record_call at 1. cbn [hw log dst_data_flag Cy_SCB_UART_PutString scripted].
  unfold bind at 1. rewrite Hrun, Hr. cbn [received]. rewrite Z.eqb_refl. cbn [negb].
  unfold uart_put_string, record_call.
  cbn [hw log dst_data_flag Cy_SCB_UART_PutString scripted].
  eexists. split; [reflexivity |].
  cbn [printed enable_dst_calls set_time_calls] in *.
  rewrite Q1, Q3, Q4, <- !app_assoc. now repeat split.
Qed.

(** ** user_uart_getc without a timeout, in the scripted environment *)

Lemma replicate_snoc_app {A} (k : nat) (x : A) (l : list A) :
  replicate k x ++ x :: l = x :: replicate k x ++ l.
Proof. induction k as [| k IH]; [reflexivity |]. cbn. now rewrite IH. Qed.

(** [k] more empty polls and then the word [w]. *)
Lemma getc_wait_blocking_keys (k : nat) : forall n ticks w rest rr lg fl,
  w <> CY_SCB_UART_RX_NO_DATA -> (k < n)%nat ->
  getc_wait n 0 ticks CY_SCB_UART_RX_NO_DATA
    (Machine (Script (replicate k CY_SCB_UART_RX_NO_DATA ++ w :: rest) rr) lg fl)
  = Done (Some w)
      (Machine (Script rest rr)
         (UartGet w :: replicate k (UartGet CY_SCB_UART_RX_NO_DATA) ++ lg) fl).
Proof.
  induction k as [| k IH]; intros n ticks w rest rr lg fl Hw Hn;
    (destruct n as [| n]; [lia |]).
  - cbn [getc_wait replicate app]. rewrite Z.eqb_refl. cbn [Z.eqb negb].
    unfold bind, uart_get, record_call.
    cbn [hw log dst_data_flag Cy_SCB_UART_Get scripted next_key keys rtc_replies
           fst snd].
    apply Z.eqb_neq in Hw.
    destruct n; cbn [getc_wait]; rewrite Hw; reflexivity.
  - cbn [getc_wait replicate app]. rewrite Z.eqb_refl. cbn [Z.eqb negb].
    unfold bind at 1. unfold uart_get at 1. unfold record_call.
    cbn [hw log dst_data_flag Cy_SCB_UART_Get scripted next_key keys rtc_replies
           fst snd].
    rewrite (IH n ticks w rest rr) by (assumption || lia).
    now rewrite replicate_snoc_app.
Qed.

(** Nothing ever arrives: the loop does not end, whatever the fuel. *)
Lemma getc_wait_blocking_silent (n : nat) : forall ticks rr lg fl,
  getc_wait n 0 ticks CY_SCB_UART_RX_NO_DATA (Machine (Script [] rr) lg fl)
  = OutOfFuel.
Proof.
  induction n as [| n IH]; intros ticks rr lg fl; [reflexivity |].
  cbn [getc_wait]. rewrite Z.eqb_refl. cbn [Z.eqb negb].
  unfold bind at 1. unfold uart_get at 1. unfold record_call.
  cbn [hw log dst_data_flag Cy_SCB_UART_Get scripted next_key keys rtc_replies
         fst snd].
  apply IH.
Qed.

Lemma user_uart_getc_blocking_keys fuel value (k : nat) w rest rr lg fl :
  w <> CY_SCB_UART_RX_NO_DATA -> (k <= fuel)%nat ->
  user_uart_getc fuel value 0
    (Machine (Script (replicate k CY_SCB_UART_RX_NO_DATA ++ w :: rest) rr) lg fl)
  = Done (CY_RSLT_SUCCESS, to_uint8 w)
      (Machine (Script rest rr)
         (UartGet w :: replicate k (UartGet CY_SCB_UART_RX_NO_DATA) ++ lg) fl).
Proof.
  intros Hw Hk. unfold user_uart_getc.
  unfold bind at 1. unfold uart_get at 1. unfold record_call.
  destruct k as [| k].
  - cbn [replicate app hw log dst_data_flag Cy_SCB_UART_Get scripted next_key keys
           rtc_replies fst snd].
    apply Z.eqb_neq in Hw. unfold bind.
    destruct fuel; cbn [getc_wait]; rewrite Hw; reflexivity.
  - cbn [replicate app hw log dst_data_flag Cy_SCB_UART_Get scripted next_key keys
           rtc_replies fst snd].
    unfold bind. rewrite (getc_wait_blocking_keys k) by (assumption || lia).
    now rewrite replicate_snoc_app.
Qed.

Lemma user_uart_getc_blocking_silent fuel value rr lg fl :
  user_uart_getc fuel value 0 (Machine (Script [] rr) lg fl) = OutOfFuel.
Proof.
  unfold user_uart_getc.
  unfold bind at 1. unfold uart_get at 1. unfold record_call.
  cbn [hw log dst_data_flag Cy_SCB_UART_Get scripted next_key keys rtc_replies
         fst snd].
  unfold bind. now rewrite getc_wait_blocking_silent.
Qed.

(** ** The two flows keep to their own part of the RTC *)

Section FlowFrames.
Context {Env : Type} `{PDL Env}.
Implicit Types m : machine Env.

Lemma set_new_time_frame fuel uninit timeout_ms m :
  0 <= timeout_ms < 2 ^ 32 -> enough_fuel fuel timeout_ms ->
  exists m',
    final (set_new_time fuel uninit timeout_ms m) = Some m' /\
    enable_dst_calls (log m') = enable_dst_calls (log m) /\
    dst_statuses (log m') = dst_statuses (log m) /\
    dst_data_flag m' = dst_data_flag m.
Proof.
  intros Ht Hf. unfold set_new_time.
  unfold bind at 1. unfold uart_put_string at 1.
  set (m1 := record_call _ (UartPutString MsgEnterTime) m).
  destruct (fetch_time_data_returns fuel timeout_ms m1 Ht Hf)
    as (f & m2 & Hrun & Hp & Hflag2).
  change (dst_data_flag m1) with (dst_data_flag m) in Hflag2.
  unfold bind at 1. rewrite Hrun.
  assert (Hp1 : passive_only m m2).
  { eapply passive_only_trans; [| exact Hp]. now apply passive_only_call. }
  destruct Hp1 as (pre & Hpre & Hpp).
  assert (Q1 : enable_dst_calls (log m2) = enable_dst_calls (log m)).
  { rewrite Hpre. now apply enable_dst_calls_uart. }
  assert (Q2 : dst_statuses (log m2) = dst_statuses (log m)).
  { rewrite Hpre, dst_statuses_app, (dst_statuses_passive pre Hpp). reflexivity. }
  destruct (received (Fetch.rslt f)).
  2:{ eexists. split; [reflexivity |]. cbn [record_call log dst_data_flag
        enable_dst_calls dst_statuses]. auto. }
  destruct (negb (Fetch.space_count f =? MIN_SPACE_KEY_COUNT)).
  { eexists. split; [reflexivity |]. cbn [record_call log dst_data_flag
      enable_dst_calls dst_statuses]. auto. }
  set (v := sscanf (c_string (Fetch.buffer f)) uninit).
  destruct Hf as (_ & _ & Hf3).
  destruct (retry_loop_spec _ _
              (rtc_set_date_and_time_direct_logged
                 (to_uint32 (Scan.sec v)) (to_uint32 (Scan.min v))
                 (to_uint32 (Scan.hour v)) (to_uint32 (Scan.mday v))
                 (to_uint32 (Scan.month v)) (to_uint32 (Scan.year v)))
              fuel MAX_ATTEMPTS m2 ltac:(unfold MAX_ATTEMPTS; lia) Hf3)
    as (rslt & failed & m3 & Hrun3 & Hlog & Hflag3 & _).
  unfold bind at 1. rewrite Hrun3.
  assert (Q3 : enable_dst_calls (log m3) = enable_dst_calls (log m)).
  { rewrite Hlog, enable_dst_calls_app, enable_dst_calls_attempt_log. exact Q1. }
  assert (Q4 : dst_statuses (log m3) = dst_statuses (log m)).
  { rewrite Hlog, dst_statuses_app.
    replace (dst_statuses (attempt_log _ (rslt :: failed))) with (@nil Z); [exact Q2 |].
    clear. induction (rslt :: failed) as [| s l IH]; [reflexivity | exact IH]. }
  unfold bind, uart_put_string, handle_error, record_call.
  cbn [hw log dst_data_flag].
  destruct (negb (CY_RTC_SUCCESS =? rslt));
    (eexists; split; [reflexivity |]);
    cbn [log dst_data_flag enable_dst_calls dst_statuses];
    (split; [exact Q3 |]); (split; [exact Q4 | congruence]).
Qed.

Lemma set_dst_feature_frame fuel timeout_ms m :
  0 < timeout_ms < 2 ^ 32 -> enough_fuel fuel timeout_ms ->
  exists m',
    final (set_dst_feature fuel timeout_ms m) = Some m' /\
    set_time_calls (log m') = set_time_calls (log m).
Proof.
  intros Ht Hf.
  destruct (set_dst_feature_ends fuel timeout_ms m Ht Hf)
    as [(m' & -> & (new & Hl & Hp) & _)
       | [(m' & dst & pre & -> & Hp & Hl & _)
         | [(m' & pre & -> & Hp & Hl & _)
           | (m' & dst & st & pre & -> & _ & Hp & Hl & _)]]];
    exists m'; (split; [reflexivity |]); rewrite Hl;
    cbn [set_time_calls]; now apply set_time_calls_uart.
Qed.
End FlowFrames.

(** ** The validator on every [int] day *)

Lemma day_check_int (mday len : Z) :
  - 2 ^ 31 <= mday < 2 ^ 31 ->
  day_check mday len = true <-> mday <> 0 /\ mday <= len.
Proof.
  intros Hm. unfold day_check, to_uint32.
  assert (Hu : 0 < mday mod 2 ^ 32 <-> mday <> 0).
  { destruct (Z.eq_dec mday 0) as [-> | Hne]; [rewrite Z.mod_0_l by lia; lia |].
    destruct (Z.lt_ge_cases mday 0).
    - replace mday with (mday + 2 ^ 32 + (-1) * 2 ^ 32) by lia.
      rewrite Z.mod_add by lia. rewrite Z.mod_small by lia. lia.
    - rewrite Z.mod_small by lia. lia. }
  rewrite andb_true_iff, Z.ltb_lt, Z.leb_le. tauto.
Qed.

Lemma validate_date_time_int_day (sec min hour mday month year : Z) :
  - 2 ^ 31 <= mday < 2 ^ 31 -> year < 2 ^ 31 ->
  validate_date_time sec min hour mday month year = Some true
  <-> in_domain sec min hour month year /\ mday <> 0 /\
      mday <= days_in_month month year.
Proof.
  intros Hm Hy. split.
  - intros Hv.
    assert (Hd : in_domain sec min hour month year).
    { destruct (range_checks sec min hour month year) eqn:E.
      - now apply range_checks_true.
      - unfold validate_date_time in Hv. rewrite E in Hv. discriminate. }
    split; [exact Hd |].
    rewrite validate_date_time_in_domain in Hv by (assumption || lia).
    injection Hv as Hv. now apply day_check_int.
  - intros (Hd & Hday).
    rewrite validate_date_time_in_domain by (assumption || lia).
    f_equal. now apply day_check_int.
Qed.

Lemma days_in_month_february (year : Z) :
  days_in_month 2 year = if leap_year_rule year then 29 else 28.
Proof. unfold days_in_month. cbn [Z.eqb Pos.eqb andb]. now destruct (leap_year_rule year). Qed.

(** ** The collector when the budget runs out *)

Section Budget.
Context {Env : Type} `{PDL Env}.
Implicit Types m : machine Env.

(** With a budget at or below the sub-timeout nothing is read. *)
Lemma fetch_time_data_no_budget fuel buffer timeout_ms m :
  (0 < fuel)%nat -> timeout_ms <= UART_TIMEOUT_MS ->
  fetch_time_data fuel buffer timeout_ms m
  = Done (Fetch.Locals buffer 0 0 0 timeout_ms (Some CY_SCB_UART_RX_NO_DATA) O)
      (record_call (Cy_SCB_UART_PutString MsgNewline (hw m))
         (UartPutString MsgNewline) m).
Proof.
  intros Hfuel Ht. unfold fetch_time_data.
  destruct fuel as [| n]; [lia |].
  unfold bind at 1. cbn [fetch_loop Fetch.index Fetch.timeout_ms].
  change (0 <? STRING_BUFFER_SIZE) with true. cbn match.
  replace (timeout_ms <=? UART_TIMEOUT_MS) with true
    by (symmetry; apply Z.leb_le; assumption).
  reflexivity.
Qed.
End Budget.

(** Bytes typed without pause, with a budget that ends at or below the
    sub-timeout once they are stored: the next key is not read. *)
Lemma fetch_typed_budget_out fuel buffer timeout_ms data rest rr lg fl :
  Forall plain data -> (length data < Z.to_nat STRING_BUFFER_SIZE)%nat ->
  length buffer = Z.to_nat STRING_BUFFER_SIZE ->
  UART_TIMEOUT_MS * Z.of_nat (length data) < timeout_ms
  <= UART_TIMEOUT_MS * (Z.of_nat (length data) + 1) ->
  timeout_ms < 2 ^ 32 -> (length data < fuel)%nat ->
  exists l,
    fetch_time_data fuel buffer timeout_ms (Machine (Script (data ++ rest) rr) lg fl)
    = Done l (Machine (Script rest rr)
                (UartPutString MsgNewline :: typed_log data lg) fl) /\
    Fetch.line l = data /\
    Fetch.space_count l = count_spaces data /\
    Fetch.rslt l = Some CY_SCB_UART_RX_NO_DATA /\
    Fetch.timeout_ms l = timeout_ms - UART_TIMEOUT_MS * Z.of_nat (length data).
Proof.
  intros Hp Hlen Hbuf Hto Hmax Hfuel.
  unfold STRING_BUFFER_SIZE, UART_TIMEOUT_MS in *.
  destruct (fetch_loop_typed fuel data (fuel - length data)
              (Fetch.Locals buffer 0 0 0 timeout_ms None O) rest rr lg fl Hp)
    as (l' & Hrun & Q1 & Q2 & Q3 & Q4 & Q5 & _ & _);
    unfold STRING_BUFFER_SIZE, UART_TIMEOUT_MS;
    cbn [Fetch.index Fetch.buffer Fetch.space_count Fetch.timeout_ms];
    try lia.
  replace (length data + (fuel - length data))%nat with fuel in Hrun by lia.
  cbn [Fetch.index Fetch.buffer Fetch.space_count Fetch.timeout_ms] in *.
  unfold UART_TIMEOUT_MS in *.
  unfold fetch_time_data, bind. rewrite Hrun.
  destruct (fuel - length data)%nat as [| n] eqn:En; [lia |].
  cbn [fetch_loop]. unfold STRING_BUFFER_SIZE, UART_TIMEOUT_MS.
  replace (Fetch.index l' <? 80) with true by (symmetry; apply Z.ltb_lt; lia).
  replace (Fetch.timeout_ms l' <=? 10) with true by (symmetry; apply Z.leb_le; lia).
  unfold ret, uart_put_string, record_call.
  cbn [hw log dst_data_flag Cy_SCB_UART_PutString scripted].
  eexists. split; [reflexivity |].
  unfold Fetch.line in *.
  cbn [Fetch.index Fetch.buffer Fetch.space_count Fetch.rslt Fetch.timeout_ms].
  rewrite Q1, Q3. cbn [take app]. repeat split; lia.
Qed.

(** ** The retry loop in the scripted environment *)

Lemma attempt_log_cons ev s statuses :
  attempt_log ev (s :: statuses)
  = SysLibDelay INIT_DELAY_MS :: ev s :: attempt_log ev statuses.
Proof. reflexivity. Qed.

Section ScriptedRetry.
Variable call : M script Z.
Variable ev : Z -> event.
Hypothesis call_reply : forall ks rr lg fl,
  call (Machine (Script ks rr) lg fl)
  = Done (next_reply (Script ks rr)).1
      (Machine (next_reply (Script ks rr)).2
         (ev (next_reply (Script ks rr)).1 :: lg) fl).

(** The replies [fails], none of them success, and then success: one
    call for each of them, and the loop returns success. *)
Lemma retry_loop_until_success (fails : list Z) : forall n attempts ks rr lg fl,
  Forall (fun s => s <> CY_RTC_SUCCESS) fails ->
  Z.of_nat (length fails) < attempts < 2 ^ 32 -> (length fails < n)%nat ->
  retry_loop call n attempts
    (Machine (Script ks (fails ++ CY_RTC_SUCCESS :: rr)) lg fl)
  = Done CY_RTC_SUCCESS
      (Machine (Script ks rr) (attempt_log ev (CY_RTC_SUCCESS :: rev fails) ++ lg) fl).
Proof.
  induction fails as [| s fails IH]; intros n attempts ks rr lg fl Hf Ha Hn;
    (destruct n as [| n]; [cbn [length] in Hn; lia |]); cbn [length] in *.
  - cbn [retry_loop app]. unfold bind at 1. rewrite call_reply.
    cbn [next_reply rtc_replies keys fst snd].
    unfold bind, syslib_delay, record_call, ret.
    cbn [hw log dst_data_flag Cy_SysLib_Delay scripted].
    rewrite Z.eqb_refl. reflexivity.
  - inversion Hf as [| ? ? Hs Hf']; subst.
    cbn [retry_loop app]. unfold bind at 1. rewrite call_reply.
    cbn [next_reply rtc_replies keys fst snd].
    unfold bind at 1. unfold syslib_delay at 1. unfold record_call.
    cbn [hw log dst_data_flag Cy_SysLib_Delay scripted].
    assert (Hdec : to_uint32 (attempts - 1) = attempts - 1).
    { unfold to_uint32. apply Z.mod_small. lia. }
    rewrite Hdec.
    replace (s =? CY_RTC_SUCCESS) with false by (symmetry; now apply Z.eqb_neq).
    replace (attempts - 1 =? 0) with false by (symmetry; apply Z.eqb_neq; lia).
    cbn [negb andb].
    rewrite (IH n (attempts - 1)) by (assumption || lia).
    cbn [rev]. change (CY_RTC_SUCCESS :: rev fails ++ [s])
      with ((CY_RTC_SUCCESS :: rev fails) ++ [s]).
    rewrite attempt_log_snoc, <- app_assoc. reflexivity.
Qed.

(** As many failing replies as there are attempts: one call for each,
    and the loop returns the last status. *)
Lemma retry_loop_exhausted (fails : list Z) : forall n attempts s ks rr lg fl,
  Forall (fun s => s <> CY_RTC_SUCCESS) (s :: fails) ->
  Z.of_nat (S (length fails)) = attempts -> attempts < 2 ^ 32 ->
  (length fails < n)%nat ->
  retry_loop call n attempts (Machine (Script ks (rev (s :: fails) ++ rr)) lg fl)
  = Done s (Machine (Script ks rr) (attempt_log ev (s :: fails) ++ lg) fl).
Proof.
  induction fails as [| s' fails IH] using rev_ind;
    intros n attempts s ks rr lg fl Hf Ha Hmax Hn;
    (destruct n as [| n]; [lia |]).
  - cbn [length] in Ha. subst attempts.
    inversion Hf as [| ? ? Hs _]; subst.
    cbn [retry_loop rev app]. unfold bind at 1. rewrite call_reply.
    cbn [next_reply rtc_replies keys fst snd].
    unfold bind, syslib_delay, record_call, ret.
    cbn [hw log dst_data_flag Cy_SysLib_Delay scripted].
    change (to_uint32 (Z.of_nat 1 - 1) =? 0) with true.
    rewrite andb_false_r. reflexivity.
  - rewrite length_app in *. cbn [length] in *.
    assert (Hf1 : Forall (fun x => x <> CY_RTC_SUCCESS) (s :: fails)).
    { inversion Hf as [| ? ? Hs Hrest]; subst. constructor; [exact Hs |].
      apply Forall_app in Hrest. apply Hrest. }
    assert (Hs' : s' <> CY_RTC_SUCCESS).
    { inversion Hf as [| ? ? _ Hrest]; subst.
      apply Forall_app in Hrest. destruct Hrest as [_ Hl].
      now inversion Hl. }
    change (s :: fails ++ [s']) with ((s :: fails) ++ [s']).
    rewrite rev_app_distr. cbn [rev app].
    cbn [retry_loop]. unfold bind at 1. rewrite call_reply.
    cbn [next_reply rtc_replies keys fst snd].
    unfold bind at 1. unfold syslib_delay at 1. unfold record_call.
    cbn [hw log dst_data_flag Cy_SysLib_Delay scripted].
    assert (Hdec : to_uint32 (attempts - 1) = attempts - 1).
    { unfold to_uint32. apply Z.mod_small. lia. }
    rewrite Hdec.
    replace (s' =? CY_RTC_SUCCESS) with false by (symmetry; now apply Z.eqb_neq).
    replace (attempts - 1 =? 0) with false by (symmetry; apply Z.eqb_neq; lia).
    cbn [negb andb].
    change (rev fails ++ [s]) with (rev fails ++ [s]).
    replace ((rev fails ++ [s]) ++ rr) with (rev (s :: fails) ++ rr) by reflexivity.
    rewrite (IH n (attempts - 1) s) by (assumption || lia).
    change (s :: fails ++ [s']) with ((s :: fails) ++ [s']).
    rewrite attempt_log_snoc, <- app_assoc. reflexivity.
Qed.
End ScriptedRetry.

(** ** rtc_init and set_new_time in the scripted environment *)

Lemma rtc_init_call_reply ks rr lg fl :
  rtc_init_call (Machine (Script ks rr) lg fl)
  = Done (next_reply (Script ks rr)).1
      (Machine (next_reply (Script ks rr)).2
         (RtcInit (next_reply (Script ks rr)).1 :: lg) fl).
Proof. reflexivity. Qed.

Lemma rtc_set_date_and_time_direct_reply sec min hour date month year ks rr lg fl :
  rtc_set_date_and_time_direct sec min hour date month year
    (Machine (Script ks rr) lg fl)
  = Done (next_reply (Script ks rr)).1
      (Machine (next_reply (Script ks rr)).2
         (RtcSetDateAndTimeDirect sec min hour date month year
            (next_reply (Script ks rr)).1 :: lg) fl).
Proof. reflexivity. Qed.

(** A list of [MAX_ATTEMPTS] statuses has a last one. *)
Lemma rev_last_status (fails : list Z) :
  length fails = Z.to_nat MAX_ATTEMPTS ->
  exists s older, rev fails = s :: older /\ fails = rev (s :: older) /\
                  length older = (Z.to_nat MAX_ATTEMPTS - 1)%nat.
Proof.
  intros Hlen. destruct (rev fails) as [| s older] eqn:E.
  - apply (f_equal length) in E. rewrite length_rev, Hlen in E.
    vm_compute in E. discriminate.
  - exists s, older. split; [reflexivity |]. split.
    + rewrite <- E, rev_involutive. reflexivity.
    + apply (f_equal length) in E. rewrite length_rev, Hlen in E.
      cbn [length] in E. lia.
Qed.

(** The bring-up: success after the failures [fails], or
    [MAX_ATTEMPTS] failures. *)
Lemma rtc_init_until_success fuel fails ks rr lg fl :
  Forall (fun s => s <> CY_RTC_SUCCESS) fails ->
  (length fails < Z.to_nat MAX_ATTEMPTS)%nat -> (Z.to_nat MAX_ATTEMPTS <= fuel)%nat ->
  rtc_init fuel (Machine (Script ks (fails ++ CY_RTC_SUCCESS :: rr)) lg fl)
  = Done CY_RTC_SUCCESS
      (Machine (Script ks rr)
         (attempt_log RtcInit (CY_RTC_SUCCESS :: rev fails) ++ lg) fl).
Proof.
  intros Hf Hlen Hfuel. unfold rtc_init.
  apply (retry_loop_until_success rtc_init_call RtcInit rtc_init_call_reply);
    [assumption | unfold MAX_ATTEMPTS in *; lia | lia].
Qed.

Lemma rtc_init_exhausted fuel fails ks rr lg fl :
  Forall (fun s => s <> CY_RTC_SUCCESS) fails ->
  length fails = Z.to_nat MAX_ATTEMPTS -> (Z.to_nat MAX_ATTEMPTS <= fuel)%nat ->
  exists s,
    last fails = Some s /\ s <> CY_RTC_SUCCESS /\
    rtc_init fuel (Machine (Script ks (fails ++ rr)) lg fl)
    = Done s (Machine (Script ks rr) (attempt_log RtcInit (rev fails) ++ lg) fl).
Proof.
  intros Hf Hlen Hfuel.
  destruct (rev_last_status fails Hlen) as (s & older & Hrev & Hfails & Holder).
  assert (Hf' : Forall (fun s => s <> CY_RTC_SUCCESS) (s :: older)).
  { rewrite <- Hrev. apply Forall_rev. exact Hf. }
  exists s. split.
  { rewrite Hfails. cbn [rev]. apply last_snoc. }
  split; [now inversion Hf' |].
  rewrite Hrev. rewrite Hfails at 1. unfold rtc_init.
  apply (retry_loop_exhausted rtc_init_call RtcInit rtc_init_call_reply);
    [assumption | unfold MAX_ATTEMPTS in *; lia | unfold MAX_ATTEMPTS; lia
     | unfold MAX_ATTEMPTS in *; lia].
Qed.

(** [set_new_time] up to the retry loop, on a complete entry with five
    blanks. *)
Lemma set_new_time_entry fuel uninit timeout_ms data t rest rr lg fl :
  Forall plain data -> (length data < Z.to_nat STRING_BUFFER_SIZE)%nat ->
  t = LF \/ t = CR ->
  UART_TIMEOUT_MS * (Z.of_nat (length data) + 1) < timeout_ms < 2 ^ 32 ->
  enough_fuel fuel timeout_ms ->
  count_spaces data = MIN_SPACE_KEY_COUNT ->
  set_new_time fuel uninit timeout_ms (Machine (Script (data ++ t :: rest) rr) lg fl)
  = (rslt <- retry_loop
               (rtc_set_date_and_time_direct
                  (to_uint32 (Scan.sec (sscanf (c_string data) uninit)))
                  (to_uint32 (Scan.min (sscanf (c_string data) uninit)))
                  (to_uint32 (Scan.hour (sscanf (c_string data) uninit)))
                  (to_uint32 (Scan.mday (sscanf (c_string data) uninit)))
                  (to_uint32 (Scan.month (sscanf (c_string data) uninit)))
                  (to_uint32 (Scan.year (sscanf (c_string data) uninit))))
               fuel MAX_ATTEMPTS ;;
     uart_put_string MsgRtcTimeUpdated ;;
     if negb (CY_RTC_SUCCESS =? rslt) then
       uart_put_string MsgInvalidValues ;; handle_error
     else ret tt)
      (Machine (Script rest rr)
         (UartPutString MsgNewline :: UartGet t
            :: typed_log data (UartPutString MsgEnterTime :: lg)) fl).
Proof.
  intros Hp Hlen Ht Hto Hf Hcount.
  assert (Hrange : 0 <= timeout_ms < 2 ^ 32) by (unfold UART_TIMEOUT_MS in Hto; lia).
  assert (Hq : (length data < fuel)%nat).
  { pose proof (fetch_ready_passes fuel zero_buffer timeout_ms
                  (Z.of_nat (length data) + 1)
                  (enough_fuel_fetch_ready fuel timeout_ms Hrange Hf) ltac:(lia) (proj1 Hto)).
    lia. }
  destruct (fetch_typed_line fuel zero_buffer timeout_ms data t rest rr
              (UartPutString MsgEnterTime :: lg) fl Hp Hlen Ht eq_refl Hto Hq)
    as (f & Hrun & Hline & Hsc & Hr).
  pose proof (fetch_typed_c_string fuel timeout_ms _ _ f data (proj1 (proj2 Hf))
                Hrun Hline Hlen) as Hstr.
  unfold set_new_time. unfold bind at 1. unfold uart_put_string at 1.
  unfold record_call at 1. cbn [hw log dst_data_flag Cy_SCB_UART_PutString scripted].
  unfold bind at 1. rewrite Hrun, Hr, Hsc, Hstr.
  cbn [received]. change (negb (CY_RSLT_SUCCESS =? CY_SCB_UART_RX_NO_DATA)) with true.
  rewrite Hcount, Z.eqb_refl. reflexivity.
Qed.

Lemma set_new_time_until_success fuel uninit timeout_ms data t rest fails rr lg fl :
  Forall plain data -> (length data < Z.to_nat STRING_BUFFER_SIZE)%nat ->
  t = LF \/ t = CR ->
  UART_TIMEOUT_MS * (Z.of_nat (length data) + 1) < timeout_ms < 2 ^ 32 ->
  enough_fuel fuel timeout_ms ->
  count_spaces data = MIN_SPACE_KEY_COUNT ->
  Forall (fun s => s <> CY_RTC_SUCCESS) fails ->
  (length fails < Z.to_nat MAX_ATTEMPTS)%nat ->
  let v := sscanf (c_string data) uninit in
  set_new_time fuel uninit timeout_ms
    (Machine (Script (data ++ t :: rest) (fails ++ CY_RTC_SUCCESS :: rr)) lg fl)
  = Done tt
      (Machine (Script rest rr)
         (UartPutString MsgRtcTimeUpdated
            :: attempt_log
                 (RtcSetDateAndTimeDirect
                    (to_uint32 (Scan.sec v)) (to_uint32 (Scan.min v))
                    (to_uint32 (Scan.hour v)) (to_uint32 (Scan.mday v))
                    (to_uint32 (Scan.month v)) (to_uint32 (Scan.year v)))
                 (CY_RTC_SUCCESS :: rev fails)
            ++ UartPutString MsgNewline :: UartGet t
            :: typed_log data (UartPutString MsgEnterTime :: lg)) fl).
Proof.
  intros Hp Hlen Ht Hto Hf Hcount Hfails Hn v.
  rewrite set_new_time_entry by assumption. fold v.
  unfold bind at 1.
  rewrite (retry_loop_until_success _ _
             (rtc_set_date_and_time_direct_reply _ _ _ _ _ _));
    [| assumption | unfold MAX_ATTEMPTS in *; lia
     | destruct Hf as (_ & _ & Hf3); lia].
  reflexivity.
Qed.

Lemma set_new_time_exhausted fuel uninit timeout_ms data t rest fails rr lg fl :
  Forall plain data -> (length data < Z.to_nat STRING_BUFFER_SIZE)%nat ->
  t = LF \/ t = CR ->
  UART_TIMEOUT_MS * (Z.of_nat (length data) + 1) < timeout_ms < 2 ^ 32 ->
  enough_fuel fuel timeout_ms ->
  count_spaces data = MIN_SPACE_KEY_COUNT ->
  Forall (fun s => s <> CY_RTC_SUCCESS) fails ->
  length fails = Z.to_nat MAX_ATTEMPTS ->
  let v := sscanf (c_string data) uninit in
  set_new_time fuel uninit timeout_ms
    (Machine (Script (data ++ t :: rest) (fails ++ rr)) lg fl)
  = Halted
      (Machine (Script rest rr)
         (HandleError :: UartPutString MsgInvalidValues
            :: UartPutString MsgRtcTimeUpdated
            :: attempt_log
                 (RtcSetDateAndTimeDirect
                    (to_uint32 (Scan.sec v)) (to_uint32 (Scan.min v))
                    (to_uint32 (Scan.hour v)) (to_uint32 (Scan.mday v))
                    (to_uint32 (Scan.month v)) (to_uint32 (Scan.year v)))
                 (rev fails)
            ++ UartPutString MsgNewline :: UartGet t
            :: typed_log data (UartPutString MsgEnterTime :: lg)) fl).
Proof.
  intros Hp Hlen Ht Hto Hf Hcount Hfails Hn v.
  rewrite set_new_time_entry by assumption. fold v.
  destruct (rev_last_status fails Hn) as (s & older & Hrev & Hfs & Holder).
  assert (Hf' : Forall (fun s => s <> CY_RTC_SUCCESS) (s :: older)).
  { rewrite <- Hrev. apply Forall_rev. exact Hfails. }
  rewrite Hrev. rewrite Hfs at 1.
  unfold bind at 1.
  rewrite (retry_loop_exhausted _ _
             (rtc_set_date_and_time_direct_reply _ _ _ _ _ _));
    [| assumption | unfold MAX_ATTEMPTS in *; lia | unfold MAX_ATTEMPTS; lia
     | destruct Hf as (_ & _ & Hf3); unfold MAX_ATTEMPTS in *; lia].
  assert (Hs : (CY_RTC_SUCCESS =? s) = false).
  { apply Z.eqb_neq. inversion Hf'. congruence. }
  unfold bind, uart_put_string, handle_error, record_call.
  cbn [hw log dst_data_flag Cy_SCB_UART_PutString scripted].
  rewrite Hs. reflexivity.
Qed.

(** ** The calls into the RTC driver in a log *)

Lemma rtc_calls_app (l1 l2 : list event) :
  rtc_calls (l1 ++ l2) = rtc_calls l1 ++ rtc_calls l2.
Proof.
  induction l1 as [| e l1 IH]; [reflexivity |].
  cbn [app rtc_calls]. destruct (rtc_call e); cbn [app]; now rewrite IH.
Qed.

Lemma rtc_calls_idle lg lg' : idle lg lg' -> rtc_calls lg' = rtc_calls lg.
Proof.
  intros (new & -> & Hn). rewrite rtc_calls_app.
  replace (rtc_calls new) with (@nil event); [reflexivity |].
  induction new as [| e new IH]; [reflexivity |].
  cbn [forallb] in Hn. apply andb_prop in Hn as [He Hn].
  destruct e; try discriminate; cbn [rtc_calls rtc_call]; now apply IH.
Qed.

Lemma rtc_calls_typed_log (data : list Z) : forall lg,
  rtc_calls (typed_log data lg) = rtc_calls lg.
Proof.
  induction data as [| k data IH]; intros lg; [reflexivity |].
  cbn [typed_log]. now rewrite IH.
Qed.

Lemma rtc_calls_dst_menu_log fl lg :
  rtc_calls (dst_menu_log fl lg)
  = (if DST_ENABLED_FLAG =? fl then [RtcGetDstStatus false] else []) ++ rtc_calls lg.
Proof. unfold dst_menu_log. now destruct (DST_ENABLED_FLAG =? fl). Qed.

(** ** Silence at a prompt, with the log *)

Lemma fetch_typed_then_silent_log fuel buffer timeout_ms data rr lg fl :
  fetch_ready fuel buffer timeout_ms ->
  Forall plain data -> (length data < Z.to_nat STRING_BUFFER_SIZE)%nat ->
  UART_TIMEOUT_MS * Z.of_nat (length data) < timeout_ms ->
  exists l lg1,
    fetch_time_data fuel buffer timeout_ms (Machine (Script data rr) lg fl)
    = Done l (Machine (Script [] rr) (UartPutString MsgNewline :: lg1) fl) /\
    idle (typed_log data lg) lg1 /\
    Fetch.rslt l = Some CY_SCB_UART_RX_NO_DATA.
Proof.
  intros (Hbuf & Hto & Hf1 & Hf2) Hp Hlen Hb.
  unfold STRING_BUFFER_SIZE, UART_TIMEOUT_MS in *.
  assert (Hq : Z.of_nat (length data) <= timeout_ms / 10)
    by (apply Z.div_le_lower_bound; lia).
  destruct (fetch_loop_typed fuel data (fuel - length data)
              (Fetch.Locals buffer 0 0 0 timeout_ms None O) [] rr lg fl Hp)
    as (l1 & Hrun & Q1 & Q2 & Q3 & Q4 & Q5 & _ & _);
    unfold STRING_BUFFER_SIZE, UART_TIMEOUT_MS;
    cbn [Fetch.index Fetch.buffer Fetch.space_count Fetch.timeout_ms];
    try lia.
  replace (length data + (fuel - length data))%nat with fuel in Hrun by lia.
  rewrite app_nil_r in Hrun.
  cbn [Fetch.index Fetch.buffer Fetch.space_count Fetch.timeout_ms] in *.
  unfold UART_TIMEOUT_MS in *.
  destruct (fetch_loop_silent fuel (fuel - length data) l1 rr (typed_log data lg) fl)
    as (l & lg1 & Hrun2 & Hidle & R1 & R2 & R3 & R4);
    unfold STRING_BUFFER_SIZE, UART_TIMEOUT_MS; try lia.
  { rewrite Q4.
    replace (timeout_ms - 10 * Z.of_nat (length data))
      with (timeout_ms + (- Z.of_nat (length data)) * 10) by lia.
    rewrite Z.div_add by lia. lia. }
  unfold fetch_time_data, bind. rewrite Hrun, Hrun2.
  unfold uart_put_string, record_call, ret.
  cbn [hw log dst_data_flag Cy_SCB_UART_PutString scripted].
  exists l, lg1. auto.
Qed.

Lemma set_dst_feature_silent_log fuel timeout_ms rr lg fl :
  0 < timeout_ms < 2 ^ 32 -> enough_fuel fuel timeout_ms ->
  exists lg1,
    set_dst_feature fuel timeout_ms (Machine (Script [] rr) lg fl)
    = Done tt (Machine (Script [] rr) (UartPutString MsgTimeout :: lg1) fl) /\
    idle (dst_menu_log fl lg) lg1.
Proof.
  intros Ht Hf. rewrite set_dst_feature_menu.
  destruct (user_uart_getc_silent fuel 0 timeout_ms rr (dst_menu_log fl lg) fl Ht
              (proj1 Hf)) as (lg1 & Hg & Hidle).
  unfold bind. rewrite Hg. unfold dst_dispatch. cbn [fst snd].
  rewrite Z.eqb_refl. cbn [negb].
  unfold uart_put_string, record_call.
  cbn [hw log dst_data_flag Cy_SCB_UART_PutString scripted].
  exists lg1. auto.
Qed.

Lemma enable_dst_format_silent_log fuel timeout_ms rr lg fl :
  0 < timeout_ms < 2 ^ 32 -> enough_fuel fuel timeout_ms ->
  exists lg1,
    enable_dst fuel timeout_ms (Machine (Script [] rr) lg fl)
    = Done tt (Machine (Script [] rr) (UartPutString MsgTimeout :: lg1) fl) /\
    idle (UartPutString MsgDstFormatMenu :: lg) lg1.
Proof.
  intros Ht Hf. unfold enable_dst. unfold bind at 1. unfold uart_put_string at 1.
  unfold record_call at 1. cbn [hw log dst_data_flag Cy_SCB_UART_PutString scripted].
  destruct (user_uart_getc_silent fuel 0 timeout_ms rr
              (UartPutString MsgDstFormatMenu :: lg) fl Ht (proj1 Hf))
    as (lg1 & Hg & Hidle).
  unfold bind. rewrite Hg. cbn [fst snd]. rewrite Z.eqb_refl. cbn [negb].
  unfold uart_put_string, record_call.
  cbn [hw log dst_data_flag Cy_SCB_UART_PutString scripted].
  exists lg1. auto.
Qed.

Lemma enable_dst_start_silent_log fuel timeout_ms fmt data rr lg fl :
  0 <= fmt < 256 ->
  Forall plain data -> (length data < Z.to_nat STRING_BUFFER_SIZE)%nat ->
  UART_TIMEOUT_MS * Z.of_nat (length data) < timeout_ms < 2 ^ 32 ->
  enough_fuel fuel timeout_ms ->
  fl <> DST_VALID_START_TIME_FLAG -> fl <> DST_VALID_END_TIME_FLAG ->
  exists lg1,
    enable_dst fuel timeout_ms (Machine (Script (fmt :: data) rr) lg fl)
    = Done tt (Machine (Script [] rr)
                 (UartPutString MsgTimeout :: UartPutString MsgNewline :: lg1) fl) /\
    idle (typed_log data (UartPutString MsgEnterDstStart :: UartGet fmt
                            :: UartPutString MsgDstFormatMenu :: lg)) lg1.
Proof.
  intros Hfmt Hp Hlen Hto Hf H1 H2.
  assert (Hrange : 0 <= timeout_ms < 2 ^ 32) by (unfold UART_TIMEOUT_MS in Hto; lia).
  unfold enable_dst. unfold bind at 1. unfold uart_put_string at 1.
  unfold bind at 1. unfold record_call at 1.
  cbn [hw log dst_data_flag Cy_SCB_UART_PutString scripted].
  rewrite user_uart_getc_key by assumption. cbn [fst snd].
  change (CY_RSLT_SUCCESS =? CY_SCB_UART_RX_NO_DATA) with false. cbn [negb].
  unfold bind at 1. unfold enter_dst_start.
  unfold bind at 1. unfold uart_put_string at 1. unfold record_call at 1.
  cbn [hw log dst_data_flag Cy_SCB_UART_PutString scripted].
  destruct (fetch_typed_then_silent_log fuel zero_buffer timeout_ms data rr
              (UartPutString MsgEnterDstStart :: UartGet fmt
                 :: UartPutString MsgDstFormatMenu :: lg) fl
              (enough_fuel_fetch_ready fuel timeout_ms Hrange Hf) Hp Hlen (proj1 Hto))
    as (f & lg1 & Hrun & Hidle & Hr).
  unfold bind at 1. rewrite Hrun. rewrite Hr.
  cbn [received]. rewrite Z.eqb_refl. cbn [negb].
  unfold bind at 1. unfold uart_put_string at 1. unfold record_call at 1.
  cbn [hw log dst_data_flag Cy_SCB_UART_PutString scripted]. unfold ret at 1.
  rewrite (enable_dst_rest_terminal _ (Machine _ _ fl)) by assumption.
  exists lg1. auto.
Qed.

(** * The properties of the specification *)

(** ** Calendar validation *)

(** C4. For fields in range and a non-negative year the specification
    has the validator accept exactly the days 1 .. days_in_month.  The
    code accepts day -1 of January 2024: line 737 compares [mday] with the
    unsigned constant [0U], which turns a negative day into a large
    positive one, and the signed comparison with the month length then
    holds as well.  Typed as a DST start time, the entry is accepted and
    the day -1 is written to the hardware. *)
Theorem validate_date_time_accepts_negative_day :
  in_domain 0 0 0 1 2024 /\
  validate_date_time 0 0 0 (-1) 1 2024 = Some true /\
  ~ validate_spec (-1) 1 2024 /\
  (exists m',
      set_dst_feature run_fuel INPUT_TIMEOUT_MS
        (power_on (Script session_negative_day [])) = Done tt m' /\
      enable_dst_calls (log m')
      = [ {| startDst := Some {| format := CY_RTC_DST_FIXED; hour := 0;
                                 dayOfMonth := -1; weekOfMonth := 1;
                                 dayOfWeek := 1; month := 1 |};
             stopDst := Some {| format := CY_RTC_DST_FIXED; hour := 0;
                                dayOfMonth := 1; weekOfMonth := 1;
                                dayOfWeek := 1; month := 2 |} |} ]).
Proof.
  split; [unfold in_domain; lia |]. split; [reflexivity |].
  split; [unfold validate_spec; lia |].
  eexists. split; vm_compute; reflexivity.
Qed.

(** C9. The validator is total and reads its table only at an index in
    0 .. 11, but it does not answer false on every out-of-domain input:
    for day -30 of April 1999 it answers true. *)
Theorem validate_date_time_total_but_accepts_out_of_domain :
  (forall sec min hour mday month year,
      exists b, validate_date_time sec min hour mday month year = Some b) /\
  (forall sec min hour month year,
      range_checks sec min hour month year = false \/
      0 <= days_in_month_index month <= 11) /\
  validate_date_time 59 59 23 (-30) 4 1999 = Some true.
Proof.
  split; [apply validate_date_time_total |]. split; [| reflexivity].
  intros sec min hour month year.
  destruct (range_checks sec min hour month year) eqn:E; [right | now left].
  eapply days_in_month_index_guarded; eassumption.
Qed.

(** ** The DST descriptor *)

(** C5. With the fixed format the descriptor has day of week 1, week of
    month 1 and the entered day as day of month; with the relative
    format it has day of month 1, and day of week and week of month are
    both the value of the day-of-week conversion of (day, month, year).
    The two sessions show the descriptors that reach the hardware when
    the flow is run with format 1 and with format 2 on the start time
    03 15 10 00 00 24 and the end time 11 01 10 00 00 24. *)
Theorem build_dst_fixed_and_relative (Env : Type) (P : PDL Env) (v : Scan.vars) :
  (format (build_dst FIXED_DST_FORMAT v) = CY_RTC_DST_FIXED /\
   dayOfWeek (build_dst FIXED_DST_FORMAT v) = 1 /\
   weekOfMonth (build_dst FIXED_DST_FORMAT v) = 1 /\
   dayOfMonth (build_dst FIXED_DST_FORMAT v) = Scan.mday v) /\
  (format (build_dst RELATIVE_DST_FORMAT v) = CY_RTC_DST_RELATIVE /\
   dayOfMonth (build_dst RELATIVE_DST_FORMAT v) = 1 /\
   dayOfWeek (build_dst RELATIVE_DST_FORMAT v)
   = Cy_RTC_ConvertDayOfWeek (Scan.mday v) (Scan.month v) (Scan.year v) /\
   weekOfMonth (build_dst RELATIVE_DST_FORMAT v)
   = dayOfWeek (build_dst RELATIVE_DST_FORMAT v)) /\
  (exists m',
      set_dst_feature run_fuel INPUT_TIMEOUT_MS
        (power_on (Script (session_enable FIXED_DST_FORMAT) [])) = Done tt m' /\
      enable_dst_calls (log m')
      = [ {| startDst := Some {| format := CY_RTC_DST_FIXED; hour := 10;
                                 dayOfMonth := 15; weekOfMonth := 1;
                                 dayOfWeek := 1; month := 3 |};
             stopDst := Some {| format := CY_RTC_DST_FIXED; hour := 10;
                                dayOfMonth := 1; weekOfMonth := 1;
                                dayOfWeek := 1; month := 11 |} |} ]) /\
  (exists m',
      set_dst_feature run_fuel INPUT_TIMEOUT_MS
        (power_on (Script (session_enable RELATIVE_DST_FORMAT) [])) = Done tt m' /\
      enable_dst_calls (log m')
      = [ {| startDst := Some {| format := CY_RTC_DST_RELATIVE; hour := 10;
                                 dayOfMonth := 1; weekOfMonth := zeller 15 3 24;
                                 dayOfWeek := zeller 15 3 24; month := 3 |};
             stopDst := Some {| format := CY_RTC_DST_RELATIVE; hour := 10;
                                dayOfMonth := 1; weekOfMonth := zeller 1 11 24;
                                dayOfWeek := zeller 1 11 24; month := 11 |} |} ]).
Proof.
  split; [repeat split |]. split; [repeat split |].
  split; (eexists; split; [vm_compute; reflexivity | vm_compute; reflexivity]).
Qed.

(** ** The line collector *)

(** C6. In every environment the collector reads bytes up to the first
    line terminator and no further.  The bytes received are the line
    followed by the terminator, if one came; the line holds them in the
    order of arrival, has no terminator in it and at most 80 bytes, and
    when it has 80 nothing more was read; the status after a terminator
    is success; the delimiter count is the number of blanks in the
    line.  When fewer than 80 bytes are typed without pause and then a
    terminator, the line is exactly what was typed; the entry
    03 15 10 30 00 24 gives that line, five delimiters and success. *)
Theorem fetch_time_data_collects_line
    (Env : Type) (P : PDL Env) (m : machine Env)
    (fuel : nat) (buffer : list Z) (timeout_ms : Z) :
  fetch_ready fuel buffer timeout_ms ->
  (exists l m' tail,
      fetch_time_data fuel buffer timeout_ms m = Done l m' /\
      rx_bytes (log m') = rx_bytes (log m) ++ Fetch.line l ++ tail /\
      Forall plain (Fetch.line l) /\
      (tail = [] \/
       exists t, tail = [t] /\ is_terminator t = true /\
                 Fetch.rslt l = Some CY_RSLT_SUCCESS) /\
      (length (Fetch.line l) <= Z.to_nat STRING_BUFFER_SIZE)%nat /\
      (length (Fetch.line l) = Z.to_nat STRING_BUFFER_SIZE -> tail = []) /\
      Fetch.space_count l = count_spaces (Fetch.line l)) /\
  (forall data t rest rr lg fl,
      Forall plain data -> (length data < Z.to_nat STRING_BUFFER_SIZE)%nat ->
      t = LF \/ t = CR ->
      UART_TIMEOUT_MS * (Z.of_nat (length data) + 1) < timeout_ms ->
      exists l lg',
        fetch_time_data fuel buffer timeout_ms
          (Machine (Script (data ++ t :: rest) rr) lg fl)
        = Done l (Machine (Script rest rr) lg' fl) /\
        Fetch.line l = data /\
        Fetch.space_count l = count_spaces data /\
        Fetch.rslt l = Some CY_RSLT_SUCCESS) /\
  (exists l m',
      fetch_time_data run_fuel zero_buffer INPUT_TIMEOUT_MS
        (power_on (Script (entry_march_15 ++ [LF]) []))
      = Done l m' /\
      Fetch.line l = entry_march_15 /\
      Fetch.space_count l = 5 /\
      Fetch.rslt l = Some CY_RSLT_SUCCESS).
Proof.
  intros Hready. split; [| split].
  - destruct Hready as (Hlen & Hto & Hf1 & Hf2).
    destruct (fetch_time_data_spec fuel buffer timeout_ms m Hlen Hto Hf1 Hf2)
      as (l & m' & Hrun & chars & tail & v & P1 & P2 & P3 & P4 & P5 & P6 & P7
          & P8 & P9 & P10 & P11 & P12 & P13 & P14 & P15 & P16).
    unfold Fetch.line in P2.
    cbn [Fetch.index Fetch.buffer Fetch.space_count] in *.
    change (take (Z.to_nat 0) buffer) with (@nil Z) in P2. cbn [app] in P2.
    exists l, m', tail. fold (Fetch.line l) in P2. rewrite P2.
    split; [exact Hrun |].
    split; [eapply console_rx_bytes; eassumption |].
    split; [exact P3 |].
    split.
    { destruct P4 as [-> | (t & -> & Ht)]; [now left | right].
      exists t. split; [reflexivity |]. split; [exact Ht |].
      rewrite P13, P15; [reflexivity | discriminate]. }
    unfold STRING_BUFFER_SIZE in *.
    split; [lia |]. split; [| lia].
    intros Hfull. apply P16. lia.
  - intros data t rest rr lg fl Hp Hlen Ht Hb.
    destruct (fetch_typed_line fuel buffer timeout_ms data t rest rr lg fl)
      as (l & Hrun & Hl); try assumption.
    + apply Hready.
    + destruct Hready as (_ & Hto & _). lia.
    + pose proof (fetch_ready_passes fuel buffer timeout_ms
                    (Z.of_nat (length data) + 1) Hready ltac:(lia) Hb). lia.
    + eauto.
  - eexists _, _. split; [vm_compute; reflexivity |].
    split; [vm_compute; reflexivity |]. split; reflexivity.
Qed.

Lemma fetch_time_data_collects_line_witness :
  fetch_ready 200 zero_buffer 1000 /\
  exists l m' tail,
    fetch_time_data 200 zero_buffer 1000
      (power_on (Script (entry_march_15 ++ [CR]) [])) = Done l m' /\
    rx_bytes (log m') = rx_bytes [] ++ Fetch.line l ++ tail /\
    Forall plain (Fetch.line l) /\
    (tail = [] \/
     exists t, tail = [t] /\ is_terminator t = true /\
               Fetch.rslt l = Some CY_RSLT_SUCCESS) /\
    (length (Fetch.line l) <= Z.to_nat STRING_BUFFER_SIZE)%nat /\
    (length (Fetch.line l) = Z.to_nat STRING_BUFFER_SIZE -> tail = []) /\
    Fetch.space_count l = count_spaces (Fetch.line l).
Proof.
  assert (Hready : fetch_ready 200 zero_buffer 1000).
  { unfold fetch_ready. split; [reflexivity |]. split; [lia |].
    split; [vm_compute; lia | vm_compute; lia]. }
  split; [exact Hready |].
  exact (proj1 (fetch_time_data_collects_line script scripted
                  (power_on (Script (entry_march_15 ++ [CR]) []))
                  200 zero_buffer 1000 Hready)).
Defined.

(** C7. The status is the timeout status exactly when the collector
    stopped with the remaining budget at or below the sub-timeout, no
    terminator received and fewer than 80 bytes stored.  When the buffer
    is full the line is the 80 bytes received and the status is not the
    timeout status; so when more than 80 plain bytes are typed without
    pause the line is the first 80 of them.  The boundary is at the
    sub-timeout itself: called with a budget at or below it, the
    collector returns the timeout status without a single poll; when the
    bytes typed leave a budget at or below it (exactly 10 ms included),
    the collector returns the timeout status and the next key, be it a
    terminator, stays unread; with any budget beyond that the terminator
    is read and the status is success. *)
Theorem fetch_time_data_timeout_status
    (Env : Type) (P : PDL Env) (m : machine Env)
    (fuel : nat) (buffer : list Z) (timeout_ms : Z) :
  fetch_ready fuel buffer timeout_ms ->
  (exists l m' bytes,
      fetch_time_data fuel buffer timeout_ms m = Done l m' /\
      rx_bytes (log m') = rx_bytes (log m) ++ bytes /\
      (Fetch.rslt l = Some CY_SCB_UART_RX_NO_DATA <->
       Fetch.timeout_ms l <= UART_TIMEOUT_MS /\
       Forall plain bytes /\
       Fetch.index l < STRING_BUFFER_SIZE) /\
      (Fetch.index l = STRING_BUFFER_SIZE ->
       Fetch.line l = bytes /\
       length bytes = Z.to_nat STRING_BUFFER_SIZE /\
       received (Fetch.rslt l) = true)) /\
  (forall data rest rr lg fl,
      Forall plain data -> (Z.to_nat STRING_BUFFER_SIZE < length data)%nat ->
      UART_TIMEOUT_MS * STRING_BUFFER_SIZE < timeout_ms ->
      exists l m',
        fetch_time_data fuel buffer timeout_ms
          (Machine (Script (data ++ rest) rr) lg fl) = Done l m' /\
        Fetch.line l = take (Z.to_nat STRING_BUFFER_SIZE) data /\
        length (Fetch.line l) = Z.to_nat STRING_BUFFER_SIZE /\
        received (Fetch.rslt l) = true) /\
  (timeout_ms <= UART_TIMEOUT_MS ->
   exists l,
     fetch_time_data fuel buffer timeout_ms m
     = Done l (Machine (Cy_SCB_UART_PutString MsgNewline (hw m))
                 (UartPutString MsgNewline :: log m) (dst_data_flag m)) /\
     Fetch.rslt l = Some CY_SCB_UART_RX_NO_DATA /\
     Fetch.line l = []) /\
  (forall data rest rr lg fl,
      Forall plain data -> (length data < Z.to_nat STRING_BUFFER_SIZE)%nat ->
      UART_TIMEOUT_MS * Z.of_nat (length data) < timeout_ms
      <= UART_TIMEOUT_MS * (Z.of_nat (length data) + 1) ->
      exists l,
        fetch_time_data fuel buffer timeout_ms
          (Machine (Script (data ++ rest) rr) lg fl)
        = Done l (Machine (Script rest rr)
                    (UartPutString MsgNewline :: typed_log data lg) fl) /\
        Fetch.line l = data /\
        Fetch.rslt l = Some CY_SCB_UART_RX_NO_DATA /\
        Fetch.timeout_ms l
        = timeout_ms - UART_TIMEOUT_MS * Z.of_nat (length data)) /\
  (forall data t rest rr lg fl,
      Forall plain data -> (length data < Z.to_nat STRING_BUFFER_SIZE)%nat ->
      t = LF \/ t = CR ->
      UART_TIMEOUT_MS * (Z.of_nat (length data) + 1) < timeout_ms ->
      exists l,
        fetch_time_data fuel buffer timeout_ms
          (Machine (Script (data ++ t :: rest) rr) lg fl)
        = Done l (Machine (Script rest rr)
                    (UartPutString MsgNewline :: UartGet t :: typed_log data lg) fl) /\
        Fetch.line l = data /\
        Fetch.rslt l = Some CY_RSLT_SUCCESS).
Proof.
  intros Hready. split; [| split; [| split; [| split]]].
  - destruct Hready as (Hlen & Hto & Hf1 & Hf2).
    destruct (fetch_time_data_spec fuel buffer timeout_ms m Hlen Hto Hf1 Hf2)
      as (l & m' & Hrun & chars & tail & v & P1 & P2 & P3 & P4 & P5 & P6 & P7
          & P8 & P9 & P10 & P11 & P12 & P13 & P14 & P15 & P16).
    unfold Fetch.line in P2.
    cbn [Fetch.index Fetch.buffer Fetch.space_count] in *.
    change (take (Z.to_nat 0) buffer) with (@nil Z) in P2. cbn [app] in P2.
    fold (Fetch.line l) in P2.
    exists l, m', (chars ++ tail).
    split; [exact Hrun |].
    split; [eapply console_rx_bytes; eassumption |].
    rewrite P13. split; [split |].
    + intros Hv. injection Hv as ->.
      destruct (proj1 P14 eq_refl) as [Hb Hi]. split; [exact Hb |].
      split; [| exact Hi].
      destruct P4 as [-> | (t & -> & _)]; [now rewrite app_nil_r |].
      specialize (P15 ltac:(discriminate)). discriminate.
    + intros (Hb & _ & Hi). f_equal. apply P14. now split.
    + intros Hfull. destruct (P16 Hfull) as [-> Hv].
      rewrite app_nil_r. split; [exact P2 |].
      unfold STRING_BUFFER_SIZE in *. split; [lia |].
      unfold received, CY_SCB_UART_RX_NO_DATA. destruct Hv as [-> | ->]; reflexivity.
  - intros data rest rr lg fl Hp Hlen Hb.
    destruct (fetch_typed_overflow fuel buffer timeout_ms data rest rr lg fl)
      as (l & Hrun & Hl & Hi & Hr); try assumption.
    + lia.
    + apply Hready.
    + destruct Hready as (_ & Hto & _). lia.
    + pose proof (fetch_ready_passes fuel buffer timeout_ms STRING_BUFFER_SIZE
                    Hready ltac:(unfold STRING_BUFFER_SIZE; lia) Hb). lia.
    + eexists l, _. split; [exact Hrun |]. split; [exact Hl |].
      split; [rewrite Hl, length_take; lia | now rewrite Hr].
  - intros Hout. destruct Hready as (_ & _ & Hf1 & _).
    rewrite fetch_time_data_no_budget by (assumption || lia).
    eexists. split; [reflexivity |]. split; reflexivity.
  - intros data rest rr lg fl Hp Hlen Hb.
    destruct (fetch_typed_budget_out fuel buffer timeout_ms data rest rr lg fl)
      as (l & Hrun & Hl & _ & Hr & Hleft); try assumption.
    + apply Hready.
    + destruct Hready as (_ & Hto & _). lia.
    + pose proof (fetch_ready_passes fuel buffer timeout_ms
                    (Z.of_nat (length data)) Hready ltac:(lia) (proj1 Hb)). lia.
    + exists l. auto.
  - intros data t rest rr lg fl Hp Hlen Ht Hb.
    destruct (fetch_typed_line fuel buffer timeout_ms data t rest rr lg fl)
      as (l & Hrun & Hl & _ & Hr); try assumption.
    + apply Hready.
    + destruct Hready as (_ & Hto & _). lia.
    + pose proof (fetch_ready_passes fuel buffer timeout_ms
                    (Z.of_nat (length data) + 1) Hready ltac:(lia) Hb). lia.
    + exists l. auto.
Qed.

Lemma fetch_time_data_timeout_status_witness :
  fetch_ready 200 zero_buffer 20 /\
  Forall plain [65] /\ (length [65] < Z.to_nat STRING_BUFFER_SIZE)%nat /\
  UART_TIMEOUT_MS * Z.of_nat (length [65]) < 20
  <= UART_TIMEOUT_MS * (Z.of_nat (length [65]) + 1) /\
  exists l,
    fetch_time_data 200 zero_buffer 20
      (Machine (Script ([65] ++ [CR]) []) [] DST_DISABLED_FLAG)
    = Done l (Machine (Script [CR] [])
                (UartPutString MsgNewline :: typed_log [65] []) DST_DISABLED_FLAG) /\
    Fetch.line l = [65] /\
    Fetch.rslt l = Some CY_SCB_UART_RX_NO_DATA /\
    Fetch.timeout_ms l = 20 - UART_TIMEOUT_MS * Z.of_nat (length [65]).
Proof.
  assert (Hready : fetch_ready 200 zero_buffer 20).
  { unfold fetch_ready. split; [reflexivity |]. split; [lia |].
    split; [vm_compute; lia | vm_compute; lia]. }
  assert (Hp : Forall plain [65]).
  { constructor; [split; [lia | reflexivity] | constructor]. }
  assert (Hlen : (length [65] < Z.to_nat STRING_BUFFER_SIZE)%nat) by (vm_compute; lia).
  assert (Hb : UART_TIMEOUT_MS * Z.of_nat (length [65]) < 20
               <= UART_TIMEOUT_MS * (Z.of_nat (length [65]) + 1))
    by (vm_compute; split; [reflexivity | discriminate]).
  split; [exact Hready |]. split; [exact Hp |]. split; [exact Hlen |].
  split; [exact Hb |].
  exact (proj1 (proj2 (proj2 (proj2
           (fetch_time_data_timeout_status script scripted
              (power_on (Script ([65] ++ [CR]) [])) 200 zero_buffer 20 Hready))))
           [65] [CR] [] [] DST_DISABLED_FLAG Hp Hlen Hb).
Defined.



(** ** Attempts and retries of the hardware calls *)

(** C8. With a timeout that is not 0 every call of the DST flow ends
    having called the DST write at most once, and a failed write is
    followed at once by [handle_error].  The RTC bring-up and the direct
    time-set call are attempted until the first success and at most
    [MAX_ATTEMPTS] = 500 times, each attempt followed by a delay of
    [INIT_DELAY_MS] = 5 ms, and [handle_error] is reached only after 500
    failed attempts.  That the calls are made is shown in the scripted
    environment.  When the driver fails with the statuses [fails] and
    then succeeds, fewer than 500 of them, the bring-up makes exactly one
    call for each failure and one more, then [main] goes on; so does
    [set_new_time] on an entry with five blanks, each call with the
    parsed fields.  When the driver fails 500 times, each of them makes
    exactly 500 calls and then halts in [handle_error].  A failed DST
    write at the end of the enable session halts the flow after that one
    call; a successful one returns after that one call. *)
Theorem hardware_call_attempts
    (Env : Type) (P : PDL Env) (m : machine Env)
    (fuel : nat) (timeout_ms : Z) (uninit : Scan.vars) :
  0 < timeout_ms < 2 ^ 32 -> enough_fuel fuel timeout_ms ->
  MAX_ATTEMPTS = 500 /\ INIT_DELAY_MS = 5 /\
  one_dst_write (set_dst_feature fuel timeout_ms m) m /\
  init_retried (rtc_init fuel m) (main_rtc_init fuel m) m /\
  set_time_retried (set_new_time fuel uninit timeout_ms m) m /\
  (forall fails ks rr lg fl,
      Forall (fun s => s <> CY_RTC_SUCCESS) fails ->
      ((length fails < Z.to_nat MAX_ATTEMPTS)%nat ->
       main_rtc_init fuel
         (Machine (Script ks (fails ++ CY_RTC_SUCCESS :: rr)) lg fl)
       = Done tt (Machine (Script ks rr)
                    (attempt_log RtcInit (CY_RTC_SUCCESS :: rev fails) ++ lg) fl)) /\
      (length fails = Z.to_nat MAX_ATTEMPTS ->
       main_rtc_init fuel (Machine (Script ks (fails ++ rr)) lg fl)
       = Halted (Machine (Script ks rr)
                   (HandleError :: attempt_log RtcInit (rev fails) ++ lg) fl))) /\
  (forall data t rest fails rr lg fl,
      Forall plain data -> (length data < Z.to_nat STRING_BUFFER_SIZE)%nat ->
      t = LF \/ t = CR ->
      UART_TIMEOUT_MS * (Z.of_nat (length data) + 1) < timeout_ms ->
      count_spaces data = MIN_SPACE_KEY_COUNT ->
      sscanf_in_range (c_string data) = true ->
      Forall (fun s => s <> CY_RTC_SUCCESS) fails ->
      let attempts := attempt_log (set_time_event (sscanf (c_string data) uninit)) in
      let entered :=
        UartPutString MsgNewline :: UartGet t
          :: typed_log data (UartPutString MsgEnterTime :: lg) in
      ((length fails < Z.to_nat MAX_ATTEMPTS)%nat ->
       set_new_time fuel uninit timeout_ms
         (Machine (Script (data ++ t :: rest) (fails ++ CY_RTC_SUCCESS :: rr)) lg fl)
       = Done tt (Machine (Script rest rr)
                    (UartPutString MsgRtcTimeUpdated
                       :: attempts (CY_RTC_SUCCESS :: rev fails) ++ entered) fl)) /\
      (length fails = Z.to_nat MAX_ATTEMPTS ->
       set_new_time fuel uninit timeout_ms
         (Machine (Script (data ++ t :: rest) (fails ++ rr)) lg fl)
       = Halted (Machine (Script rest rr)
                   (HandleError :: UartPutString MsgInvalidValues
                      :: UartPutString MsgRtcTimeUpdated
                      :: attempts (rev fails) ++ entered) fl))) /\
  (exists m' dst before,
      set_dst_feature run_fuel INPUT_TIMEOUT_MS
        (power_on (Script (session_enable FIXED_DST_FORMAT) [1])) = Halted m' /\
      log m' = HandleError :: RtcEnableDstTime dst 1 :: before /\
      rtc_calls before = []) /\
  (exists m' dst before,
      set_dst_feature run_fuel INPUT_TIMEOUT_MS
        (power_on (Script (session_enable FIXED_DST_FORMAT) [CY_RTC_SUCCESS; 1]))
      = Done tt m' /\
      log m' = UartPutString MsgDstTimeUpdated
                 :: RtcEnableDstTime dst CY_RTC_SUCCESS :: before /\
      rtc_calls before = [] /\
      rtc_replies (hw m') = [1]).
Proof.
  intros Ht Hf. split; [reflexivity |]. split; [reflexivity |].
  split; [now apply set_dst_feature_once |].
  split; [apply rtc_init_retried, Hf |].
  split; [apply set_new_time_retried; [lia | exact Hf] |].
  split; [| split; [| split]].
  - intros fails ks rr lg fl Hfails. destruct Hf as (_ & _ & Hf3). split; intros Hn.
    + unfold main_rtc_init, bind.
      rewrite rtc_init_until_success by assumption. reflexivity.
    + destruct (rtc_init_exhausted fuel fails ks rr lg fl Hfails Hn Hf3)
        as (s & _ & Hs & Hrun).
      unfold main_rtc_init, bind. rewrite Hrun.
      replace (s =? CY_RTC_SUCCESS) with false by (symmetry; now apply Z.eqb_neq).
      reflexivity.
  - intros data t rest fails rr lg fl Hp Hlen Hterm Hb Hcount _ Hfails
      attempts entered.
    split; intros Hn.
    + apply set_new_time_until_success; try assumption. lia.
    + apply set_new_time_exhausted; try assumption. lia.
  - eexists _, _, _. split; [vm_compute; reflexivity |].
    split; [reflexivity | vm_compute; reflexivity].
  - eexists _, _, _. split; [vm_compute; reflexivity |].
    split; [reflexivity |]. split; vm_compute; reflexivity.
Qed.

Lemma hardware_call_attempts_witness :
  0 < 1000 < 2 ^ 32 /\ enough_fuel 1100 1000 /\
  MAX_ATTEMPTS = 500 /\ INIT_DELAY_MS = 5 /\
  one_dst_write
    (set_dst_feature 1100 1000 (power_on (Script (entry_february_1 ++ [CR]) [1; 1])))
    (power_on (Script (entry_february_1 ++ [CR]) [1; 1])) /\
  init_retried
    (rtc_init 1100 (power_on (Script (entry_february_1 ++ [CR]) [1; 1])))
    (main_rtc_init 1100 (power_on (Script (entry_february_1 ++ [CR]) [1; 1])))
    (power_on (Script (entry_february_1 ++ [CR]) [1; 1])) /\
  set_time_retried
    (set_new_time 1100 (Scan.Vars 0 0 0 0 0 0) 1000
       (power_on (Script (entry_february_1 ++ [CR]) [1; 1])))
    (power_on (Script (entry_february_1 ++ [CR]) [1; 1])) /\
  main_rtc_init 1100
    (Machine (Script [] ([1; 1] ++ CY_RTC_SUCCESS :: [])) [] DST_DISABLED_FLAG)
  = Done tt (Machine (Script [] [])
               (attempt_log RtcInit (CY_RTC_SUCCESS :: rev [1; 1]) ++ [])
               DST_DISABLED_FLAG) /\
  set_new_time 1100 (Scan.Vars 0 0 0 0 0 0) 1000
    (Machine (Script (entry_february_1 ++ CR :: []) ([1; 1] ++ CY_RTC_SUCCESS :: []))
       [] DST_DISABLED_FLAG)
  = Done tt
      (Machine (Script [] [])
         (UartPutString MsgRtcTimeUpdated
            :: attempt_log
                 (set_time_event (sscanf (c_string entry_february_1)
                                    (Scan.Vars 0 0 0 0 0 0)))
                 (CY_RTC_SUCCESS :: rev [1; 1])
            ++ UartPutString MsgNewline :: UartGet CR
            :: typed_log entry_february_1 (UartPutString MsgEnterTime :: []))
         DST_DISABLED_FLAG).
Proof.
  assert (Ht : 0 < 1000 < 2 ^ 32) by lia.
  assert (Hf : enough_fuel 1100 1000).
  { unfold enough_fuel. repeat split; vm_compute; lia. }
  assert (Hfails : Forall (fun s => s <> CY_RTC_SUCCESS) [1; 1]).
  { repeat (constructor; [discriminate |]). constructor. }
  assert (Hn : (length [1; 1] < Z.to_nat MAX_ATTEMPTS)%nat) by (vm_compute; lia).
  assert (Hp : Forall plain entry_february_1).
  { change entry_february_1 with [50; 32; 49; 32; 49; 32; 49; 32; 49; 32; 49].
    repeat (constructor; [split; [lia | reflexivity] |]). constructor. }
  assert (Hlen : (length entry_february_1 < Z.to_nat STRING_BUFFER_SIZE)%nat)
    by (vm_compute; lia).
  assert (Hterm : CR = LF \/ CR = CR) by (right; reflexivity).
  assert (Hb : UART_TIMEOUT_MS * (Z.of_nat (length entry_february_1) + 1) < 1000)
    by (vm_compute; reflexivity).
  assert (Hc : count_spaces entry_february_1 = MIN_SPACE_KEY_COUNT) by reflexivity.
  assert (Hr : sscanf_in_range (c_string entry_february_1) = true) by reflexivity.
  split; [exact Ht |]. split; [exact Hf |].
  pose proof (hardware_call_attempts script scripted
                (power_on (Script (entry_february_1 ++ [CR]) [1; 1]))
                1100 1000 (Scan.Vars 0 0 0 0 0 0) Ht Hf)
    as (A1 & A2 & A3 & A4 & A5 & A6 & A7 & _).
  split; [exact A1 |]. split; [exact A2 |]. split; [exact A3 |].
  split; [exact A4 |]. split; [exact A5 |]. split.
  - exact (proj1 (A6 [1; 1] [] [] [] DST_DISABLED_FLAG Hfails) Hn).
  - exact (proj1 (A7 entry_february_1 CR [] [1; 1] [] [] DST_DISABLED_FLAG
                    Hp Hlen Hterm Hb Hc Hr Hfails) Hn).
Defined.

(** ** Where the flows depart from the specification *)

(** C1. [set_new_time] never calls the validator.  The entry
    13 32 25 61 61 24 has five blanks; the validator rejects its fields,
    yet the flow hands them to the time-set call and reports that the
    time was updated.  When the hardware refuses them, the flow repeats
    the call 500 times and halts in [handle_error]. *)
Theorem set_new_time_writes_unvalidated_fields (uninit : Scan.vars) :
  count_spaces entry_out_of_range = MIN_SPACE_KEY_COUNT /\
  validate_date_time 61 61 25 32 13 24 = Some false /\
  (exists m',
      set_new_time run_fuel uninit INPUT_TIMEOUT_MS
        (power_on (Script (entry_out_of_range ++ [CR]) [])) = Done tt m' /\
      set_time_calls (log m') = [[61; 61; 25; 32; 13; 24]] /\
      printed (log m') = [MsgEnterTime; MsgNewline; MsgRtcTimeUpdated]) /\
  (exists m',
      set_new_time run_fuel uninit INPUT_TIMEOUT_MS
        (power_on (Script (entry_out_of_range ++ [CR]) (repeat 1 500))) = Halted m' /\
      set_time_calls (log m') = repeat [61; 61; 25; 32; 13; 24] 500 /\
      printed (log m')
      = [MsgEnterTime; MsgNewline; MsgRtcTimeUpdated; MsgInvalidValues]).
Proof.
  split; [reflexivity |]. split; [reflexivity |].
  split; eexists; (split; [vm_compute; reflexivity |]);
    (split; vm_compute; reflexivity).
Qed.

(** C2. The flag [dst_data_flag] is a global that keeps the value
    [DST_VALID_START_TIME_FLAG] when the end time of a call is rejected.
    In the next call the start entry is rejected (the flow prints the
    invalid-values message), but the test of line 453 still finds the
    flag set: the flow asks for the end time, accepts it and calls the
    DST write with a start point that was not built in that call. *)
Theorem set_dst_feature_writes_unbuilt_start :
  exists m1 m2,
    set_dst_feature run_fuel INPUT_TIMEOUT_MS
      (power_on (Script (session_end_rejected ++ session_start_rejected) []))
    = Done tt m1 /\
    dst_data_flag m1 = DST_VALID_START_TIME_FLAG /\
    enable_dst_calls (log m1) = [] /\
    set_dst_feature run_fuel INPUT_TIMEOUT_MS (next_call m1) = Done tt m2 /\
    printed (log m2)
    = [MsgDstStatusDisabled; MsgDstMenu; MsgDstFormatMenu; MsgEnterDstStart;
       MsgNewline; MsgInvalidValues; MsgEnterDstEnd; MsgNewline;
       MsgDstTimeUpdated] /\
    enable_dst_calls (log m2)
    = [ {| startDst := None;
           stopDst := Some {| format := CY_RTC_DST_FIXED; hour := 10;
                              dayOfMonth := 1; weekOfMonth := 1;
                              dayOfWeek := 1; month := 11 |} |} ] /\
    dst_data_flag m2 = DST_ENABLED_FLAG.
Proof.
  eexists _, _. split; [vm_compute; reflexivity |].
  split; [reflexivity |]. split; [reflexivity |].
  split; [vm_compute; reflexivity |].
  split; [reflexivity |]. split; reflexivity.
Qed.

(** C3. A rejected end time leaves [dst_data_flag] at
    [DST_VALID_START_TIME_FLAG], which is neither the disabled nor the
    enabled state and is not the state the flow was entered in: from
    the disabled state after reset, and from the enabled state after a
    DST rule was written. *)
Theorem set_dst_feature_keeps_partial_state :
  (exists m',
      set_dst_feature run_fuel INPUT_TIMEOUT_MS
        (power_on (Script session_end_rejected [])) = Done tt m' /\
      dst_data_flag (power_on (Script session_end_rejected [])) = DST_DISABLED_FLAG /\
      last (printed (log m')) = Some MsgInvalidValues /\
      enable_dst_calls (log m') = [] /\
      dst_data_flag m' = DST_VALID_START_TIME_FLAG) /\
  (exists m1 m2,
      set_dst_feature run_fuel INPUT_TIMEOUT_MS
        (power_on (Script (session_enable FIXED_DST_FORMAT ++ session_end_rejected) []))
      = Done tt m1 /\
      dst_data_flag m1 = DST_ENABLED_FLAG /\
      set_dst_feature run_fuel INPUT_TIMEOUT_MS (next_call m1) = Done tt m2 /\
      last (printed (log m2)) = Some MsgInvalidValues /\
      enable_dst_calls (log m2) = [] /\
      dst_data_flag m2 = DST_VALID_START_TIME_FLAG) /\
  DST_VALID_START_TIME_FLAG <> DST_DISABLED_FLAG /\
  DST_VALID_START_TIME_FLAG <> DST_ENABLED_FLAG.
Proof.
  split; [| split; [| split; discriminate]].
  - eexists. split; [vm_compute; reflexivity |].
    repeat split; vm_compute; reflexivity.
  - eexists _, _. split; [vm_compute; reflexivity |].
    split; [reflexivity |]. split; [vm_compute; reflexivity |].
    repeat split; vm_compute; reflexivity.
Qed.

(** * Further properties of the code *)

(** Side conditions on concrete inputs. *)
Ltac plain_bytes :=
  repeat (constructor; [split; [lia | reflexivity] |]); constructor.

Ltac fuel_ok :=
  unfold enough_fuel, fetch_ready; repeat split;
  first [reflexivity | lia | vm_compute; lia].

(** ** user_uart_getc *)

(** X1. Called with a timeout [t] that is not 0, [user_uart_getc]
    returns.  It has polled the receiver between 1 and [t + 1] times,
    with one delay of [UART_GET_CHAR_DELAY] = 1 ms between two polls and
    nothing else, and it stopped at the first word that is not
    [CY_SCB_UART_RX_NO_DATA].  It reports the timeout exactly when all
    [t + 1] polls found the receiver empty, and then leaves [*value] as
    it was; otherwise it reports success and [*value] is the low eight
    bits of the word received.  [dst_data_flag] is not written. *)
Theorem user_uart_getc_timeout_polls
    (Env : Type) (P : PDL Env) (m : machine Env)
    (fuel : nat) (value timeout : Z) :
  0 < timeout < 2 ^ 32 -> (Z.to_nat timeout < fuel)%nat ->
  exists w words rslt value' m',
    user_uart_getc fuel value timeout m = Done (rslt, value') m' /\
    log m' = poll_log (w :: words) ++ log m /\
    dst_data_flag m' = dst_data_flag m /\
    Forall (fun x => x = CY_SCB_UART_RX_NO_DATA) words /\
    (length words <= Z.to_nat timeout)%nat /\
    ((w = CY_SCB_UART_RX_NO_DATA /\ length words = Z.to_nat timeout /\
      rslt = CY_SCB_UART_RX_NO_DATA /\ value' = value) \/
     (w <> CY_SCB_UART_RX_NO_DATA /\
      rslt = CY_RSLT_SUCCESS /\ value' = to_uint8 w)).
Proof. intros Ht Hn. now apply user_uart_getc_polls. Qed.

Lemma user_uart_getc_timeout_polls_witness :
  0 < 3 < 2 ^ 32 /\ (Z.to_nat 3 < 5)%nat /\
  exists w words rslt value' m',
    user_uart_getc 5 0 3 (power_on (Script [CY_SCB_UART_RX_NO_DATA; 65] []))
    = Done (rslt, value') m' /\
    log m' = poll_log (w :: words) ++ [] /\
    dst_data_flag m' = DST_DISABLED_FLAG /\
    Forall (fun x => x = CY_SCB_UART_RX_NO_DATA) words /\
    (length words <= Z.to_nat 3)%nat /\
    ((w = CY_SCB_UART_RX_NO_DATA /\ length words = Z.to_nat 3 /\
      rslt = CY_SCB_UART_RX_NO_DATA /\ value' = 0) \/
     (w <> CY_SCB_UART_RX_NO_DATA /\
      rslt = CY_RSLT_SUCCESS /\ value' = to_uint8 w)).
Proof.
  split; [lia |]. split; [lia |].
  apply (user_uart_getc_timeout_polls script scripted
           (power_on (Script [CY_SCB_UART_RX_NO_DATA; 65] [])) 5 0 3); lia.
Defined.

(** X2. Called with timeout 0, as [main] does not but the signature
    allows, [user_uart_getc] never gives up: in every environment it
    never halts and never reports the timeout; if it returns, the status
    is success, the byte is the low eight bits of the first word that
    was not [CY_SCB_UART_RX_NO_DATA], and it has only polled, without
    any delay between the polls.  In the scripted environment it
    returns after [k] empty polls when the word [w] follows them, and on
    a line that stays silent it uses up every amount of fuel. *)
Theorem user_uart_getc_zero_timeout_blocks
    (Env : Type) (P : PDL Env) (m : machine Env) (fuel : nat) (value : Z)
    (k : nat) (w : Z) (rest rr : list Z) (lg : list event) (fl : Z) :
  w <> CY_SCB_UART_RX_NO_DATA -> (k <= fuel)%nat ->
  (forall m', user_uart_getc fuel value 0 m <> Halted m') /\
  (forall rslt value' m',
      user_uart_getc fuel value 0 m = Done (rslt, value') m' ->
      rslt = CY_RSLT_SUCCESS /\ dst_data_flag m' = dst_data_flag m /\
      exists v words,
        v <> CY_SCB_UART_RX_NO_DATA /\ value' = to_uint8 v /\
        Forall (fun x => x = CY_SCB_UART_RX_NO_DATA) words /\
        log m' = map UartGet (v :: words) ++ log m) /\
  user_uart_getc fuel value 0
    (Machine (Script (replicate k CY_SCB_UART_RX_NO_DATA ++ w :: rest) rr) lg fl)
  = Done (CY_RSLT_SUCCESS, to_uint8 w)
      (Machine (Script rest rr)
         (UartGet w :: replicate k (UartGet CY_SCB_UART_RX_NO_DATA) ++ lg) fl) /\
  user_uart_getc fuel value 0 (Machine (Script [] rr) lg fl) = OutOfFuel.
Proof.
  intros Hw Hk.
  assert (Hgen : forall o, user_uart_getc fuel value 0 m = o ->
            (forall m', o <> Halted m') /\
            (forall rslt value' m', o = Done (rslt, value') m' ->
               rslt = CY_RSLT_SUCCESS /\ dst_data_flag m' = dst_data_flag m /\
               exists v words,
                 v <> CY_SCB_UART_RX_NO_DATA /\ value' = to_uint8 v /\
                 Forall (fun x => x = CY_SCB_UART_RX_NO_DATA) words /\
                 log m' = map UartGet (v :: words) ++ log m)).
  { intros o Ho. unfold user_uart_getc in Ho.
    unfold bind at 1 in Ho. unfold uart_get at 1 in Ho.
    set (g := Cy_SCB_UART_Get (hw m)) in Ho.
    set (m1 := record_call g.2 (UartGet g.1) m) in Ho.
    destruct (getc_wait_blocking fuel 0 g.1 [] (log m) m1 _ eq_refl
                ltac:(constructor) eq_refl) as [Hnh Hdone].
    unfold bind in Ho.
    destruct (getc_wait fuel 0 0 g.1 m1) as [r m2 | m2 |] eqn:Erun.
    - destruct (Hdone r m2 eq_refl) as (v & words & -> & Hv & Hlog & Hwords & Hflag).
      subst o. split; [discriminate |].
      intros rslt value' m' [= <- <- <-]. split; [reflexivity |].
      split; [exact Hflag |]. exists v, words. auto.
    - exfalso. now apply (Hnh m2).
    - subst o. split; discriminate. }
  destruct (Hgen _ eq_refl) as [G1 G2].
  split; [exact G1 |]. split; [exact G2 |].
  split; [now apply user_uart_getc_blocking_keys |].
  apply user_uart_getc_blocking_silent.
Qed.

Lemma user_uart_getc_zero_timeout_blocks_witness :
  65 <> CY_SCB_UART_RX_NO_DATA /\ (2 <= 4)%nat /\
  user_uart_getc 4 0 0
    (power_on (Script (replicate 2 CY_SCB_UART_RX_NO_DATA ++ 65 :: [66]) []))
  = Done (CY_RSLT_SUCCESS, to_uint8 65)
      (Machine (Script [66] [])
         (UartGet 65 :: replicate 2 (UartGet CY_SCB_UART_RX_NO_DATA) ++ [])
         DST_DISABLED_FLAG) /\
  user_uart_getc 4 0 0 (Machine (Script [] []) [] DST_DISABLED_FLAG) = OutOfFuel.
Proof.
  assert (Hw : 65 <> CY_SCB_UART_RX_NO_DATA) by discriminate.
  assert (Hk : (2 <= 4)%nat) by lia.
  split; [exact Hw |]. split; [exact Hk |].
  exact (proj2 (proj2 (user_uart_getc_zero_timeout_blocks script scripted
                         (power_on (Script [] [])) 4 0 2 65 [66] [] []
                         DST_DISABLED_FLAG Hw Hk))).
Defined.

(** ** fetch_time_data *)

(** X3. What [fetch_time_data] sends: the bytes it echoes with
    [Cy_SCB_UART_Put] are exactly the bytes of the line it stored, in
    order (so the terminator is not echoed), and the one text it prints
    is the final line feed and carriage return, which is its last
    driver call. *)
Theorem fetch_time_data_echoes_line
    (Env : Type) (P : PDL Env) (m : machine Env)
    (fuel : nat) (buffer : list Z) (timeout_ms : Z) :
  fetch_ready fuel buffer timeout_ms ->
  exists l m',
    fetch_time_data fuel buffer timeout_ms m = Done l m' /\
    tx_bytes (log m') = tx_bytes (log m) ++ Fetch.line l /\
    printed (log m') = printed (log m) ++ [MsgNewline] /\
    exists before, log m' = UartPutString MsgNewline :: before.
Proof.
  intros (Hlen & Hto & Hf1 & Hf2).
  destruct (fetch_time_data_spec fuel buffer timeout_ms m Hlen Hto Hf1 Hf2)
    as (l & m' & Hrun & _).
  destruct (fetch_time_data_frame fuel buffer timeout_ms m l m' Hf1 Hlen Hrun)
    as (Q1 & Q2 & Q3 & _).
  exists l, m'. auto.
Qed.

Lemma fetch_time_data_echoes_line_witness :
  fetch_ready 200 zero_buffer 1000 /\
  exists l m',
    fetch_time_data 200 zero_buffer 1000
      (power_on (Script (entry_march_15 ++ [CR]) [])) = Done l m' /\
    tx_bytes (log m') = tx_bytes [] ++ Fetch.line l /\
    printed (log m') = printed [] ++ [MsgNewline] /\
    exists before, log m' = UartPutString MsgNewline :: before.
Proof.
  assert (Hready : fetch_ready 200 zero_buffer 1000) by fuel_ok.
  split; [exact Hready |].
  exact (fetch_time_data_echoes_line script scripted
           (power_on (Script (entry_march_15 ++ [CR]) []))
           200 zero_buffer 1000 Hready).
Defined.

(** X4. What [fetch_time_data] leaves in the caller's buffer: the line,
    followed by what the buffer held before from that position on; the
    function writes no terminating NUL.  With the zeroed buffer of the
    callers, a line of fewer than 80 bytes therefore reads as a C string
    like the line itself, and a line of 80 bytes fills the buffer to its
    end. *)
Theorem fetch_time_data_buffer_contents
    (Env : Type) (P : PDL Env) (m : machine Env)
    (fuel : nat) (buffer : list Z) (timeout_ms : Z) :
  fetch_ready fuel buffer timeout_ms ->
  exists l m',
    fetch_time_data fuel buffer timeout_ms m = Done l m' /\
    length (Fetch.buffer l) = Z.to_nat STRING_BUFFER_SIZE /\
    Fetch.buffer l = Fetch.line l ++ drop (Z.to_nat (Fetch.index l)) buffer /\
    (buffer = zero_buffer -> Fetch.index l < STRING_BUFFER_SIZE ->
     c_string (Fetch.buffer l) = c_string (Fetch.line l)) /\
    (Fetch.index l = STRING_BUFFER_SIZE -> Fetch.buffer l = Fetch.line l).
Proof.
  intros (Hlen & Hto & Hf1 & Hf2).
  destruct (fetch_time_data_spec fuel buffer timeout_ms m Hlen Hto Hf1 Hf2)
    as (l & m' & Hrun & _).
  destruct (fetch_time_data_frame fuel buffer timeout_ms m l m' Hf1 Hlen Hrun)
    as (_ & _ & _ & Hi & Hl80 & Hbuf).
  exists l, m'. split; [exact Hrun |]. split; [exact Hl80 |]. split; [exact Hbuf |].
  unfold STRING_BUFFER_SIZE in *. split.
  - intros -> Hlt. rewrite Hbuf at 1. unfold zero_buffer, STRING_BUFFER_SIZE.
    rewrite drop_replicate.
    destruct (Z.to_nat 80 - Z.to_nat (Fetch.index l))%nat as [| k] eqn:Ek; [lia |].
    apply c_string_nul.
  - intros Hfull. rewrite Hbuf at 1. rewrite drop_ge by lia. apply app_nil_r.
Qed.

Lemma fetch_time_data_buffer_contents_witness :
  fetch_ready 200 zero_buffer 1000 /\
  exists l m',
    fetch_time_data 200 zero_buffer 1000
      (power_on (Script (entry_march_15 ++ [CR]) [])) = Done l m' /\
    length (Fetch.buffer l) = Z.to_nat STRING_BUFFER_SIZE /\
    Fetch.buffer l = Fetch.line l ++ drop (Z.to_nat (Fetch.index l)) zero_buffer /\
    (zero_buffer = zero_buffer -> Fetch.index l < STRING_BUFFER_SIZE ->
     c_string (Fetch.buffer l) = c_string (Fetch.line l)) /\
    (Fetch.index l = STRING_BUFFER_SIZE -> Fetch.buffer l = Fetch.line l).
Proof.
  assert (Hready : fetch_ready 200 zero_buffer 1000) by fuel_ok.
  split; [exact Hready |].
  exact (fetch_time_data_buffer_contents script scripted
           (power_on (Script (entry_march_15 ++ [CR]) []))
           200 zero_buffer 1000 Hready).
Defined.

(** X5. Bytes typed without pause and then silence, with a budget that
    covers them: [fetch_time_data] returns the timeout status, and the
    line holds what was typed, so the bytes of the abandoned entry have
    been consumed and echoed.  Apart from the final line feed nothing is
    printed, and the RTC is not called. *)
Theorem fetch_time_data_partial_line_timeout
    (fuel : nat) (buffer : list Z) (timeout_ms : Z)
    (data rr : list Z) (lg : list event) (fl : Z) :
  fetch_ready fuel buffer timeout_ms ->
  Forall plain data -> (length data < Z.to_nat STRING_BUFFER_SIZE)%nat ->
  UART_TIMEOUT_MS * Z.of_nat (length data) < timeout_ms ->
  exists l lg',
    fetch_time_data fuel buffer timeout_ms (Machine (Script data rr) lg fl)
    = Done l (Machine (Script [] rr) lg' fl) /\
    Fetch.line l = data /\
    Fetch.space_count l = count_spaces data /\
    Fetch.rslt l = Some CY_SCB_UART_RX_NO_DATA /\
    printed lg' = printed lg ++ [MsgNewline] /\
    rx_bytes lg' = rx_bytes lg ++ data /\
    enable_dst_calls lg' = enable_dst_calls lg /\
    set_time_calls lg' = set_time_calls lg.
Proof. intros Hr Hp Hlen Hb. now apply fetch_typed_then_silent. Qed.

Lemma fetch_time_data_partial_line_timeout_witness :
  fetch_ready 200 zero_buffer 100 /\
  Forall plain [48; 51; 32; 49] /\
  (length [48; 51; 32; 49] < Z.to_nat STRING_BUFFER_SIZE)%nat /\
  UART_TIMEOUT_MS * Z.of_nat (length [48; 51; 32; 49]) < 100 /\
  exists l lg',
    fetch_time_data 200 zero_buffer 100
      (Machine (Script [48; 51; 32; 49] []) [] DST_DISABLED_FLAG)
    = Done l (Machine (Script [] []) lg' DST_DISABLED_FLAG) /\
    Fetch.line l = [48; 51; 32; 49] /\
    Fetch.space_count l = count_spaces [48; 51; 32; 49] /\
    Fetch.rslt l = Some CY_SCB_UART_RX_NO_DATA /\
    printed lg' = printed [] ++ [MsgNewline] /\
    rx_bytes lg' = rx_bytes [] ++ [48; 51; 32; 49] /\
    enable_dst_calls lg' = enable_dst_calls [] /\
    set_time_calls lg' = set_time_calls [].
Proof.
  assert (Hready : fetch_ready 200 zero_buffer 100) by fuel_ok.
  assert (Hp : Forall plain [48; 51; 32; 49]) by plain_bytes.
  assert (Hlen : (length [48; 51; 32; 49] < Z.to_nat STRING_BUFFER_SIZE)%nat)
    by (vm_compute; lia).
  assert (Hb : UART_TIMEOUT_MS * Z.of_nat (length [48; 51; 32; 49]) < 100)
    by (vm_compute; reflexivity).
  split; [exact Hready |]. split; [exact Hp |]. split; [exact Hlen |].
  split; [exact Hb |].
  exact (fetch_time_data_partial_line_timeout 200 zero_buffer 100
           [48; 51; 32; 49] [] [] DST_DISABLED_FLAG Hready Hp Hlen Hb).
Defined.

(** ** validate_date_time *)

(** X6. For every day that fits an [int] and every year below 2^31 the
    validator answers true exactly when the five range checks hold, the
    day is not 0 and the day is at most the length of the month (29 for
    February of a leap year).  The day has no lower bound: that is the
    effect of the comparison with [0U] in line 737. *)
Theorem validate_date_time_int_day_exact (sec min hour mday month year : Z) :
  - 2 ^ 31 <= mday < 2 ^ 31 -> year < 2 ^ 31 ->
  (validate_date_time sec min hour mday month year = Some true
   <-> in_domain sec min hour month year /\ mday <> 0 /\
       mday <= days_in_month month year).
Proof. intros Hm Hy. now apply validate_date_time_int_day. Qed.

Lemma validate_date_time_int_day_exact_witness :
  - 2 ^ 31 <= 29 < 2 ^ 31 /\ 24 < 2 ^ 31 /\
  (validate_date_time 59 59 23 29 2 24 = Some true
   <-> in_domain 59 59 23 2 24 /\ 29 <> 0 /\ 29 <= days_in_month 2 24).
Proof.
  split; [lia |]. split; [lia |].
  apply (validate_date_time_int_day_exact 59 59 23 29 2 24); lia.
Defined.

(** X7. February: with the other fields in range, day 28 is always
    accepted, day 30 never, and day 29 exactly in a leap year, that is
    when the year is divisible by 4 and not by 100, or divisible by
    400. *)
Theorem validate_date_time_leap_day (sec min hour year : Z) :
  in_domain sec min hour 2 year -> year < 2 ^ 31 ->
  validate_date_time sec min hour 28 2 year = Some true /\
  validate_date_time sec min hour 30 2 year = Some false /\
  (validate_date_time sec min hour 29 2 year = Some true
   <-> (year mod 4 = 0 /\ year mod 100 <> 0) \/ year mod 400 = 0).
Proof.
  intros Hd Hy.
  rewrite !validate_date_time_in_domain by (assumption || lia).
  rewrite days_in_month_february. unfold leap_year_rule, day_check, to_uint32.
  destruct (year mod 4 =? 0) eqn:E4, (year mod 100 =? 0) eqn:E100,
    (year mod 400 =? 0) eqn:E400;
    rewrite ?Z.eqb_eq, ?Z.eqb_neq in *; cbn [negb andb orb];
    (split; [reflexivity |]); (split; [reflexivity |]);
    split; intros Hx; try reflexivity; try discriminate; lia.
Qed.

Lemma validate_date_time_leap_day_witness :
  in_domain 0 0 0 2 24 /\ 24 < 2 ^ 31 /\
  validate_date_time 0 0 0 28 2 24 = Some true /\
  validate_date_time 0 0 0 30 2 24 = Some false /\
  (validate_date_time 0 0 0 29 2 24 = Some true
   <-> (24 mod 4 = 0 /\ 24 mod 100 <> 0) \/ 24 mod 400 = 0).
Proof.
  assert (Hd : in_domain 0 0 0 2 24) by (unfold in_domain; lia).
  split; [exact Hd |]. split; [lia |].
  apply (validate_date_time_leap_day 0 0 0 24 Hd); lia.
Defined.

(** ** set_dst_feature in every environment *)

(** X8. With a timeout that is not 0, a call of [set_dst_feature] ends
    in one of four ways ([dst_flow_ends]): it returns having made only
    passive calls, with [dst_data_flag] as it was or at
    [DST_VALID_START_TIME_FLAG]; it returns with the flag at
    [DST_ENABLED_FLAG], and its last two calls are a successful DST
    write and the text that the DST time was updated; it returns with
    the flag at [DST_DISABLED_FLAG], and its last two calls are a
    successful write of the switch-off rule and the text that the
    feature was disabled; or it halts in [handle_error] right after a
    failed DST write, with the flag as it was or at
    [DST_VALID_END_TIME_FLAG].  Before the write all calls are
    passive. *)
Theorem set_dst_feature_four_endings
    (Env : Type) (P : PDL Env) (m : machine Env) (fuel : nat) (timeout_ms : Z) :
  0 < timeout_ms < 2 ^ 32 -> enough_fuel fuel timeout_ms ->
  dst_flow_ends (set_dst_feature fuel timeout_ms m) m.
Proof. intros Ht Hf. now apply set_dst_feature_ends. Qed.

Lemma set_dst_feature_four_endings_witness :
  0 < 1000 < 2 ^ 32 /\ enough_fuel 1100 1000 /\
  dst_flow_ends
    (set_dst_feature 1100 1000
       (power_on (Script (session_enable FIXED_DST_FORMAT) [1])))
    (power_on (Script (session_enable FIXED_DST_FORMAT) [1])) /\
  exists m',
    set_dst_feature 1100 1000 (power_on (Script (session_enable FIXED_DST_FORMAT) [1]))
    = Halted m' /\
    dst_statuses (log m') = [1] /\
    dst_data_flag m' = DST_VALID_END_TIME_FLAG.
Proof.
  assert (Ht : 0 < 1000 < 2 ^ 32) by lia.
  assert (Hf : enough_fuel 1100 1000) by fuel_ok.
  split; [exact Ht |]. split; [exact Hf |].
  split.
  - exact (set_dst_feature_four_endings script scripted
             (power_on (Script (session_enable FIXED_DST_FORMAT) [1])) 1100 1000 Ht Hf).
  - eexists. split; [vm_compute; reflexivity |]. split; reflexivity.
Defined.

(** X9. The values 0, 1 and 3 of [dst_data_flag] are closed under calls
    of [set_dst_feature] that return: entered with one of them, the call
    ends, and when it returns the flag is again one of them.
    [DST_VALID_END_TIME_FLAG] is only ever seen by [handle_error]: a
    call that ends with the flag at that value has halted. *)
Theorem set_dst_feature_flag_invariant
    (Env : Type) (P : PDL Env) (m : machine Env) (fuel : nat) (timeout_ms : Z) :
  0 < timeout_ms < 2 ^ 32 -> enough_fuel fuel timeout_ms ->
  dst_data_flag m = DST_DISABLED_FLAG \/
  dst_data_flag m = DST_VALID_START_TIME_FLAG \/
  dst_data_flag m = DST_ENABLED_FLAG ->
  exists m',
    final (set_dst_feature fuel timeout_ms m) = Some m' /\
    (set_dst_feature fuel timeout_ms m = Done tt m' ->
     dst_data_flag m' = DST_DISABLED_FLAG \/
     dst_data_flag m' = DST_VALID_START_TIME_FLAG \/
     dst_data_flag m' = DST_ENABLED_FLAG) /\
    (dst_data_flag m' = DST_VALID_END_TIME_FLAG ->
     set_dst_feature fuel timeout_ms m = Halted m').
Proof.
  intros Ht Hf Hfl.
  unfold DST_DISABLED_FLAG, DST_VALID_START_TIME_FLAG, DST_ENABLED_FLAG,
    DST_VALID_END_TIME_FLAG in *.
  destruct (set_dst_feature_ends fuel timeout_ms m Ht Hf)
    as [(m' & -> & _ & Hx)
       | [(m' & dst & pre & -> & _ & _ & Hx)
         | [(m' & pre & -> & _ & _ & Hx)
           | (m' & dst & st & pre & -> & _ & _ & _ & Hx)]]];
    unfold DST_DISABLED_FLAG, DST_VALID_START_TIME_FLAG, DST_ENABLED_FLAG,
      DST_VALID_END_TIME_FLAG in Hx;
    exists m'; (split; [reflexivity |]); split; intros Hy;
    try discriminate; try reflexivity; lia.
Qed.

Lemma set_dst_feature_flag_invariant_witness :
  0 < 1000 < 2 ^ 32 /\ enough_fuel 1100 1000 /\
  (dst_data_flag (power_on (Script (session_enable FIXED_DST_FORMAT) []))
   = DST_DISABLED_FLAG \/
   dst_data_flag (power_on (Script (session_enable FIXED_DST_FORMAT) []))
   = DST_VALID_START_TIME_FLAG \/
   dst_data_flag (power_on (Script (session_enable FIXED_DST_FORMAT) []))
   = DST_ENABLED_FLAG) /\
  (exists m',
      final (set_dst_feature 1100 1000
               (power_on (Script (session_enable FIXED_DST_FORMAT) [])))
      = Some m' /\
      (set_dst_feature 1100 1000 (power_on (Script (session_enable FIXED_DST_FORMAT) []))
       = Done tt m' ->
       dst_data_flag m' = DST_DISABLED_FLAG \/
       dst_data_flag m' = DST_VALID_START_TIME_FLAG \/
       dst_data_flag m' = DST_ENABLED_FLAG) /\
      (dst_data_flag m' = DST_VALID_END_TIME_FLAG ->
       set_dst_feature 1100 1000 (power_on (Script (session_enable FIXED_DST_FORMAT) []))
       = Halted m')) /\
  exists m',
    set_dst_feature 1100 1000 (power_on (Script (session_enable FIXED_DST_FORMAT) []))
    = Done tt m' /\
    dst_statuses (log m') = [CY_RTC_SUCCESS] /\
    dst_data_flag m' = DST_ENABLED_FLAG.
Proof.
  assert (Ht : 0 < 1000 < 2 ^ 32) by lia.
  assert (Hf : enough_fuel 1100 1000) by fuel_ok.
  split; [exact Ht |]. split; [exact Hf |].
  split; [left; reflexivity |].
  split.
  - exact (set_dst_feature_flag_invariant script scripted
             (power_on (Script (session_enable FIXED_DST_FORMAT) [])) 1100 1000 Ht Hf
             (or_introl eq_refl)).
  - eexists. split; [vm_compute; reflexivity |]. split; reflexivity.
Defined.

(** X10. Entered with [dst_data_flag] at [DST_DISABLED_FLAG] or at
    [DST_ENABLED_FLAG], a call of [set_dst_feature] ends, and what it
    hands to [Cy_RTC_EnableDstTime] is nothing, or the switch-off rule,
    or one descriptor whose two halves were both built in this call,
    under a format the code recognizes, from fields that
    [validate_date_time] accepted. *)
Theorem set_dst_feature_writes_validated_rule
    (Env : Type) (P : PDL Env) (m : machine Env) (fuel : nat) (timeout_ms : Z) :
  0 < timeout_ms < 2 ^ 32 -> enough_fuel fuel timeout_ms ->
  dst_data_flag m = DST_DISABLED_FLAG \/ dst_data_flag m = DST_ENABLED_FLAG ->
  dst_writes (set_dst_feature fuel timeout_ms m) m validated_writes.
Proof. intros Ht Hf Hfl. now apply set_dst_feature_validated. Qed.

Lemma set_dst_feature_writes_validated_rule_witness :
  0 < 1000 < 2 ^ 32 /\ enough_fuel 1100 1000 /\
  (dst_data_flag (power_on (Script (session_enable RELATIVE_DST_FORMAT) []))
   = DST_DISABLED_FLAG \/
   dst_data_flag (power_on (Script (session_enable RELATIVE_DST_FORMAT) []))
   = DST_ENABLED_FLAG) /\
  dst_writes
    (set_dst_feature 1100 1000
       (power_on (Script (session_enable RELATIVE_DST_FORMAT) [])))
    (power_on (Script (session_enable RELATIVE_DST_FORMAT) []))
    validated_writes /\
  exists m',
    set_dst_feature 1100 1000
      (power_on (Script (session_enable RELATIVE_DST_FORMAT) [])) = Done tt m' /\
    enable_dst_calls (log m')
    = [ {| startDst := Some {| format := CY_RTC_DST_RELATIVE; hour := 10;
                               dayOfMonth := 1; weekOfMonth := zeller 15 3 24;
                               dayOfWeek := zeller 15 3 24; month := 3 |};
           stopDst := Some {| format := CY_RTC_DST_RELATIVE; hour := 10;
                              dayOfMonth := 1; weekOfMonth := zeller 1 11 24;
                              dayOfWeek := zeller 1 11 24; month := 11 |} |} ].
Proof.
  assert (Ht : 0 < 1000 < 2 ^ 32) by lia.
  assert (Hf : enough_fuel 1100 1000) by fuel_ok.
  split; [exact Ht |]. split; [exact Hf |].
  split; [left; reflexivity |].
  split.
  - exact (set_dst_feature_writes_validated_rule script scripted
             (power_on (Script (session_enable RELATIVE_DST_FORMAT) [])) 1100 1000
             Ht Hf (or_introl eq_refl)).
  - eexists. split; vm_compute; reflexivity.
Defined.

(** X11. The two flows keep apart.  A call of [set_new_time] ends
    without any call of [Cy_RTC_EnableDstTime] and leaves
    [dst_data_flag] as it was; a call of [set_dst_feature] ends without
    any call of [Cy_RTC_SetDateAndTimeDirect]. *)
Theorem flows_keep_apart
    (Env : Type) (P : PDL Env) (m : machine Env)
    (fuel : nat) (timeout_ms : Z) (uninit : Scan.vars) :
  0 < timeout_ms < 2 ^ 32 -> enough_fuel fuel timeout_ms ->
  (exists m',
      final (set_new_time fuel uninit timeout_ms m) = Some m' /\
      enable_dst_calls (log m') = enable_dst_calls (log m) /\
      dst_statuses (log m') = dst_statuses (log m) /\
      dst_data_flag m' = dst_data_flag m) /\
  (exists m',
      final (set_dst_feature fuel timeout_ms m) = Some m' /\
      set_time_calls (log m') = set_time_calls (log m)).
Proof.
  intros Ht Hf. split.
  - apply set_new_time_frame; [lia | exact Hf].
  - now apply set_dst_feature_frame.
Qed.

Lemma flows_keep_apart_witness :
  0 < 1000 < 2 ^ 32 /\ enough_fuel 1100 1000 /\
  ((exists m',
       final (set_new_time 1100 (Scan.Vars 0 0 0 0 0 0) 1000
                (power_on (Script (entry_february_1 ++ [CR]) [1; 1]))) = Some m' /\
       enable_dst_calls (log m') = enable_dst_calls [] /\
       dst_statuses (log m') = dst_statuses [] /\
       dst_data_flag m' = DST_DISABLED_FLAG) /\
   (exists m',
       final (set_dst_feature 1100 1000
                (power_on (Script (entry_february_1 ++ [CR]) [1; 1]))) = Some m' /\
       set_time_calls (log m') = set_time_calls [])) /\
  (exists m',
      set_new_time 1100 (Scan.Vars 0 0 0 0 0 0) 1000
        (power_on (Script (entry_february_1 ++ [CR]) [1; 1])) = Done tt m' /\
      set_time_calls (log m') = repeat [1; 1; 1; 1; 2; 1] 3) /\
  (exists m',
      set_dst_feature 1100 1000
        (power_on (Script (entry_february_1 ++ [CR]) [1; 1])) = Halted m' /\
      enable_dst_calls (log m') = [disabled_dst_time]).
Proof.
  assert (Ht : 0 < 1000 < 2 ^ 32) by lia.
  assert (Hf : enough_fuel 1100 1000) by fuel_ok.
  split; [exact Ht |]. split; [exact Hf |].
  split; [| split].
  - exact (flows_keep_apart script scripted
             (power_on (Script (entry_february_1 ++ [CR]) [1; 1]))
             1100 1000 (Scan.Vars 0 0 0 0 0 0) Ht Hf).
  - eexists. split; vm_compute; reflexivity.
  - eexists. split; vm_compute; reflexivity.
Defined.

(** ** set_dst_feature and set_new_time at the console *)

(** X12. A menu choice other than 1 and 2: the call returns at once.
    For choice 3 it prints the exit text; for any other key it prints
    nothing at all, not even a complaint.  Either way the key is
    consumed and [dst_data_flag] stays.  The flow makes no DST write and
    no time-set call: its one call into the RTC driver is the query of
    the DST status of line 370, and that only when the flag is at
    [DST_ENABLED_FLAG]. *)
Theorem set_dst_feature_quit_or_unknown_key
    (fuel : nat) (timeout_ms k : Z) (rest rr : list Z) (lg : list event) (fl : Z) :
  0 <= k < 256 -> k <> RTC_CMD_ENABLE_DST -> k <> RTC_CMD_DISABLE_DST ->
  exists lg',
    set_dst_feature fuel timeout_ms (Machine (Script (k :: rest) rr) lg fl)
    = Done tt (Machine (Script rest rr) lg' fl) /\
    printed lg'
    = printed lg
      ++ [if DST_ENABLED_FLAG =? fl then MsgDstStatusInactive
          else MsgDstStatusDisabled; MsgDstMenu]
      ++ (if RTC_CMD_QUIT_CONFIG_DST =? k then [MsgDstExit] else []) /\
    rx_bytes lg' = rx_bytes lg ++ [k] /\
    rtc_calls lg'
    = (if DST_ENABLED_FLAG =? fl then [RtcGetDstStatus false] else [])
      ++ rtc_calls lg /\
    enable_dst_calls lg' = enable_dst_calls lg /\
    set_time_calls lg' = set_time_calls lg.
Proof.
  intros Hk H1 H2. rewrite set_dst_feature_other_key by assumption.
  eexists. split; [reflexivity |].
  destruct (dst_menu_log_no_write fl lg) as (D1 & D2).
  assert (Hrx : rx_bytes (dst_menu_log fl lg) = rx_bytes lg).
  { unfold dst_menu_log. destruct (DST_ENABLED_FLAG =? fl); reflexivity. }
  assert (Hnd : (k =? CY_SCB_UART_RX_NO_DATA) = false).
  { apply Z.eqb_neq. unfold CY_SCB_UART_RX_NO_DATA. lia. }
  destruct (RTC_CMD_QUIT_CONFIG_DST =? k);
    cbn [app printed rx_bytes rtc_calls rtc_call enable_dst_calls set_time_calls];
    rewrite Hnd, printed_dst_menu_log, Hrx, rtc_calls_dst_menu_log, D1, D2,
      byte_to_uint8 by assumption;
    rewrite <- ?app_assoc, ?app_nil_r; repeat split; reflexivity.
Qed.

Lemma set_dst_feature_quit_or_unknown_key_witness :
  0 <= 120 < 256 /\ 120 <> RTC_CMD_ENABLE_DST /\ 120 <> RTC_CMD_DISABLE_DST /\
  exists lg',
    set_dst_feature 0 20 (Machine (Script [120; 49] []) [] DST_ENABLED_FLAG)
    = Done tt (Machine (Script [49] []) lg' DST_ENABLED_FLAG) /\
    printed lg'
    = printed []
      ++ [if DST_ENABLED_FLAG =? DST_ENABLED_FLAG then MsgDstStatusInactive
          else MsgDstStatusDisabled; MsgDstMenu]
      ++ (if RTC_CMD_QUIT_CONFIG_DST =? 120 then [MsgDstExit] else []) /\
    rx_bytes lg' = rx_bytes [] ++ [120] /\
    rtc_calls lg'
    = (if DST_ENABLED_FLAG =? DST_ENABLED_FLAG then [RtcGetDstStatus false] else [])
      ++ rtc_calls [] /\
    enable_dst_calls lg' = enable_dst_calls [] /\
    set_time_calls lg' = set_time_calls [].
Proof.
  assert (Hk : 0 <= 120 < 256) by lia.
  assert (H1 : 120 <> RTC_CMD_ENABLE_DST) by discriminate.
  assert (H2 : 120 <> RTC_CMD_DISABLE_DST) by discriminate.
  split; [exact Hk |]. split; [exact H1 |]. split; [exact H2 |].
  exact (set_dst_feature_quit_or_unknown_key 0 20 120 [49] [] [] DST_ENABLED_FLAG
           Hk H1 H2).
Defined.

(** X13. Menu choice 2 writes the switch-off rule (fixed format, hour
    0, day 1 of month 1, for start and stop alike) in one call of
    [Cy_RTC_EnableDstTime], whatever value [dst_data_flag] has.  When
    the driver reports success, the flag becomes [DST_DISABLED_FLAG] and
    the text that the feature was disabled is printed; when it reports
    the status [s] that is not success, the call halts in
    [handle_error] and the flag is as it was. *)
Theorem set_dst_feature_disable_choice
    (fuel : nat) (timeout_ms s : Z) (rest rr : list Z) (lg : list event) (fl : Z) :
  set_dst_feature fuel timeout_ms
    (Machine (Script (RTC_CMD_DISABLE_DST :: rest) (s :: rr)) lg fl)
  = (if CY_RTC_SUCCESS =? s
     then Done tt (Machine (Script rest rr)
                     (UartPutString MsgDstDisabled
                        :: RtcEnableDstTime disabled_dst_time s
                        :: UartGet RTC_CMD_DISABLE_DST :: dst_menu_log fl lg)
                     DST_DISABLED_FLAG)
     else Halted (Machine (Script rest rr)
                    (HandleError
                       :: RtcEnableDstTime disabled_dst_time s
                       :: UartGet RTC_CMD_DISABLE_DST :: dst_menu_log fl lg)
                    fl)) /\
  startDst disabled_dst_time = stopDst disabled_dst_time /\
  stopDst disabled_dst_time
  = Some {| format := CY_RTC_DST_FIXED; hour := 0; dayOfMonth := 1;
            weekOfMonth := 1; dayOfWeek := 1; month := 1 |}.
Proof.
  split; [| split; reflexivity].
  rewrite set_dst_feature_disable_key. reflexivity.
Qed.

(** X14. [set_new_time] on an entry of fewer than 80 plain bytes typed
    without pause and ended by a line terminator.  When the entry does
    not have exactly five blanks, the flow prints the text for invalid
    values and returns without any call of the RTC.  When it has five
    blanks and each number in it fits an [int], the flow ends after
    between 1 and 500 calls of [Cy_RTC_SetDateAndTimeDirect], all with
    the same arguments: the six fields that [sscanf] reads from the
    entry (over what the variables held before), converted to unsigned,
    in the order second, minute, hour, day, month, year.  Neither the
    DST rule nor [dst_data_flag] is touched. *)
Theorem set_new_time_calls_iff_five_blanks
    (fuel : nat) (uninit : Scan.vars) (timeout_ms : Z)
    (data : list Z) (t : Z) (rest rr : list Z) (lg : list event) (fl : Z) :
  Forall plain data -> (length data < Z.to_nat STRING_BUFFER_SIZE)%nat ->
  t = LF \/ t = CR ->
  UART_TIMEOUT_MS * (Z.of_nat (length data) + 1) < timeout_ms < 2 ^ 32 ->
  enough_fuel fuel timeout_ms ->
  (count_spaces data <> MIN_SPACE_KEY_COUNT ->
   set_new_time fuel uninit timeout_ms (Machine (Script (data ++ t :: rest) rr) lg fl)
   = Done tt (Machine (Script rest rr)
                (UartPutString MsgInvalidValues :: UartPutString MsgNewline
                   :: UartGet t :: typed_log data (UartPutString MsgEnterTime :: lg))
                fl)) /\
  (count_spaces data = MIN_SPACE_KEY_COUNT ->
   sscanf_in_range (c_string data) = true ->
   exists m' k,
     final (set_new_time fuel uninit timeout_ms
              (Machine (Script (data ++ t :: rest) rr) lg fl)) = Some m' /\
     (1 <= k <= Z.to_nat MAX_ATTEMPTS)%nat /\
     set_time_calls (log m')
     = repeat (set_time_args (sscanf (c_string data) uninit)) k ++ set_time_calls lg /\
     enable_dst_calls (log m') = enable_dst_calls lg /\
     dst_data_flag m' = fl).
Proof.
  intros Hp Hlen Ht Hto Hf.
  destruct (set_new_time_typed fuel uninit timeout_ms data t rest rr lg fl
              Hp Hlen Ht Hto Hf) as [A B].
  split; [exact A |]. intros Hc _. exact (B Hc).
Qed.

Lemma set_new_time_calls_iff_five_blanks_witness :
  Forall plain [49; 32; 50; 32; 51; 32; 52; 32; 53; 32; 54] /\
  (length [49; 32; 50; 32; 51; 32; 52; 32; 53; 32; 54]
   < Z.to_nat STRING_BUFFER_SIZE)%nat /\
  (CR = LF \/ CR = CR) /\
  UART_TIMEOUT_MS * (Z.of_nat (length [49; 32; 50; 32; 51; 32; 52; 32; 53; 32; 54]) + 1)
  < 500 < 2 ^ 32 /\
  enough_fuel 600 500 /\
  count_spaces [49; 32; 50; 32; 51; 32; 52; 32; 53; 32; 54] = MIN_SPACE_KEY_COUNT /\
  sscanf_in_range (c_string [49; 32; 50; 32; 51; 32; 52; 32; 53; 32; 54]) = true /\
  exists m' k,
    final (set_new_time 600 (Scan.Vars 0 0 0 0 0 0) 500
             (Machine (Script ([49; 32; 50; 32; 51; 32; 52; 32; 53; 32; 54] ++ CR :: [])
                         [1; 1]) [] DST_DISABLED_FLAG)) = Some m' /\
    (1 <= k <= Z.to_nat MAX_ATTEMPTS)%nat /\
    set_time_calls (log m')
    = repeat (set_time_args
                (sscanf (c_string [49; 32; 50; 32; 51; 32; 52; 32; 53; 32; 54])
                   (Scan.Vars 0 0 0 0 0 0))) k ++ set_time_calls [] /\
    enable_dst_calls (log m') = enable_dst_calls [] /\
    dst_data_flag m' = DST_DISABLED_FLAG.
Proof.
  assert (Hp : Forall plain [49; 32; 50; 32; 51; 32; 52; 32; 53; 32; 54])
    by plain_bytes.
  assert (Hlen : (length [49; 32; 50; 32; 51; 32; 52; 32; 53; 32; 54]
                  < Z.to_nat STRING_BUFFER_SIZE)%nat) by (vm_compute; lia).
  assert (Ht : CR = LF \/ CR = CR) by (right; reflexivity).
  assert (Hto : UART_TIMEOUT_MS
                * (Z.of_nat (length [49; 32; 50; 32; 51; 32; 52; 32; 53; 32; 54]) + 1)
                < 500 < 2 ^ 32) by (split; vm_compute; reflexivity).
  assert (Hf : enough_fuel 600 500) by fuel_ok.
  assert (Hc : count_spaces [49; 32; 50; 32; 51; 32; 52; 32; 53; 32; 54]
               = MIN_SPACE_KEY_COUNT) by reflexivity.
  assert (Hr : sscanf_in_range (c_string [49; 32; 50; 32; 51; 32; 52; 32; 53; 32; 54])
               = true) by reflexivity.
  split; [exact Hp |]. split; [exact Hlen |]. split; [exact Ht |].
  split; [exact Hto |]. split; [exact Hf |]. split; [exact Hc |].
  split; [exact Hr |].
  exact (proj2 (set_new_time_calls_iff_five_blanks 600 (Scan.Vars 0 0 0 0 0 0) 500
                  [49; 32; 50; 32; 51; 32; 52; 32; 53; 32; 54] CR [] [1; 1] []
                  DST_DISABLED_FLAG Hp Hlen Ht Hto Hf) Hc Hr).
Defined.

(** X15. [set_new_time] on an entry that breaks off before its
    terminator: once the budget is used up the flow prints the timeout
    text and returns.  The bytes typed so far are consumed; the RTC is
    not called and [dst_data_flag] stays. *)
Theorem set_new_time_entry_timeout
    (fuel : nat) (uninit : Scan.vars) (timeout_ms : Z)
    (data rr : list Z) (lg : list event) (fl : Z) :
  Forall plain data -> (length data < Z.to_nat STRING_BUFFER_SIZE)%nat ->
  UART_TIMEOUT_MS * Z.of_nat (length data) < timeout_ms < 2 ^ 32 ->
  enough_fuel fuel timeout_ms ->
  exists lg',
    set_new_time fuel uninit timeout_ms (Machine (Script data rr) lg fl)
    = Done tt (Machine (Script [] rr) lg' fl) /\
    printed lg' = printed lg ++ [MsgEnterTime; MsgNewline; MsgTimeout] /\
    set_time_calls lg' = set_time_calls lg /\
    enable_dst_calls lg' = enable_dst_calls lg.
Proof. intros Hp Hlen Hto Hf. now apply set_new_time_silent. Qed.

Lemma set_new_time_entry_timeout_witness :
  Forall plain [48; 51; 32; 49] /\
  (length [48; 51; 32; 49] < Z.to_nat STRING_BUFFER_SIZE)%nat /\
  UART_TIMEOUT_MS * Z.of_nat (length [48; 51; 32; 49]) < 100 < 2 ^ 32 /\
  enough_fuel 600 100 /\
  exists lg',
    set_new_time 600 (Scan.Vars 0 0 0 0 0 0) 100
      (Machine (Script [48; 51; 32; 49] []) [] DST_DISABLED_FLAG)
    = Done tt (Machine (Script [] []) lg' DST_DISABLED_FLAG) /\
    printed lg' = printed [] ++ [MsgEnterTime; MsgNewline; MsgTimeout] /\
    set_time_calls lg' = set_time_calls [] /\
    enable_dst_calls lg' = enable_dst_calls [].
Proof.
  assert (Hp : Forall plain [48; 51; 32; 49]) by plain_bytes.
  assert (Hlen : (length [48; 51; 32; 49] < Z.to_nat STRING_BUFFER_SIZE)%nat)
    by (vm_compute; lia).
  assert (Hto : UART_TIMEOUT_MS * Z.of_nat (length [48; 51; 32; 49]) < 100 < 2 ^ 32)
    by (split; vm_compute; reflexivity).
  assert (Hf : enough_fuel 600 100) by fuel_ok.
  split; [exact Hp |]. split; [exact Hlen |]. split; [exact Hto |].
  split; [exact Hf |].
  exact (set_new_time_entry_timeout 600 (Scan.Vars 0 0 0 0 0 0) 100
           [48; 51; 32; 49] [] [] DST_DISABLED_FLAG Hp Hlen Hto Hf).
Defined.

(** X16. Menu choice 1, a format key, and a start entry that does not
    have exactly five blanks, with [dst_data_flag] at neither
    intermediate value: the flow prints the text for invalid values and
    the call is over.  It does not ask for the end time and leaves the
    flag; the keys typed after the entry stay unread for whoever polls
    next.  It makes no DST write and no time-set call: its one call into
    the RTC driver is the query of the DST status of line 370, and that
    only when the flag is at [DST_ENABLED_FLAG]. *)
Theorem set_dst_feature_start_wrong_blanks
    (fuel : nat) (timeout_ms fmt : Z) (data : list Z) (t : Z)
    (rest rr : list Z) (lg : list event) (fl : Z) :
  0 <= fmt < 256 ->
  Forall plain data -> (length data < Z.to_nat STRING_BUFFER_SIZE)%nat ->
  t = LF \/ t = CR ->
  count_spaces data <> MIN_SPACE_KEY_COUNT ->
  UART_TIMEOUT_MS * (Z.of_nat (length data) + 1) < timeout_ms < 2 ^ 32 ->
  (length data < fuel)%nat ->
  fl <> DST_VALID_START_TIME_FLAG -> fl <> DST_VALID_END_TIME_FLAG ->
  exists lg',
    set_dst_feature fuel timeout_ms
      (Machine (Script (RTC_CMD_ENABLE_DST :: fmt :: data ++ t :: rest) rr) lg fl)
    = Done tt (Machine (Script rest rr) lg' fl) /\
    printed lg'
    = printed lg
      ++ [if DST_ENABLED_FLAG =? fl then MsgDstStatusInactive
          else MsgDstStatusDisabled;
          MsgDstMenu; MsgDstFormatMenu; MsgEnterDstStart; MsgNewline;
          MsgInvalidValues] /\
    rtc_calls lg'
    = (if DST_ENABLED_FLAG =? fl then [RtcGetDstStatus false] else [])
      ++ rtc_calls lg /\
    enable_dst_calls lg' = enable_dst_calls lg /\
    set_time_calls lg' = set_time_calls lg.
Proof.
  intros Hfmt Hp Hlen Ht Hc Hto Hfuel H1 H2.
  rewrite set_dst_feature_enable_key.
  rewrite (enable_dst_wrong_blanks fuel timeout_ms fmt data t rest rr) by assumption.
  eexists. split; [reflexivity |].
  destruct (typed_log_readings data
              (UartPutString MsgEnterDstStart :: UartGet fmt
                 :: UartPutString MsgDstFormatMenu
                 :: UartGet RTC_CMD_ENABLE_DST :: dst_menu_log fl lg) Hp)
    as (T1 & _ & _ & T4 & T5).
  destruct (dst_menu_log_no_write fl lg) as (D1 & D2).
  cbn [printed rtc_calls rtc_call enable_dst_calls set_time_calls] in *.
  rewrite rtc_calls_typed_log. cbn [rtc_calls rtc_call].
  rewrite T1, T4, T5, printed_dst_menu_log, rtc_calls_dst_menu_log, D1, D2,
    <- !app_assoc.
  repeat split; reflexivity.
Qed.

Lemma set_dst_feature_start_wrong_blanks_witness :
  0 <= 49 < 256 /\
  Forall plain [48; 51; 32; 49] /\
  (length [48; 51; 32; 49] < Z.to_nat STRING_BUFFER_SIZE)%nat /\
  (CR = LF \/ CR = CR) /\
  count_spaces [48; 51; 32; 49] <> MIN_SPACE_KEY_COUNT /\
  UART_TIMEOUT_MS * (Z.of_nat (length [48; 51; 32; 49]) + 1) < 100 < 2 ^ 32 /\
  (length [48; 51; 32; 49] < 600)%nat /\
  DST_ENABLED_FLAG <> DST_VALID_START_TIME_FLAG /\
  DST_ENABLED_FLAG <> DST_VALID_END_TIME_FLAG /\
  exists lg',
    set_dst_feature 600 100
      (Machine (Script (RTC_CMD_ENABLE_DST :: 49 :: [48; 51; 32; 49] ++ CR :: [50]) [])
         [] DST_ENABLED_FLAG)
    = Done tt (Machine (Script [50] []) lg' DST_ENABLED_FLAG) /\
    printed lg'
    = printed []
      ++ [if DST_ENABLED_FLAG =? DST_ENABLED_FLAG then MsgDstStatusInactive
          else MsgDstStatusDisabled;
          MsgDstMenu; MsgDstFormatMenu; MsgEnterDstStart; MsgNewline;
          MsgInvalidValues] /\
    rtc_calls lg'
    = (if DST_ENABLED_FLAG =? DST_ENABLED_FLAG then [RtcGetDstStatus false] else [])
      ++ rtc_calls [] /\
    enable_dst_calls lg' = enable_dst_calls [] /\
    set_time_calls lg' = set_time_calls [].
Proof.
  assert (Hfmt : 0 <= 49 < 256) by lia.
  assert (Hp : Forall plain [48; 51; 32; 49]) by plain_bytes.
  assert (Hlen : (length [48; 51; 32; 49] < Z.to_nat STRING_BUFFER_SIZE)%nat)
    by (vm_compute; lia).
  assert (Ht : CR = LF \/ CR = CR) by (right; reflexivity).
  assert (Hc : count_spaces [48; 51; 32; 49] <> MIN_SPACE_KEY_COUNT) by discriminate.
  assert (Hto : UART_TIMEOUT_MS * (Z.of_nat (length [48; 51; 32; 49]) + 1)
                < 100 < 2 ^ 32) by (split; vm_compute; reflexivity).
  assert (Hfuel : (length [48; 51; 32; 49] < 600)%nat) by (vm_compute; lia).
  assert (H1 : DST_ENABLED_FLAG <> DST_VALID_START_TIME_FLAG) by discriminate.
  assert (H2 : DST_ENABLED_FLAG <> DST_VALID_END_TIME_FLAG) by discriminate.
  split; [exact Hfmt |]. split; [exact Hp |]. split; [exact Hlen |].
  split; [exact Ht |]. split; [exact Hc |]. split; [exact Hto |].
  split; [exact Hfuel |]. split; [exact H1 |]. split; [exact H2 |].
  exact (set_dst_feature_start_wrong_blanks 600 100 49 [48; 51; 32; 49] CR [50] []
           [] DST_ENABLED_FLAG Hfmt Hp Hlen Ht Hc Hto Hfuel H1 H2).
Defined.

(** X17. The three prompts of [set_dst_feature] that can time out with
    nothing decided yet: the menu, the format menu and the start time.
    On a line that falls silent at the prompt (for the start time: after
    some bytes of the entry), the flow waits out the budget, prints the
    timeout text once and returns, leaving [dst_data_flag] as it was.
    It makes no DST write and no time-set call: its one call into the
    RTC driver is the query of the DST status of line 370, and that only
    when the flag is at [DST_ENABLED_FLAG]. *)
Theorem set_dst_feature_prompt_timeouts
    (fuel : nat) (timeout_ms fmt : Z) (data rr : list Z) (lg : list event) (fl : Z) :
  0 <= fmt < 256 ->
  Forall plain data -> (length data < Z.to_nat STRING_BUFFER_SIZE)%nat ->
  UART_TIMEOUT_MS * Z.of_nat (length data) < timeout_ms < 2 ^ 32 ->
  enough_fuel fuel timeout_ms ->
  let status := if DST_ENABLED_FLAG =? fl then MsgDstStatusInactive
                else MsgDstStatusDisabled in
  let query := if DST_ENABLED_FLAG =? fl then [RtcGetDstStatus false] else [] in
  (exists lg',
      set_dst_feature fuel timeout_ms (Machine (Script [] rr) lg fl)
      = Done tt (Machine (Script [] rr) lg' fl) /\
      printed lg' = printed lg ++ [status; MsgDstMenu; MsgTimeout] /\
      rtc_calls lg' = query ++ rtc_calls lg /\
      enable_dst_calls lg' = enable_dst_calls lg /\
      set_time_calls lg' = set_time_calls lg) /\
  (exists lg',
      set_dst_feature fuel timeout_ms
        (Machine (Script [RTC_CMD_ENABLE_DST] rr) lg fl)
      = Done tt (Machine (Script [] rr) lg' fl) /\
      printed lg'
      = printed lg ++ [status; MsgDstMenu; MsgDstFormatMenu; MsgTimeout] /\
      rtc_calls lg' = query ++ rtc_calls lg /\
      enable_dst_calls lg' = enable_dst_calls lg /\
      set_time_calls lg' = set_time_calls lg) /\
  (fl <> DST_VALID_START_TIME_FLAG -> fl <> DST_VALID_END_TIME_FLAG ->
   exists lg',
     set_dst_feature fuel timeout_ms
       (Machine (Script (RTC_CMD_ENABLE_DST :: fmt :: data) rr) lg fl)
     = Done tt (Machine (Script [] rr) lg' fl) /\
     printed lg'
     = printed lg ++ [status; MsgDstMenu; MsgDstFormatMenu; MsgEnterDstStart;
                      MsgNewline; MsgTimeout] /\
     rtc_calls lg' = query ++ rtc_calls lg /\
     enable_dst_calls lg' = enable_dst_calls lg /\
     set_time_calls lg' = set_time_calls lg).
Proof.
  intros Hfmt Hp Hlen Hto Hf status query.
  assert (Ht : 0 < timeout_ms < 2 ^ 32) by (unfold UART_TIMEOUT_MS in Hto; lia).
  destruct (dst_menu_log_no_write fl lg) as (D1 & D2).
  pose proof (printed_dst_menu_log fl lg) as D3.
  pose proof (rtc_calls_dst_menu_log fl lg) as D4.
  fold status in D3. fold query in D4.
  split; [| split].
  - destruct (set_dst_feature_silent_log fuel timeout_ms rr lg fl Ht Hf)
      as (lg1 & Hrun & Hidle).
    eexists. split; [exact Hrun |].
    destruct (idle_readings _ _ Hidle) as (I1 & _ & _ & I4 & I5 & _).
    cbn [printed rtc_calls rtc_call enable_dst_calls set_time_calls].
    rewrite (rtc_calls_idle _ _ Hidle), I1, I4, I5, D1, D2, D3, D4, <- app_assoc.
    repeat split; reflexivity.
  - rewrite set_dst_feature_enable_key.
    destruct (enable_dst_format_silent_log fuel timeout_ms rr
                (UartGet RTC_CMD_ENABLE_DST :: dst_menu_log fl lg) fl Ht Hf)
      as (lg1 & Hrun & Hidle).
    eexists. split; [exact Hrun |].
    destruct (idle_readings _ _ Hidle) as (I1 & _ & _ & I4 & I5 & _).
    cbn [printed rtc_calls rtc_call enable_dst_calls set_time_calls] in *.
    rewrite (rtc_calls_idle _ _ Hidle). cbn [rtc_calls rtc_call].
    rewrite I1, I4, I5, D1, D2, D3, D4, <- !app_assoc.
    repeat split; reflexivity.
  - intros H1 H2. rewrite set_dst_feature_enable_key.
    destruct (enable_dst_start_silent_log fuel timeout_ms fmt data rr
                (UartGet RTC_CMD_ENABLE_DST :: dst_menu_log fl lg) fl
                Hfmt Hp Hlen Hto Hf H1 H2)
      as (lg1 & Hrun & Hidle).
    eexists. split; [exact Hrun |].
    destruct (idle_readings _ _ Hidle) as (I1 & _ & _ & I4 & I5 & _).
    destruct (typed_log_readings data
                (UartPutString MsgEnterDstStart :: UartGet fmt
                   :: UartPutString MsgDstFormatMenu
                   :: UartGet RTC_CMD_ENABLE_DST :: dst_menu_log fl lg) Hp)
      as (T1 & _ & _ & T4 & T5).
    cbn [printed rtc_calls rtc_call enable_dst_calls set_time_calls] in *.
    rewrite (rtc_calls_idle _ _ Hidle), rtc_calls_typed_log.
    cbn [rtc_calls rtc_call].
    rewrite I1, I4, I5, T1, T4, T5, D1, D2, D3, D4, <- !app_assoc.
    repeat split; reflexivity.
Qed.

Lemma set_dst_feature_prompt_timeouts_witness :
  0 <= 49 < 256 /\
  Forall plain [48; 51; 32; 49] /\
  (length [48; 51; 32; 49] < Z.to_nat STRING_BUFFER_SIZE)%nat /\
  UART_TIMEOUT_MS * Z.of_nat (length [48; 51; 32; 49]) < 100 < 2 ^ 32 /\
  enough_fuel 600 100 /\
  DST_ENABLED_FLAG <> DST_VALID_START_TIME_FLAG /\
  DST_ENABLED_FLAG <> DST_VALID_END_TIME_FLAG /\
  (exists lg',
      set_dst_feature 600 100 (Machine (Script [] []) [] DST_ENABLED_FLAG)
      = Done tt (Machine (Script [] []) lg' DST_ENABLED_FLAG) /\
      printed lg' = printed [] ++ [MsgDstStatusInactive; MsgDstMenu; MsgTimeout] /\
      rtc_calls lg' = [RtcGetDstStatus false] ++ rtc_calls [] /\
      enable_dst_calls lg' = enable_dst_calls [] /\
      set_time_calls lg' = set_time_calls []) /\
  (exists lg',
      set_dst_feature 600 100
        (Machine (Script [RTC_CMD_ENABLE_DST] []) [] DST_ENABLED_FLAG)
      = Done tt (Machine (Script [] []) lg' DST_ENABLED_FLAG) /\
      printed lg'
      = printed []
        ++ [MsgDstStatusInactive; MsgDstMenu; MsgDstFormatMenu; MsgTimeout] /\
      rtc_calls lg' = [RtcGetDstStatus false] ++ rtc_calls [] /\
      enable_dst_calls lg' = enable_dst_calls [] /\
      set_time_calls lg' = set_time_calls []) /\
  (exists lg',
      set_dst_feature 600 100
        (Machine (Script (RTC_CMD_ENABLE_DST :: 49 :: [48; 51; 32; 49]) [])
           [] DST_ENABLED_FLAG)
      = Done tt (Machine (Script [] []) lg' DST_ENABLED_FLAG) /\
      printed lg'
      = printed []
        ++ [MsgDstStatusInactive; MsgDstMenu; MsgDstFormatMenu; MsgEnterDstStart;
            MsgNewline; MsgTimeout] /\
      rtc_calls lg' = [RtcGetDstStatus false] ++ rtc_calls [] /\
      enable_dst_calls lg' = enable_dst_calls [] /\
      set_time_calls lg' = set_time_calls []).
Proof.
  assert (Hfmt : 0 <= 49 < 256) by lia.
  assert (Hp : Forall plain [48; 51; 32; 49]) by plain_bytes.
  assert (Hlen : (length [48; 51; 32; 49] < Z.to_nat STRING_BUFFER_SIZE)%nat)
    by (vm_compute; lia).
  assert (Hto : UART_TIMEOUT_MS * Z.of_nat (length [48; 51; 32; 49]) < 100 < 2 ^ 32)
    by (split; vm_compute; reflexivity).
  assert (Hf : enough_fuel 600 100) by fuel_ok.
  assert (H1 : DST_ENABLED_FLAG <> DST_VALID_START_TIME_FLAG) by discriminate.
  assert (H2 : DST_ENABLED_FLAG <> DST_VALID_END_TIME_FLAG) by discriminate.
  split; [exact Hfmt |]. split; [exact Hp |]. split; [exact Hlen |].
  split; [exact Hto |]. split; [exact Hf |]. split; [exact H1 |].
  split; [exact H2 |].
  pose proof (set_dst_feature_prompt_timeouts 600 100 49 [48; 51; 32; 49] [] []
                DST_ENABLED_FLAG Hfmt Hp Hlen Hto Hf) as (A & B & C).
  split; [exact A |]. split; [exact B | exact (C H1 H2)].
Defined.
